(** * Research-Trailhead: pipeline orchestration and idea scoring

    A shallow embedding of [agents/searcher.py], [agents/profiler.py] and the
    two analysis phases of [app.py], with the properties of the scoring
    engine and of the job state machine proved over it.

    Conventions of the embedding:
    - Python [str] is [string]; characters are taken to be ASCII, which is
      where [lower] and [split] are modelled.
    - Python numbers (JSON numbers, the float scores) are exact rationals [Q];
      binary64 rounding is not modelled.
    - A Python call that can raise returns an [outcome]; code with external
      effects runs in the state-and-exception monad [M].
    - The external collaborators (text-analysis service, literature search,
      PDF extraction, the reader agent) and the [json] library are oracles. *)

From Stdlib Require Import ZArith QArith String Ascii List Lia Bool.
From stdpp Require Import base decidable option list gmap strings pretty.
Import ListNotations.

Open Scope string_scope.
Open Scope Z_scope.
Open Scope list_scope.

(** ** Python primitives *)

Module Py.

(** The double quote, for the literal text of prompts and messages. *)
Definition dq : string := String "034"%char EmptyString.

(** The line feed. *)
Definition nl : string := String "010"%char EmptyString.

(** A piece of text between double quotes. *)
Definition q (s : string) : string := dq +:+ s +:+ dq.

(** [c.lower()] on an ASCII character. *)
Definition lower_char (c : ascii) : ascii :=
  let n := nat_of_ascii c in
  if ((65 <=? n) && (n <=? 90))%nat then ascii_of_nat (n + 32) else c.

(** [s.lower()]. *)
Fixpoint lower (s : string) : string :=
  match s with
  | EmptyString => EmptyString
  | String c s' => String (lower_char c) (lower s')
  end.

(** [s.startswith(p)]. *)
Fixpoint startswith (p s : string) : bool :=
  match p, s with
  | EmptyString, _ => true
  | String _ _, EmptyString => false
  | String a p', String b s' => if Ascii.eqb a b then startswith p' s' else false
  end.

(** [sub in s] on strings: is [sub] a contiguous part of [s]. *)
Fixpoint contains (sub s : string) : bool :=
  startswith sub s ||
  match s with
  | EmptyString => false
  | String _ s' => contains sub s'
  end.

(** [c.isspace()] for an ASCII character: tab, line feed, vertical tab, form
    feed, carriage return, the four separators 28..31 and the space. *)
Definition isspace (c : ascii) : bool :=
  let n := nat_of_ascii c in
  (((9 <=? n) && (n <=? 13)) || ((28 <=? n) && (n <=? 32)))%nat.

(** The word being read, closed when a separator or the end is met. *)
Definition flush (cur : string) : list string :=
  match cur with
  | EmptyString => []
  | _ => [cur]
  end.

Fixpoint split_from (cur s : string) : list string :=
  match s with
  | EmptyString => flush cur
  | String c s' =>
      if isspace c then flush cur ++ split_from EmptyString s'
      else split_from (cur +:+ String c EmptyString) s'
  end.

(** [s.split()]: the maximal runs of non-whitespace characters. *)
Definition split (s : string) : list string := split_from EmptyString s.

(** [s.find(c)] for a one-character needle: first index, or -1. *)
Fixpoint find_from (i : Z) (c : ascii) (s : string) : Z :=
  match s with
  | EmptyString => -1
  | String a s' => if Ascii.eqb a c then i else find_from (i + 1) c s'
  end.

Definition find (c : ascii) (s : string) : Z := find_from 0 c s.

(** [s.rfind(c)]: last index, or -1. *)
Fixpoint rfind_from (i : Z) (last : Z) (c : ascii) (s : string) : Z :=
  match s with
  | EmptyString => last
  | String a s' => rfind_from (i + 1) (if Ascii.eqb a c then i else last) c s'
  end.

Definition rfind (c : ascii) (s : string) : Z := rfind_from 0 (-1) c s.

(** [s[:n]] for a non-negative [n]. *)
Fixpoint str_take (n : nat) (s : string) : string :=
  match n, s with
  | O, _ => EmptyString
  | S _, EmptyString => EmptyString
  | S n', String c s' => String c (str_take n' s')
  end.

Fixpoint str_drop (n : nat) (s : string) : string :=
  match n, s with
  | O, _ => s
  | S _, EmptyString => EmptyString
  | S n', String _ s' => str_drop n' s'
  end.

(** [s[a:b]] for indices with [0 <= a], [0 <= b]. *)
Definition slice (a b : Z) (s : string) : string :=
  str_take (Z.to_nat (b - a)) (str_drop (Z.to_nat a) s).

(** [sep.join(l)]. *)
Fixpoint join (sep : string) (l : list string) : string :=
  match l with
  | [] => EmptyString
  | [x] => x
  | x :: l' => x +:+ sep +:+ join sep l'
  end.

(** [min(a, b)]: the second argument only when it is strictly smaller. *)
Definition min (a b : Q) : Q :=
  match Qcompare b a with
  | Lt => b
  | _ => a
  end.

(** Truthiness of a string and of an optional string ([None] or [str]). *)
Definition truthy_str (s : string) : bool :=
  match s with
  | EmptyString => false
  | _ => true
  end.

Definition truthy_opt_str (o : option string) : bool :=
  match o with
  | Some s => truthy_str s
  | None => false
  end.

End Py.

(** ** Exceptions and outcomes *)

Inductive PyExc : Type :=
  | KeyError (key : string)
  | TypeError (msg : string)
  | ValueError (msg : string)
  | JSONDecodeError (msg : string)
  | HTTPError (status_code : Z)
  | RequestException (msg : string)
  | ServiceError (msg : string)
  | AttributeError (msg : string)
  | Exception (msg : string).

(** [str(e)]. *)
Definition str_exc (e : PyExc) : string :=
  match e with
  | KeyError k => "'" +:+ k +:+ "'"
  | TypeError m | ValueError m | JSONDecodeError m
  | RequestException m | ServiceError m | AttributeError m
  | Exception m => m
  | HTTPError c => pretty c +:+ " Error"
  end.

Inductive outcome (A : Type) : Type :=
  | Returned (a : A)
  | Raised (e : PyExc).

Arguments Returned {A} a.
Arguments Raised {A} e.

(** ** JSON values, as [json.loads] builds them *)

#[local] Unset Elimination Schemes.

Inductive Json : Type :=
  | JNull
  | JBool (b : bool)
  | JNum (q : Q)
  | JStr (s : string)
  | JList (l : list Json)
  | JDict (d : list (string * Json)).

#[local] Set Elimination Schemes.

(** The [json] library is not part of the repository: its parser is an
    interface, [None] standing for [json.JSONDecodeError]. *)
Class JsonLib := { json_loads : string -> option Json }.

Module Dict.

(** [key in d] and [d.get(key)] on a dict kept as an association list. *)
Fixpoint get (key : string) (d : list (string * Json)) : option Json :=
  match d with
  | [] => None
  | (k, v) :: d' => if String.eqb k key then Some v else get key d'
  end.

(** [d[key] = v]: an existing key keeps its place, a new one goes last. *)
Fixpoint set (key : string) (v : Json) (d : list (string * Json))
  : list (string * Json) :=
  match d with
  | [] => [(key, v)]
  | (k, v') :: d' =>
      if String.eqb k key then (k, v) :: d' else (k, v') :: set key v d'
  end.

End Dict.

(** [obj[key]] for a string key, on whatever [json.loads] returned. *)
Definition getitem (obj : Json) (key : string) : outcome Json :=
  match obj with
  | JDict d =>
      match Dict.get key d with
      | Some v => Returned v
      | None => Raised (KeyError key)
      end
  | JList _ => Raised (TypeError "list indices must be integers or slices, not str")
  | JStr _ => Raised (TypeError "string indices must be integers")
  | _ => Raised (TypeError "object is not subscriptable")
  end.

(** [obj[key] = v]. *)
Definition setitem (obj : Json) (key : string) (v : Json) : outcome Json :=
  match obj with
  | JDict d => Returned (JDict (Dict.set key v d))
  | JList _ => Raised (TypeError "list indices must be integers or slices, not str")
  | _ => Raised (TypeError "object does not support item assignment")
  end.

(** [obj.get(key)], a method of dicts only. *)
Definition get_method (obj : Json) (key : string) : outcome (option Json) :=
  match obj with
  | JDict d => Returned (Dict.get key d)
  | _ => Raised (AttributeError "object has no attribute 'get'")
  end.

(** Truthiness of a JSON value. *)
Definition truthy (x : Json) : bool :=
  match x with
  | JNull => false
  | JBool b => b
  | JNum q => negb (Qeq_bool q 0)
  | JStr s => Py.truthy_str s
  | JList l => match l with [] => false | _ => true end
  | JDict d => match d with [] => false | _ => true end
  end.

(** [w * x] for a float weight [w]: numbers and booleans multiply, anything
    else raises. *)
Definition float_mul (w : Q) (x : Json) : outcome Q :=
  match x with
  | JNum q => Returned (w * q)%Q
  | JBool b => Returned (w * (if b then 1 else 0))%Q
  | _ => Raised (TypeError "unsupported operand type(s) for *")
  end.

(** ** Data model *)

(** A candidate idea of the reader output: [title], [description],
    [rationale], [topic_tags]. *)
Record Idea : Type := {
  idea_title : string;
  idea_description : string;
  idea_rationale : string;
  idea_topic_tags : list string
}.

(** A record of the literature-search reply, before filtering. *)
Record RawPaper : Type := {
  raw_title : string;
  raw_abstract : option string;
  raw_year : option Z;
  raw_citationCount : Z;
  raw_authors : list string;
  raw_url : string
}.

(** A paper as [_search_papers] formats it. *)
Record Paper : Type := {
  paper_title : string;
  paper_abstract : string;
  paper_year : option Z;
  paper_citations : Z;
  paper_authors : list string;
  paper_url : string
}.

(** An entry of [scored_ideas]; [literature_synthesis] is set on the
    selected entries only. *)
Record ScoredIdea : Type := {
  idea : Idea;
  papers : list Paper;
  novelty_assessment : Json;
  doability_assessment : Json;
  topic_match_score : Q;
  composite_score : Q;
  literature_synthesis : option Json
}.

(** What [research_ideas] returns. *)
Record SearcherOutput : Type := {
  top_ideas : list ScoredIdea;
  total_ideas_analyzed : nat
}.

(** ** The external world *)

Inductive LlmReply : Type :=
  | LlmText (text : string)
  | LlmFails (e : PyExc).

Inductive HttpReply : Type :=
  | HttpResponse (status_code : Z) (data : option (list RawPaper))
  | HttpFails (e : PyExc).

(** What the reader agent returns: [summary], [concepts] and, when the key
    is there, [ideas]. *)
Record ReaderOutput : Type := {
  ro_summary : string;
  ro_concepts : list string;
  ro_ideas : option (list Idea)
}.

(** The collaborators answer by call number and request; every request and
    every pause is logged, oldest first. *)
Record World : Type := {
  llm : nat -> string -> LlmReply;
  http : nat -> string -> HttpReply;
  pdf : string -> outcome string;
  reader : string -> list string -> outcome ReaderOutput;
  prompts : list string;
  queries : list string;
  sleeps : list Z;
  extractions : list string;
  readings : list (string * list string)
}.

Definition log_prompt (p : string) (w : World) : World :=
  {| llm := llm w; http := http w; pdf := pdf w; reader := reader w;
     prompts := prompts w ++ [p]; queries := queries w; sleeps := sleeps w;
     extractions := extractions w; readings := readings w |}.

Definition log_query (x : string) (w : World) : World :=
  {| llm := llm w; http := http w; pdf := pdf w; reader := reader w;
     prompts := prompts w; queries := queries w ++ [x]; sleeps := sleeps w;
     extractions := extractions w; readings := readings w |}.

Definition log_sleep (t : Z) (w : World) : World :=
  {| llm := llm w; http := http w; pdf := pdf w; reader := reader w;
     prompts := prompts w; queries := queries w; sleeps := sleeps w ++ [t];
     extractions := extractions w; readings := readings w |}.

Definition log_extraction (f : string) (w : World) : World :=
  {| llm := llm w; http := http w; pdf := pdf w; reader := reader w;
     prompts := prompts w; queries := queries w; sleeps := sleeps w;
     extractions := extractions w ++ [f]; readings := readings w |}.

Definition log_reading (r : string * list string) (w : World) : World :=
  {| llm := llm w; http := http w; pdf := pdf w; reader := reader w;
     prompts := prompts w; queries := queries w; sleeps := sleeps w;
     extractions := extractions w; readings := readings w ++ [r] |}.

(** ** The state-and-exception monad *)

Definition M (S A : Type) : Type := S -> outcome A * S.

Definition ret {S A : Type} (a : A) : M S A := fun s => (Returned a, s).

Definition raise {S A : Type} (e : PyExc) : M S A := fun s => (Raised e, s).

Definition bind {S A B : Type} (c : M S A) (k : A -> M S B) : M S B :=
  fun s =>
    match c s with
    | (Returned a, s') => k a s'
    | (Raised e, s') => (Raised e, s')
    end.

(** [try: c / except ... as e: h e]; the effects of [c] up to the raise
    stay. *)
Definition try_except {S A : Type} (c : M S A) (h : PyExc -> M S A) : M S A :=
  fun s =>
    match c s with
    | (Returned a, s') => (Returned a, s')
    | (Raised e, s') => h e s'
    end.

Definition lift {S A : Type} (o : outcome A) : M S A := fun s => (o, s).

Declare Scope monad_scope.
Delimit Scope monad_scope with monad.
Notation "x <- c ;; k" := (bind c (fun x => k))
  (at level 100, c at next level, right associativity) : monad_scope.
Notation "c ;;; k" := (bind c (fun _ => k))
  (at level 100, right associativity) : monad_scope.
Open Scope monad_scope.

(** A [for] loop that builds a list, one entry per element. *)
Fixpoint for_each {S A B : Type} (f : A -> M S B) (l : list A) : M S (list B) :=
  match l with
  | [] => ret []
  | a :: rest =>
      b <- f a ;;
      bs <- for_each f rest ;;
      ret (b :: bs)
  end.

(** [model.generate_content(prompt).text]. *)
Definition generate_content (prompt : string) : M World string :=
  fun w =>
    let w' := log_prompt prompt w in
    match llm w (length (prompts w)) prompt with
    | LlmText t => (Returned t, w')
    | LlmFails e => (Raised e, w')
    end.

(** [requests.get(url, params=..., timeout=10)] on the search endpoint,
    with the query, the limit of 20 and the fixed list of fields. *)
Definition requests_get (query : string)
  : M World (Z * option (list RawPaper)) :=
  fun w =>
    let w' := log_query query w in
    match http w (length (queries w)) query with
    | HttpResponse c d => (Returned (c, d), w')
    | HttpFails e => (Raised e, w')
    end.

(** [time.sleep(t)]. *)
Definition sleep (t : Z) : M World unit :=
  fun w => (Returned tt, log_sleep t w).

(** ** The searcher agent ([agents/searcher.py]) *)

(** [str(x)] of a year that may be [None]. *)
Definition str_year (y : option Z) : string :=
  match y with
  | Some n => pretty n
  | None => "None"
  end.

(** The query of [_search_papers]: the title and the first 100 characters
    of the description. *)
Definition search_query (idea : Idea) : string :=
  idea_title idea +:+ " " +:+ Py.str_take 100 (idea_description idea).

(** [if paper.get('abstract')]: there is an abstract and it is not empty. *)
Definition has_abstract (p : RawPaper) : bool :=
  Py.truthy_opt_str (raw_abstract p).

Definition format_paper (p : RawPaper) : Paper :=
  {| paper_title := raw_title p;
     paper_abstract := default EmptyString (raw_abstract p);
     paper_year := raw_year p;
     paper_citations := raw_citationCount p;
     paper_authors := take 3 (raw_authors p);
     paper_url := raw_url p |}.

(** The filter-and-format loop over the papers of a reply. *)
Fixpoint format_papers (l : list RawPaper) : list Paper :=
  match l with
  | [] => []
  | p :: l' =>
      if has_abstract p then format_paper p :: format_papers l'
      else format_papers l'
  end.

(** [response.raise_for_status()]. *)
Definition raise_for_status (status_code : Z) : M World unit :=
  if (400 <=? status_code) && (status_code <? 600)
  then raise (HTTPError status_code)
  else ret tt.

(** [response.json()] then [data.get('data', [])]. *)
Definition response_data (d : option (list RawPaper)) : M World (list RawPaper) :=
  match d with
  | Some l => ret l
  | None => raise (JSONDecodeError "Expecting value")
  end.

(** The wait before the next attempt: [(2 ** attempt) * 2]. *)
Definition wait_time (attempt : Z) : Z := (2 ^ attempt) * 2.

(** One pass of the retry loop of [_search_papers]; [None] is [continue],
    [Some l] is [return l]. *)
Definition search_attempt (query : string) (max_retries attempt : Z)
  : M World (option (list Paper)) :=
  try_except
    (r <- requests_get query ;;
     let '(status_code, d) := r in
     if status_code =? 429 then
       (sleep (wait_time attempt) ;;; ret None)
     else
       (raise_for_status status_code ;;;
        l <- response_data d ;;
        ret (Some (format_papers l))))
    (fun e =>
       match e with
       | HTTPError c =>
           if (c =? 429) && (attempt <? max_retries - 1)
           then (sleep (wait_time attempt) ;;; ret None)
           else ret (Some [])
       | _ => ret (Some [])
       end).

Fixpoint search_loop (query : string) (max_retries : Z) (attempts : list Z)
  : M World (list Paper) :=
  match attempts with
  | [] => ret []
  | attempt :: rest =>
      r <- search_attempt query max_retries attempt ;;
      match r with
      | Some l => ret l
      | None => search_loop query max_retries rest
      end
  end.

(** [range(n)]. *)
Definition range (n : Z) : list Z := map Z.of_nat (seq 0 (Z.to_nat n)).

Definition max_retries_default : Z := 3.

Definition _search_papers (idea : Idea) : M World (list Paper) :=
  search_loop (search_query idea) max_retries_default (range max_retries_default).

(** The JSON span of a reply, as the three assessments cut it: from the
    first opening brace to the last closing one, or the whole text. *)
Definition json_span (content : string) : string :=
  let json_start := Py.find "{"%char content in
  let json_end := Py.rfind "}"%char content + 1 in
  if negb (json_start =? -1) && (json_start <? json_end)
  then Py.slice json_start json_end content
  else content.

Section WithJson.

Context `{JsonLib}.

Definition loads (content : string) : M World Json :=
  match json_loads content with
  | Some j => ret j
  | None => raise (JSONDecodeError "Expecting value")
  end.

Definition novelty_paper_line (p : Paper) : string :=
  "Title: " +:+ paper_title p +:+ Py.nl +:+
  "Year: " +:+ str_year (paper_year p) +:+ Py.nl +:+
  "Abstract: " +:+ Py.str_take 300 (paper_abstract p) +:+ "...".

Definition novelty_prompt (idea : Idea) (papers : list Paper) : string :=
  let papers_summary :=
    Py.join (Py.nl +:+ Py.nl) (map novelty_paper_line (take 10 papers)) in
  "Assess the novelty of this research idea based on existing literature.

Research Idea:
Title: " +:+ idea_title idea +:+ "
Description: " +:+ idea_description idea +:+ "

Related Papers Found:
" +:+ papers_summary +:+ "

Assess:
1. Has this specific idea been extensively explored? (Yes/Partially/No)
2. Research maturity level: Unexplored / Emerging / Active / Saturated
3. What specific gap or unexplored angle does this idea address?
4. Novelty score: Rate 1-5 (1=extensively explored, 5=highly novel)

Return ONLY valid JSON:
{
  " +:+ Py.q "explored" +:+ ": " +:+ Py.q "Yes/Partially/No" +:+ ",
  " +:+ Py.q "maturity" +:+ ": " +:+ Py.q "Unexplored/Emerging/Active/Saturated" +:+ ",
  " +:+ Py.q "gap" +:+ ": " +:+ Py.q "description of gap" +:+ ",
  " +:+ Py.q "novelty_score" +:+ ": 1-5
}".

Definition novelty_fallback : Json :=
  JDict [("explored", JStr "Unknown");
         ("maturity", JStr "Unknown");
         ("gap", JStr "Unable to assess");
         ("novelty_score", JNum 3)].

Definition _assess_novelty (idea : Idea) (papers : list Paper) : M World Json :=
  let prompt := novelty_prompt idea papers in
  try_except
    (content <- generate_content prompt ;;
     loads (json_span content))
    (fun _ => ret novelty_fallback).

Definition doability_prompt (idea : Idea) : string :=
  "Assess the feasibility and doability of this research idea.

Research Idea:
Title: " +:+ idea_title idea +:+ "
Description: " +:+ idea_description idea +:+ "

Based on the idea and typical research resources, assess:
1. Data availability: Are datasets available or need to be collected? (Available/Partially/Need to Collect)
2. Methodology complexity: Can standard methods be used? (Standard/Moderate/Novel Methods Needed)
3. Estimated timeline: (3 months / 6 months / 1 year+)
4. Required expertise: (Undergraduate / Masters / PhD level)
5. Doability score: Rate 1-5 (1=very difficult, 5=highly doable)

Return ONLY valid JSON:
{
  " +:+ Py.q "data_availability" +:+ ": " +:+
  Py.q "Available/Partially/Need to Collect" +:+ ",
  " +:+ Py.q "methodology" +:+ ": " +:+
  Py.q "Standard/Moderate/Novel Methods Needed" +:+ ",
  " +:+ Py.q "timeline" +:+ ": " +:+ Py.q "3 months/6 months/1 year+" +:+ ",
  " +:+ Py.q "expertise_level" +:+ ": " +:+
  Py.q "Undergraduate/Masters/PhD level" +:+ ",
  " +:+ Py.q "doability_score" +:+ ": 1-5
}".

Definition doability_fallback : Json :=
  JDict [("data_availability", JStr "Unknown");
         ("methodology", JStr "Unknown");
         ("timeline", JStr "Unknown");
         ("expertise_level", JStr "Unknown");
         ("doability_score", JNum 3)].

Definition _assess_doability (idea : Idea) (papers : list Paper) : M World Json :=
  let prompt := doability_prompt idea in
  try_except
    (content <- generate_content prompt ;;
     loads (json_span content))
    (fun _ => ret doability_fallback).

End WithJson.

(** [any(topic in tag or tag in topic for topic in user_topics_lower)]. *)
Definition any_topic (user_topics_lower : list string) (tag : string) : bool :=
  existsb (fun topic => Py.contains topic tag || Py.contains tag topic)
          user_topics_lower.

(** [sum(1 for tag in idea_tags if any(...))]. *)
Fixpoint count_matches (user_topics_lower idea_tags : list string) : Z :=
  match idea_tags with
  | [] => 0
  | tag :: rest =>
      (if any_topic user_topics_lower tag then 1 else 0)
      + count_matches user_topics_lower rest
  end.

Definition _calculate_topic_match (idea : Idea) (user_topics : list string) : Q :=
  match user_topics with
  | [] => 3
  | _ :: _ =>
      let idea_tags := map Py.lower (idea_topic_tags idea) in
      let user_topics_lower := map Py.lower user_topics in
      let matches := count_matches user_topics_lower idea_tags in
      match idea_tags with
      | [] => 2.5
      | _ :: _ =>
          let match_ratio :=
            (inject_Z matches / inject_Z (Z.max (Z.of_nat (length user_topics)) 1))%Q in
          Py.min (match_ratio * 5)%Q 5
      end
  end.

(** [set(title.lower().split())]. *)
Definition title_words (x : ScoredIdea) : gset string :=
  list_to_set (Py.split (Py.lower (idea_title (idea x)))).

(** [len(current_words & selected_words) > 3]. *)
Definition too_similar (item selected : ScoredIdea) : bool :=
  bool_decide (3 < size (title_words item ∩ title_words selected))%nat.

(** The inner loop: [is_diverse] stays true until a selected title shares
    more than three words. *)
Fixpoint is_diverse (item : ScoredIdea) (top_3 : list ScoredIdea) : bool :=
  match top_3 with
  | [] => true
  | selected :: rest =>
      if too_similar item selected then false else is_diverse item rest
  end.

(** The outer loop over [scored_ideas[1:]], with its [break]. *)
Fixpoint diverse_loop (top_3 rest : list ScoredIdea) : list ScoredIdea :=
  match rest with
  | [] => top_3
  | item :: rest' =>
      if (3 <=? length top_3)%nat then top_3
      else if is_diverse item top_3
           then diverse_loop (top_3 ++ [item]) rest'
           else diverse_loop top_3 rest'
  end.

Definition _select_diverse_top_3 (scored_ideas : list ScoredIdea)
  : list ScoredIdea :=
  if (length scored_ideas <=? 3)%nat then scored_ideas
  else
    match scored_ideas with
    | [] => scored_ideas
    | first :: rest =>
        let top_3 := diverse_loop [first] rest in
        if (length top_3 <? 3)%nat then take 3 scored_ideas else top_3
    end.

(** [scored_ideas.sort(key=composite_score, reverse=True)]: descending and
    stable, an entry staying ahead of the later entries of equal score. *)
Fixpoint insert_desc (x : ScoredIdea) (l : list ScoredIdea) : list ScoredIdea :=
  match l with
  | [] => [x]
  | y :: l' =>
      match Qcompare (composite_score x) (composite_score y) with
      | Lt => y :: insert_desc x l'
      | _ => x :: y :: l'
      end
  end.

Fixpoint sort_desc (l : list ScoredIdea) : list ScoredIdea :=
  match l with
  | [] => []
  | x :: l' => insert_desc x (sort_desc l')
  end.

Section WithJsonRanking.

Context `{JsonLib}.

Definition synthesis_paper_line (i : nat) (p : Paper) : string :=
  "[" +:+ pretty (Z.of_nat i + 1) +:+ "] " +:+ paper_title p +:+
  " (" +:+ str_year (paper_year p) +:+ ")" +:+ Py.nl +:+
  Py.str_take 200 (paper_abstract p) +:+ "...".

Definition synthesis_prompt (idea : Idea) (papers : list Paper) : string :=
  let papers_text :=
    Py.join (Py.nl +:+ Py.nl) (imap synthesis_paper_line (take 8 papers)) in
  "Synthesize the literature for this research idea.

Research Idea: " +:+ idea_title idea +:+ "

Related Papers:
" +:+ papers_text +:+ "

Create a synthesis that includes:
1. A brief overview of what has been done (2-3 sentences)
2. Key papers categorized as: Foundational Work, Recent Advances, or Identifies Gaps
3. What's missing or unexplored
4. Suggested approach (methodology, potential datasets, concrete next steps)

Return ONLY valid JSON:
{
  " +:+ Py.q "overview" +:+ ": " +:+ Py.q "What has been done..." +:+ ",
  " +:+ Py.q "key_papers" +:+ ": [
    {" +:+ Py.q "paper_index" +:+ ": 1, " +:+ Py.q "category" +:+ ": " +:+
  Py.q "Foundational/Recent/Gap" +:+ ", " +:+ Py.q "summary" +:+ ": " +:+
  Py.q "2 sentence summary" +:+ "},
    ...
  ],
  " +:+ Py.q "whats_missing" +:+ ": " +:+ Py.q "The specific gap..." +:+ ",
  " +:+ Py.q "suggested_approach" +:+ ": " +:+ Py.q "Concrete next steps..." +:+ "
}".

Definition synthesis_fallback : Json :=
  JDict [("overview", JStr "Unable to synthesize");
         ("key_papers", JList []);
         ("whats_missing", JStr "Unable to assess");
         ("suggested_approach", JStr "Unable to provide")].

Definition _synthesize_literature (idea : Idea) (papers : list Paper)
  : M World Json :=
  let prompt := synthesis_prompt idea papers in
  try_except
    (content <- generate_content prompt ;;
     loads (json_span content))
    (fun _ => ret synthesis_fallback).

(** The body of the scoring loop of [research_ideas], for one idea. *)
Definition score_idea (user_topics : list string) (idea : Idea)
  : M World ScoredIdea :=
  papers <- _search_papers idea ;;
  novelty_assessment <- _assess_novelty idea papers ;;
  doability_assessment <- _assess_doability idea papers ;;
  let topic_match_score := _calculate_topic_match idea user_topics in
  novelty_score <- lift (getitem novelty_assessment "novelty_score") ;;
  weighted_novelty <- lift (float_mul 0.3 novelty_score) ;;
  doability_score <- lift (getitem doability_assessment "doability_score") ;;
  weighted_doability <- lift (float_mul 0.4 doability_score) ;;
  let composite_score :=
    (weighted_novelty + weighted_doability + 0.3 * topic_match_score)%Q in
  sleep 3 ;;;
  ret {| idea := idea;
         papers := take 8 papers;
         novelty_assessment := novelty_assessment;
         doability_assessment := doability_assessment;
         topic_match_score := topic_match_score;
         composite_score := composite_score;
         literature_synthesis := None |}.

(** [item['literature_synthesis'] = ...] on one selected entry. *)
Definition synthesize_item (item : ScoredIdea) : M World ScoredIdea :=
  s <- _synthesize_literature (idea item) (papers item) ;;
  ret {| idea := idea item;
         papers := papers item;
         novelty_assessment := novelty_assessment item;
         doability_assessment := doability_assessment item;
         topic_match_score := topic_match_score item;
         composite_score := composite_score item;
         literature_synthesis := Some s |}.

Definition research_ideas (ideas : list Idea) (user_topics : list string)
  : M World SearcherOutput :=
  scored_ideas <- for_each (score_idea user_topics) ideas ;;
  let scored_ideas := sort_desc scored_ideas in
  let top_ideas := _select_diverse_top_3 scored_ideas in
  top_ideas <- for_each synthesize_item top_ideas ;;
  ret {| top_ideas := top_ideas; total_ideas_analyzed := length ideas |}.

End WithJsonRanking.

(** ** The profiler agent ([agents/profiler.py]) *)

Section WithJsonProfiler.

Context `{JsonLib}.

(** The optional line of the prompt that repeats the stated level. *)
Definition stated_level_line (experience_level : option string) : string :=
  if Py.truthy_opt_str experience_level
  then "STATED EXPERIENCE LEVEL: " +:+ default EmptyString experience_level
  else EmptyString.

Definition profile_prompt (description : string)
  (experience_level : option string) : string :=
  "You are a research profile analyzer. Analyze this researcher's description and create a structured profile.

RESEARCHER'S DESCRIPTION:
" +:+ description +:+ "

" +:+ stated_level_line experience_level +:+ "

Extract and infer the following information, returning ONLY valid JSON:

{
  " +:+ Py.q "expertise_level" +:+ ": " +:+ Py.q "Undergraduate Student" +:+
  " | " +:+ Py.q "PhD Student" +:+ " | " +:+ Py.q "Postdoc" +:+ " | " +:+
  Py.q "Assistant Professor" +:+ " | " +:+
  Py.q "Associate/Full Professor" +:+ " | " +:+
  Py.q "Industry Researcher" +:+ ",
  " +:+ Py.q "research_areas" +:+ ": [" +:+ Py.q "area1" +:+ ", " +:+
  Py.q "area2" +:+ ", ...],  // 3-5 broad areas (e.g., " +:+
  Py.q "Natural Language Processing" +:+ ", " +:+ Py.q "Computer Vision" +:+ ")
  " +:+ Py.q "specific_topics" +:+ ": [" +:+ Py.q "topic1" +:+ ", " +:+
  Py.q "topic2" +:+ ", ...],  // 5-10 specific topics (e.g., " +:+
  Py.q "Transformers" +:+ ", " +:+ Py.q "Few-shot Learning" +:+ ")
  " +:+ Py.q "technical_skills" +:+ ": [" +:+ Py.q "skill1" +:+ ", " +:+
  Py.q "skill2" +:+
  ", ...],  // Technical skills/tools mentioned (e.g., " +:+
  Py.q "PyTorch" +:+ ", " +:+ Py.q "TensorFlow" +:+ ")
  " +:+ Py.q "research_style" +:+ ": " +:+ Py.q "Empirical" +:+ " | " +:+
  Py.q "Theoretical" +:+ " | " +:+ Py.q "Applied" +:+ " | " +:+
  Py.q "Mixed" +:+ ",  // Infer from description
  " +:+ Py.q "resource_access" +:+ ": " +:+ Py.q "Limited" +:+ " | " +:+
  Py.q "Moderate" +:+ " | " +:+ Py.q "Extensive" +:+ ",  // Infer from position/institution
  " +:+ Py.q "publication_count" +:+ ": 0,  // Estimate if mentioned, otherwise 0
  " +:+ Py.q "h_index" +:+ ": 0,  // Estimate if mentioned, otherwise 0
  " +:+ Py.q "novelty_preference" +:+ ": 0.5,  // 0-1, infer willingness to pursue novel/risky ideas
  " +:+ Py.q "doability_preference" +:+ ": 0.7  // 0-1, infer preference for practical/doable projects
}

GUIDELINES:
- For research_areas: Extract broad fields like " +:+ Py.q "Machine Learning" +:+ ", " +:+ Py.q "Bioinformatics" +:+ ", " +:+
  Py.q "Robotics" +:+ "
- For specific_topics: Extract specific methods, models, or subfields mentioned
- For technical_skills: Include frameworks, languages, tools explicitly mentioned
- For research_style:
  * " +:+ Py.q "Empirical" +:+ ": Focus on experiments, datasets, benchmarks
  * " +:+ Py.q "Theoretical" +:+ ": Focus on proofs, algorithms, mathematical foundations
  * " +:+ Py.q "Applied" +:+ ": Focus on real-world applications, systems
  * " +:+ Py.q "Mixed" +:+ ": Combination of above
- For resource_access:
  * " +:+ Py.q "Limited" +:+ ": Undergrad/early PhD, no mention of compute resources
  * " +:+ Py.q "Moderate" +:+ ": PhD student/postdoc at known institution
  * " +:+ Py.q "Extensive" +:+ ": Professor, industry researcher, mentions large compute
- For novelty_preference: Higher if they mention " +:+ Py.q "novel" +:+ ", " +:+ Py.q "innovative" +:+ ", " +:+
  Py.q "breakthrough" +:+ "; lower if they mention " +:+ Py.q "practical" +:+
  ", " +:+ Py.q "incremental" +:+ "
- For doability_preference: Higher if they mention " +:+ Py.q "feasible" +:+ ", " +:+ Py.q "practical" +:+ ", " +:+
  Py.q "implementable" +:+ "; lower if they're open to ambitious projects

Return ONLY the JSON object, no other text.".

(** [experience_level or "PhD Student"]. *)
Definition level_or_default (experience_level : option string) : string :=
  if Py.truthy_opt_str experience_level
  then default EmptyString experience_level
  else "PhD Student".

Definition default_profile (experience_level : option string) : Json :=
  JDict [("expertise_level", JStr (level_or_default experience_level));
         ("research_areas", JList [JStr "Machine Learning"]);
         ("specific_topics", JList []);
         ("technical_skills", JList []);
         ("research_style", JStr "Mixed");
         ("resource_access", JStr "Moderate");
         ("publication_count", JNum 0);
         ("h_index", JNum 0);
         ("novelty_preference", JNum 0.5);
         ("doability_preference", JNum 0.7)].

(** The [try] block of [analyze_description]. *)
Definition analyze_description_try (prompt : string)
  (experience_level : option string) : M World Json :=
  content <- generate_content prompt ;;
  let json_start := Py.find "{"%char content in
  let json_end := Py.rfind "}"%char content + 1 in
  if (0 <=? json_start) && (json_start <? json_end) then
    (let profile_json := Py.slice json_start json_end content in
     profile <- loads profile_json ;;
     if Py.truthy_opt_str experience_level
     then lift (setitem profile "expertise_level"
                        (JStr (default EmptyString experience_level)))
     else ret profile)
  else raise (ValueError "No valid JSON found in response").

Definition analyze_description (description : string)
  (experience_level : option string) : M World Json :=
  let prompt := profile_prompt description experience_level in
  try_except
    (analyze_description_try prompt experience_level)
    (fun _ => ret (default_profile experience_level)).

End WithJsonProfiler.

(** ** The analysis job and its store ([models.py]) *)

Inductive Status : Type :=
  | pending | uploaded | parsing | reading
  | ideas_ready | searching | complete | error.

#[global] Instance Status_eq_dec : EqDecision Status.
Proof. solve_decision. Defined.

(** The text kept in the [status] column. *)
Definition status_name (s : Status) : string :=
  match s with
  | pending => "pending"
  | uploaded => "uploaded"
  | parsing => "parsing"
  | reading => "reading"
  | ideas_ready => "ideas_ready"
  | searching => "searching"
  | complete => "complete"
  | error => "error"
  end.

(** A row of [analyses]; of the time stamps only whether [completed_at]
    has been set is kept. *)
Record Analysis : Type := {
  paper_id : string;
  selected_topics : list string;
  user_profile_snapshot : option Json;
  reader_output : option ReaderOutput;
  searcher_output : option SearcherOutput;
  status : Status;
  progress : Z;
  error_message : option string;
  completed_at : bool
}.

(** A row of [papers]. *)
Record PaperRow : Type := {
  pdf_filename : string;
  user_id : option string
}.

(** A row of [users]. *)
Record User : Type := {
  profile : option Json
}.

(** A row of [research_ideas] together with its [references] rows. *)
Record ResearchIdea : Type := {
  ri_analysis_id : string;
  ri_rank : Z;
  ri_title : string;
  ri_description : string;
  ri_rationale : string;
  ri_novelty_score : option Json;
  ri_doability_score : option Json;
  ri_topic_match_score : Q;
  ri_composite_score : Q;
  ri_novelty_assessment : Json;
  ri_doability_assessment : Json;
  ri_literature_synthesis : option Json;
  ri_references : list Paper
}.

(** The committed content of the database. *)
Record Db : Type := {
  analyses : gmap string Analysis;
  paper_rows : gmap string PaperRow;
  users : gmap string User;
  research_idea_rows : list ResearchIdea
}.

(** The state the two phases run in: the collaborators, the committed
    database, and the stores of the earlier commits, oldest first. *)
Record St : Type := {
  world : World;
  db : Db;
  history : list Db
}.

(** ** The two analysis phases ([app.py]) *)

(** What an endpoint answers: an error payload with its HTTP code, or the
    success payload of a phase, sent with code 200. *)
Inductive Response : Type :=
  | ErrorResponse (code : Z) (msg : string)
  | ReadResponse (job_id : string) (summary : string)
      (concepts : list string) (ideas : list Idea)
  | SearchResponse (job_id : string) (top_ideas : list ResearchIdea).

Definition response_code (r : Response) : Z :=
  match r with
  | ErrorResponse c _ => c
  | _ => 200
  end.

(** A client error is a 4xx answer. *)
Definition client_error (r : Response) : Prop :=
  match r with
  | ErrorResponse c _ => 400 <= c < 500
  | _ => False
  end.

Definition set_analysis (job_id : string) (a : Analysis) (d : Db) : Db :=
  {| analyses := <[job_id := a]> (analyses d);
     paper_rows := paper_rows d;
     users := users d;
     research_idea_rows := research_idea_rows d |}.

Definition add_research_ideas (rows : list ResearchIdea) (d : Db) : Db :=
  {| analyses := analyses d;
     paper_rows := paper_rows d;
     users := users d;
     research_idea_rows := research_idea_rows d ++ rows |}.

(** [db.commit()]: the pending store becomes the committed one. *)
Definition commit (pending_db : Db) : M St unit :=
  fun s =>
    (Returned tt,
     {| world := world s; db := pending_db; history := history s ++ [db s] |}).

Definition committed : M St Db := fun s => (Returned (db s), s).

(** A call to a collaborator from inside a phase. *)
Definition in_world {A : Type} (c : M World A) : M St A :=
  fun s =>
    let '(o, w) := c (world s) in
    (o, {| world := w; db := db s; history := history s |}).

(** [extract_text_from_pdf(filepath)] of [utils/pdf_parser.py], which is
    not among the embedded sources: any function of the world, logged; an
    empty text stands for any falsy result. *)
Definition extract_text_from_pdf (filepath : string) : M World string :=
  fun w => (pdf w filepath, log_extraction filepath w).

(** [ReaderAgent().analyze_paper(paper_text, topics)] of
    [agents/reader.py], which is not among the embedded sources either: any
    function of the world, logged. *)
Definition analyze_paper (paper_text : string) (topics : list string)
  : M World ReaderOutput :=
  fun w => (reader w paper_text topics, log_reading (paper_text, topics) w).

(** Assignments to the fields of the [analysis] object. *)
Definition with_status (st : Status) (a : Analysis) : Analysis :=
  {| paper_id := paper_id a; selected_topics := selected_topics a;
     user_profile_snapshot := user_profile_snapshot a;
     reader_output := reader_output a; searcher_output := searcher_output a;
     status := st; progress := progress a;
     error_message := error_message a; completed_at := completed_at a |}.

Definition with_progress (p : Z) (a : Analysis) : Analysis :=
  {| paper_id := paper_id a; selected_topics := selected_topics a;
     user_profile_snapshot := user_profile_snapshot a;
     reader_output := reader_output a; searcher_output := searcher_output a;
     status := status a; progress := p;
     error_message := error_message a; completed_at := completed_at a |}.

Definition with_selected_topics (t : list string) (a : Analysis) : Analysis :=
  {| paper_id := paper_id a; selected_topics := t;
     user_profile_snapshot := user_profile_snapshot a;
     reader_output := reader_output a; searcher_output := searcher_output a;
     status := status a; progress := progress a;
     error_message := error_message a; completed_at := completed_at a |}.

Definition with_user_profile_snapshot (x : Json) (a : Analysis) : Analysis :=
  {| paper_id := paper_id a; selected_topics := selected_topics a;
     user_profile_snapshot := Some x;
     reader_output := reader_output a; searcher_output := searcher_output a;
     status := status a; progress := progress a;
     error_message := error_message a; completed_at := completed_at a |}.

Definition with_reader_output (r : ReaderOutput) (a : Analysis) : Analysis :=
  {| paper_id := paper_id a; selected_topics := selected_topics a;
     user_profile_snapshot := user_profile_snapshot a;
     reader_output := Some r; searcher_output := searcher_output a;
     status := status a; progress := progress a;
     error_message := error_message a; completed_at := completed_at a |}.

Definition with_searcher_output (r : SearcherOutput) (a : Analysis) : Analysis :=
  {| paper_id := paper_id a; selected_topics := selected_topics a;
     user_profile_snapshot := user_profile_snapshot a;
     reader_output := reader_output a; searcher_output := Some r;
     status := status a; progress := progress a;
     error_message := error_message a; completed_at := completed_at a |}.

Definition with_error_message (m : string) (a : Analysis) : Analysis :=
  {| paper_id := paper_id a; selected_topics := selected_topics a;
     user_profile_snapshot := user_profile_snapshot a;
     reader_output := reader_output a; searcher_output := searcher_output a;
     status := status a; progress := progress a;
     error_message := Some m; completed_at := completed_at a |}.

Definition with_completed_at (a : Analysis) : Analysis :=
  {| paper_id := paper_id a; selected_topics := selected_topics a;
     user_profile_snapshot := user_profile_snapshot a;
     reader_output := reader_output a; searcher_output := searcher_output a;
     status := status a; progress := progress a;
     error_message := error_message a; completed_at := true |}.

(** The [except Exception as e] block shared by the two phases: after the
    rollback the job is read again from the committed store, marked
    [error] with the message, and committed. *)
Definition fail_job (job_id : option string) (e : PyExc) : M St Response :=
  (if Py.truthy_opt_str job_id then
     d <- committed ;;
     match analyses d !! default EmptyString job_id with
     | Some analysis =>
         let analysis := with_status error analysis in
         let analysis := with_error_message (str_exc e) analysis in
         commit (set_analysis (default EmptyString job_id) analysis d)
     | None => ret tt
     end
   else ret tt) ;;;
  ret (ErrorResponse 500 (str_exc e)).

(** The profile snapshot taken by the read phase, when the paper has a
    user with a profile. *)
Definition snapshot_profile (d : Db) (paper : PaperRow) (analysis : Analysis)
  : Analysis :=
  if Py.truthy_opt_str (user_id paper) then
    match users d !! default EmptyString (user_id paper) with
    | Some user =>
        match profile user with
        | Some p => if truthy p then with_user_profile_snapshot p analysis
                    else analysis
        | None => analysis
        end
    | None => analysis
    end
  else analysis.

Definition upload_folder : string := "uploads".

(** The [try] block of [analyze_paper_read]. *)
Definition analyze_paper_read_try (job_id : option string) (topics : list string)
  : M St Response :=
  if negb (Py.truthy_opt_str job_id) then
    ret (ErrorResponse 400 "job_id is required")
  else
    let id := default EmptyString job_id in
    d <- committed ;;
    match analyses d !! id with
    | None => ret (ErrorResponse 404 "Analysis not found")
    | Some analysis =>
        match topics with
        | [] => ret (ErrorResponse 400 "At least one topic must be selected")
        | _ :: _ =>
            let analysis := with_selected_topics topics analysis in
            let analysis := with_status parsing analysis in
            let analysis := with_progress 20 analysis in
            match paper_rows d !! paper_id analysis with
            | None => raise (Exception "Paper not found")
            | Some paper =>
                let analysis := snapshot_profile d paper analysis in
                commit (set_analysis id analysis d) ;;;
                let filepath := upload_folder +:+ "/" +:+ pdf_filename paper in
                paper_text <- in_world (extract_text_from_pdf filepath) ;;
                if negb (Py.truthy_str paper_text) then
                  (let analysis := with_status error analysis in
                   let analysis :=
                     with_error_message "Failed to extract text from PDF" analysis in
                   d <- committed ;;
                   commit (set_analysis id analysis d) ;;;
                   ret (ErrorResponse 500 "Failed to extract text from PDF"))
                else
                  (let analysis := with_status reading analysis in
                   let analysis := with_progress 40 analysis in
                   d <- committed ;;
                   commit (set_analysis id analysis d) ;;;
                   reader_results <- in_world (analyze_paper paper_text topics) ;;
                   let analysis := with_reader_output reader_results analysis in
                   let analysis := with_status ideas_ready analysis in
                   let analysis := with_progress 60 analysis in
                   d <- committed ;;
                   commit (set_analysis id analysis d) ;;;
                   ret (ReadResponse id (ro_summary reader_results)
                          (ro_concepts reader_results)
                          (default [] (ro_ideas reader_results))))
            end
        end
    end.

Definition analyze_paper_read (job_id : option string) (topics : list string)
  : M St Response :=
  try_except (analyze_paper_read_try job_id topics) (fail_job job_id).

(** The loop that collects the selected ideas: the first index out of range
    ends the request with a 400 answer. *)
Fixpoint pick_ideas (all_ideas : list Idea) (indices : list Z)
  (selected_ideas : list Idea) : outcome (Response + list Idea) :=
  match indices with
  | [] => Returned (inr selected_ideas)
  | idx :: rest =>
      if (0 <=? idx) && (idx <? Z.of_nat (length all_ideas)) then
        match all_ideas !! Z.to_nat idx with
        | Some x => pick_ideas all_ideas rest (selected_ideas ++ [x])
        | None => Raised (Exception "list index out of range")
        end
      else
        Returned (inl (ErrorResponse 400
          ("Invalid idea index: " +:+ pretty idx +:+ ". Valid range: 0-" +:+
           pretty (Z.of_nat (length all_ideas) - 1))))
  end.

(** The flattened idea of rank [rank] and its [ResearchIdea] row. *)
Definition make_row (analysis_id : string) (rank : Z) (idea_data : ScoredIdea)
  : outcome ResearchIdea :=
  match get_method (novelty_assessment idea_data) "novelty_score" with
  | Raised e => Raised e
  | Returned novelty_score =>
      match get_method (doability_assessment idea_data) "doability_score" with
      | Raised e => Raised e
      | Returned doability_score =>
          Returned
            {| ri_analysis_id := analysis_id;
               ri_rank := rank;
               ri_title := idea_title (idea idea_data);
               ri_description := idea_description (idea idea_data);
               ri_rationale := idea_rationale (idea idea_data);
               ri_novelty_score := novelty_score;
               ri_doability_score := doability_score;
               ri_topic_match_score := topic_match_score idea_data;
               ri_composite_score := composite_score idea_data;
               ri_novelty_assessment := novelty_assessment idea_data;
               ri_doability_assessment := doability_assessment idea_data;
               ri_literature_synthesis := literature_synthesis idea_data;
               ri_references := papers idea_data |}
      end
  end.

(** [for rank, idea_data in enumerate(top_ideas, 1)]. *)
Fixpoint make_rows (analysis_id : string) (rank : Z) (l : list ScoredIdea)
  : outcome (list ResearchIdea) :=
  match l with
  | [] => Returned []
  | idea_data :: rest =>
      match make_row analysis_id rank idea_data with
      | Raised e => Raised e
      | Returned row =>
          match make_rows analysis_id (rank + 1) rest with
          | Raised e => Raised e
          | Returned rows => Returned (row :: rows)
          end
      end
  end.

Section WithJsonPhases.

Context `{JsonLib}.

(** The [try] block of [analyze_paper_search]; on a list,
    [not l or len(l) != 3] is [len(l) != 3]. *)
Definition analyze_paper_search_try (job_id : option string)
  (selected_idea_indices : list Z) : M St Response :=
  if negb (Py.truthy_opt_str job_id) then
    ret (ErrorResponse 400 "job_id is required")
  else if negb (length selected_idea_indices =? 3)%nat then
    ret (ErrorResponse 400 "Please select exactly 3 ideas")
  else
    let id := default EmptyString job_id in
    d <- committed ;;
    match analyses d !! id with
    | None => ret (ErrorResponse 404 "Analysis not found")
    | Some analysis =>
        if negb (bool_decide (status analysis = ideas_ready)) then
          ret (ErrorResponse 400
                 ("Analysis is not ready for search. Current status: " +:+
                  status_name (status analysis)))
        else
          match reader_output analysis ≫= ro_ideas with
          | None =>
              ret (ErrorResponse 400
                     "No ideas found. Please run /api/analyze/read first")
          | Some all_ideas =>
              picked <- lift (pick_ideas all_ideas selected_idea_indices []) ;;
              match picked with
              | inl response => ret response
              | inr selected_ideas =>
                  let analysis := with_status searching analysis in
                  let analysis := with_progress 70 analysis in
                  commit (set_analysis id analysis d) ;;;
                  final_results <-
                    in_world (research_ideas selected_ideas
                                (selected_topics analysis)) ;;
                  let analysis := with_searcher_output final_results analysis in
                  flattened_ideas <-
                    lift (make_rows id 1 (top_ideas final_results)) ;;
                  let analysis := with_status complete analysis in
                  let analysis := with_progress 100 analysis in
                  let analysis := with_completed_at analysis in
                  d <- committed ;;
                  commit (add_research_ideas flattened_ideas
                            (set_analysis id analysis d)) ;;;
                  ret (SearchResponse id flattened_ideas)
              end
          end
    end.

Definition analyze_paper_search (job_id : option string)
  (selected_idea_indices : list Z) : M St Response :=
  try_except (analyze_paper_search_try job_id selected_idea_indices)
             (fail_job job_id).

End WithJsonPhases.

(** * Properties *)

(** ** Substrings and the topic-match score *)

(** [s] is a contiguous part of [t]. *)
Definition substring (s t : string) : Prop :=
  ∃ pre post, t = pre +:+ s +:+ post.

(** Case aside, the tag contains the topic or the topic contains the tag. *)
Definition related (tag topic : string) : Prop :=
  substring (Py.lower topic) (Py.lower tag) ∨
  substring (Py.lower tag) (Py.lower topic).

(** The tag is related to at least one of the user's topics. *)
Definition tag_hits (user_topics : list string) (tag : string) : Prop :=
  Exists (related tag) user_topics.

Lemma append_cons (c : ascii) (s t : string) :
  String c s +:+ t = String c (s +:+ t).
Proof. reflexivity. Qed.

Lemma append_empty (t : string) : EmptyString +:+ t = t.
Proof. reflexivity. Qed.

Lemma startswith_spec (p s : string) :
  Py.startswith p s = true ↔ ∃ post, s = p +:+ post.
Proof.
  revert s. induction p as [|a p IH]; intros s; simpl.
  - split; [intros _; by exists s | done].
  - destruct s as [|b s].
    + split; [done | intros [post Hpost]; discriminate].
    + setoid_rewrite append_cons.
      destruct (Ascii.eqb_spec a b) as [->|Hab].
      * rewrite IH. split; intros [post Hpost]; exists post; congruence.
      * split; [done | intros [post Hpost]; congruence].
Qed.

Lemma contains_spec (sub s : string) :
  Py.contains sub s = true ↔ substring sub s.
Proof.
  unfold substring.
  induction s as [|c s IH]; simpl; rewrite orb_true_iff, startswith_spec.
  - split.
    + intros [[post Hpost]|?]; [|done]. by exists EmptyString, post.
    + intros [[|c pre] [post Hs]]; [left; by exists post | discriminate].
  - rewrite IH. split.
    + intros [[post Hpost]|[pre [post Hs]]].
      * by exists EmptyString, post.
      * exists (String c pre), post. by rewrite append_cons, Hs.
    + intros [[|c' pre] [post Hs]].
      * left. by exists post.
      * right. exists pre, post. rewrite append_cons in Hs. congruence.
Qed.

#[global] Instance substring_dec (s t : string) : Decision (substring s t).
Proof.
  destruct (Py.contains s t) eqn:E.
  - left. by apply contains_spec.
  - right. intros Hs. apply contains_spec in Hs. congruence.
Defined.

#[global] Instance related_dec (tag topic : string) : Decision (related tag topic).
Proof. unfold related. apply _. Defined.

#[global] Instance tag_hits_dec (user_topics : list string) (tag : string) :
  Decision (tag_hits user_topics tag).
Proof. unfold tag_hits. apply _. Defined.

(** The number of tags of the idea that hit the user's topics. *)
Definition hits (user_topics tags : list string) : nat :=
  length (filter (tag_hits user_topics) tags).

Lemma any_topic_spec (user_topics : list string) (tag : string) :
  any_topic (map Py.lower user_topics) (Py.lower tag) = true
  ↔ tag_hits user_topics tag.
Proof.
  unfold any_topic, tag_hits. rewrite existsb_exists, Exists_exists. split.
  - intros [x [Hin Hx]]. apply in_map_iff in Hin as [topic [<- Hin]].
    exists topic. split; [by apply list_elem_of_In|].
    apply orb_true_iff in Hx as [Hx|Hx]; apply contains_spec in Hx;
      [by left | by right].
  - intros [topic [Hin [Hx|Hx]]]; exists (Py.lower topic);
      (split; [apply in_map, list_elem_of_In, Hin|]);
      apply orb_true_iff; [left | right]; by apply contains_spec.
Qed.

Lemma count_matches_hits (user_topics tags : list string) :
  count_matches (map Py.lower user_topics) (map Py.lower tags)
  = Z.of_nat (hits user_topics tags).
Proof.
  unfold hits. induction tags as [|tag tags IH]; [done|].
  simpl. rewrite IH, filter_cons.
  destruct (decide (tag_hits user_topics tag)) as [Hh|Hn].
  - apply any_topic_spec in Hh. rewrite Hh. simpl length. lia.
  - destruct (any_topic _ _) eqn:E; [|done].
    apply any_topic_spec in E. done.
Qed.

Lemma min_le_r (a b : Q) : (Py.min a b <= b)%Q.
Proof.
  unfold Py.min. destruct (Qcompare b a) eqn:E.
  - apply Qeq_alt in E. rewrite E. apply Qle_refl.
  - apply Qle_refl.
  - apply Qgt_alt in E. by apply Qlt_le_weak.
Qed.

Lemma min_glb (a b c : Q) : (c <= a)%Q → (c <= b)%Q → (c <= Py.min a b)%Q.
Proof. intros Ha Hb. unfold Py.min. by destruct (Qcompare b a). Qed.

Lemma count_matches_nonneg (user_topics_lower idea_tags : list string) :
  0 ≤ count_matches user_topics_lower idea_tags.
Proof.
  induction idea_tags as [|tag rest IH]; simpl; [done|].
  destruct (any_topic user_topics_lower tag); lia.
Qed.

(** The topic-match score stays between 0 and 5. *)
Lemma calculate_topic_match_range (idea : Idea) (user_topics : list string) :
  (0 <= _calculate_topic_match idea user_topics <= 5)%Q.
Proof.
  unfold _calculate_topic_match.
  destruct user_topics as [|topic topics]; [done|].
  destruct (map Py.lower (idea_topic_tags idea)) as [|tag tags] eqn:Etags;
    [done|].
  split; [|apply min_le_r].
  apply min_glb; [|done].
  apply Qmult_le_0_compat; [|done].
  apply Qmult_le_0_compat.
  - change 0%Q with (inject_Z 0). rewrite <- Zle_Qle.
    apply count_matches_nonneg.
  - apply Qinv_le_0_compat. change 0%Q with (inject_Z 0).
    rewrite <- Zle_Qle. lia.
Qed.

(** C2. The topic-match score of [_calculate_topic_match]: it is 3 when the
    user selected no topic, whatever the tags; with topics and no tag it is
    2.5; with topics and tags it is [min((m / max(|user_topics|, 1)) * 5, 5)]
    where [m] counts the tags that, case aside, contain or are contained in
    a user topic; and the tag "transformers" against the topic
    "Transformers" scores 5. *)
Theorem calculate_topic_match_spec :
  (∀ idea, _calculate_topic_match idea [] = 3%Q) ∧
  (∀ title description rationale topic topics,
     _calculate_topic_match
       {| idea_title := title; idea_description := description;
          idea_rationale := rationale; idea_topic_tags := [] |}
       (topic :: topics) = 2.5%Q) ∧
  (∀ title description rationale tag tags topic topics,
     let user_topics := topic :: topics in
     let m := hits user_topics (tag :: tags) in
     _calculate_topic_match
       {| idea_title := title; idea_description := description;
          idea_rationale := rationale; idea_topic_tags := tag :: tags |}
       user_topics
     = Py.min (inject_Z (Z.of_nat m)
               / inject_Z (Z.max (Z.of_nat (length user_topics)) 1) * 5)%Q 5) ∧
  (∀ title description rationale,
     _calculate_topic_match
       {| idea_title := title; idea_description := description;
          idea_rationale := rationale; idea_topic_tags := ["transformers"] |}
       ["Transformers"] = 5%Q).
Proof.
  repeat split; try done.
  intros title description rationale tag tags topic topics user_topics m.
  subst m user_topics. rewrite <- count_matches_hits. reflexivity.
Qed.

(** ** Diversity selection *)

(** [w] is a whole word of both lower-cased titles. *)
Definition shared_word (a b : ScoredIdea) (w : string) : Prop :=
  w ∈ Py.split (Py.lower (idea_title (idea a))) ∧
  w ∈ Py.split (Py.lower (idea_title (idea b))).

(** The two titles share at most [n] words: any list of distinct shared
    words has at most [n] entries. *)
Definition shares_at_most (n : nat) (a b : ScoredIdea) : Prop :=
  ∀ ws : list string,
    NoDup ws → (∀ w, w ∈ ws → shared_word a b w) → (length ws ≤ n)%nat.

(** The greedy pass over the candidates in score order, from the entries
    accepted so far to the accepted entries when the pass ends. *)
Inductive Greedy : list ScoredIdea → list ScoredIdea → list ScoredIdea → Prop :=
  | greedy_full accepted rest :
      (3 ≤ length accepted)%nat →
      Greedy accepted rest accepted
  | greedy_end accepted :
      (length accepted < 3)%nat →
      Greedy accepted [] accepted
  | greedy_accept accepted item rest result :
      (length accepted < 3)%nat →
      Forall (shares_at_most 3 item) accepted →
      Greedy (accepted ++ [item]) rest result →
      Greedy accepted (item :: rest) result
  | greedy_skip accepted item rest result :
      (length accepted < 3)%nat →
      Exists (λ selected, ¬ shares_at_most 3 item selected) accepted →
      Greedy accepted rest result →
      Greedy accepted (item :: rest) result.

Lemma shared_word_inter (a b : ScoredIdea) (w : string) :
  shared_word a b w ↔ w ∈ title_words a ∩ title_words b.
Proof.
  unfold shared_word, title_words.
  by rewrite elem_of_intersection, !elem_of_list_to_set.
Qed.

Lemma too_similar_spec (item selected : ScoredIdea) :
  too_similar item selected = false ↔ shares_at_most 3 item selected.
Proof.
  unfold too_similar. rewrite bool_decide_eq_false. split.
  - intros Hsize ws Hnd Hws.
    assert (list_to_set ws ⊆ title_words item ∩ title_words selected) as Hsub.
    { intros w Hw. apply elem_of_list_to_set in Hw.
      by apply shared_word_inter, Hws. }
    apply subseteq_size in Hsub.
    rewrite size_list_to_set in Hsub by done. lia.
  - intros Hmost.
    pose proof (Hmost (elements (title_words item ∩ title_words selected))) as Hle.
    unfold size, set_size. simpl.
    cut (length (elements (title_words item ∩ title_words selected)) ≤ 3)%nat;
      [lia|].
    apply Hle; [apply NoDup_elements|].
    intros w Hw. apply shared_word_inter. by apply elem_of_elements.
Qed.

#[global] Instance shares_at_most_3_dec (item selected : ScoredIdea) :
  Decision (shares_at_most 3 item selected).
Proof.
  destruct (too_similar item selected) eqn:E.
  - right. intros Hs. apply too_similar_spec in Hs. congruence.
  - left. by apply too_similar_spec.
Defined.

Lemma is_diverse_spec (item : ScoredIdea) (top_3 : list ScoredIdea) :
  is_diverse item top_3 = true ↔ Forall (shares_at_most 3 item) top_3.
Proof.
  induction top_3 as [|selected rest IH]; simpl.
  - split; [constructor | done].
  - destruct (too_similar item selected) eqn:E.
    + split; [done|]. intros Hall. apply Forall_cons in Hall as [Hs _].
      apply too_similar_spec in Hs. congruence.
    + rewrite IH, Forall_cons. apply too_similar_spec in E. tauto.
Qed.

Lemma diverse_loop_cons (top_3 rest : list ScoredIdea) (item : ScoredIdea) :
  diverse_loop top_3 (item :: rest)
  = if (3 <=? length top_3)%nat then top_3
    else if is_diverse item top_3
         then diverse_loop (top_3 ++ [item]) rest
         else diverse_loop top_3 rest.
Proof. reflexivity. Qed.

Lemma diverse_loop_greedy (rest top_3 : list ScoredIdea) :
  Greedy top_3 rest (diverse_loop top_3 rest).
Proof.
  revert top_3. induction rest as [|item rest IH]; intros top_3.
  - simpl. destruct (le_lt_dec 3 (length top_3)).
    + by apply greedy_full.
    + by apply greedy_end.
  - rewrite diverse_loop_cons. destruct (Nat.leb_spec 3 (length top_3)).
    + by apply greedy_full.
    + destruct (is_diverse item top_3) eqn:E.
      * apply greedy_accept; [done | by apply is_diverse_spec | apply IH].
      * apply greedy_skip; [done | | apply IH].
        apply not_Forall_Exists; [apply _|].
        intros Hall. apply is_diverse_spec in Hall. congruence.
Qed.

(** The greedy pass has one result. *)
Lemma Forall_Exists_shares (item : ScoredIdea) (accepted : list ScoredIdea) :
  Forall (shares_at_most 3 item) accepted →
  Exists (λ selected, ¬ shares_at_most 3 item selected) accepted →
  False.
Proof.
  intros Hall Hex. apply Exists_exists in Hex as [x [Hx Hn]].
  apply Hn. rewrite Forall_forall in Hall. by apply Hall.
Qed.

Lemma Greedy_deterministic (accepted rest r1 r2 : list ScoredIdea) :
  Greedy accepted rest r1 → Greedy accepted rest r2 → r1 = r2.
Proof.
  intros H1. revert r2.
  induction H1 as [accepted rest Hlen | accepted Hlen
                  | accepted item rest result Hlen Hall _ IH
                  | accepted item rest result Hlen Hex _ IH];
    intros r2 H2;
    inversion H2 as [a r Hl | a Hl | a i r res Hl Hall2 Hg
                    | a i r res Hl Hex2 Hg];
    subst; try done; try lia.
  - by apply IH.
  - exfalso. by eapply Forall_Exists_shares.
  - exfalso. by eapply Forall_Exists_shares.
  - by apply IH.
Qed.

(** C3. [_select_diverse_top_3] returns the whole list when it has at most
    three entries. Otherwise it runs the greedy pass from the top-scored
    entry, taking each later entry, in score order, only when its
    lower-cased title shares at most three whole words with every entry
    accepted so far, and stopping at three; the result is what the pass
    accepted when that is three entries, and the first three entries of
    the list when the pass accepted fewer. *)
Theorem select_diverse_top_3_spec (scored_ideas : list ScoredIdea) :
  ((length scored_ideas ≤ 3)%nat ∧
   _select_diverse_top_3 scored_ideas = scored_ideas)
  ∨
  ((3 < length scored_ideas)%nat ∧
   ∃ first rest accepted,
     scored_ideas = first :: rest ∧
     Greedy [first] rest accepted ∧
     (((3 ≤ length accepted)%nat ∧
       _select_diverse_top_3 scored_ideas = accepted)
      ∨
      ((length accepted < 3)%nat ∧
       _select_diverse_top_3 scored_ideas = take 3 scored_ideas))).
Proof.
  unfold _select_diverse_top_3.
  destruct (Nat.leb_spec (length scored_ideas) 3) as [Hle|Hgt].
  - by left.
  - right. split; [done|].
    destruct scored_ideas as [|first rest]; [simpl in Hgt; lia|].
    exists first, rest, (diverse_loop [first] rest).
    split; [done|]. split; [apply diverse_loop_greedy|].
    destruct (Nat.ltb_spec (length (diverse_loop [first] rest)) 3).
    + by right.
    + by left.
Qed.

(** An entry with the given title and composite score, for examples. *)
Definition entry (title : string) (score : Q) : ScoredIdea :=
  {| idea := {| idea_title := title; idea_description := EmptyString;
                idea_rationale := EmptyString; idea_topic_tags := [] |};
     papers := [];
     novelty_assessment := JDict [("novelty_score", JNum 3)];
     doability_assessment := JDict [("doability_score", JNum 3)];
     topic_match_score := 3;
     composite_score := score;
     literature_synthesis := None |}.

(** Five entries of which the second shares four words with the first:
    the second is skipped and the third and fourth are taken. *)
Example select_skips_similar_title :
  map (λ x, idea_title (idea x))
    (_select_diverse_top_3
       [ entry "Graph neural networks for drug discovery" 4.5;
         entry "graph neural networks for DRUG design" 4.4;
         entry "Sparse attention for long documents" 4.3;
         entry "Curriculum learning for retrieval" 4.2;
         entry "Probing numerical reasoning" 4.0 ])
  = [ "Graph neural networks for drug discovery";
      "Sparse attention for long documents";
      "Curriculum learning for retrieval" ].
Proof. vm_compute. reflexivity. Qed.

(** Four entries that all share four words with the first: the pass
    accepts only the first, and the first three are returned. *)
Example select_falls_back :
  map (λ x, idea_title (idea x))
    (_select_diverse_top_3
       [ entry "Graph neural networks for drug discovery" 4.5;
         entry "graph neural networks for drug design" 4.4;
         entry "Graph Neural Networks for Drug repurposing" 4.3;
         entry "graph neural networks for drug safety" 4.2 ])
  = [ "Graph neural networks for drug discovery";
      "graph neural networks for drug design";
      "Graph Neural Networks for Drug repurposing" ].
Proof. vm_compute. reflexivity. Qed.

(** ** Literature search: retries and backoff *)

(** The reply is a rate-limit response. *)
Definition rate_limited (r : HttpReply) : Prop :=
  ∃ d, r = HttpResponse 429 d.

(** The world after one request, and after one request and the pause that
    follows a rate-limit response at [attempt]. *)
Definition asked (query : string) (w : World) : World := log_query query w.

Definition asked_and_slept (query : string) (attempt : Z) (w : World) : World :=
  log_sleep (wait_time attempt) (log_query query w).

Lemma format_papers_filter (l : list RawPaper) :
  format_papers l = map format_paper (List.filter has_abstract l).
Proof.
  induction l as [|p l IH]; [done|]. simpl.
  destruct (has_abstract p); simpl; by rewrite IH.
Qed.

Lemma format_papers_abstract (l : list RawPaper) :
  Forall (λ p, paper_abstract p ≠ EmptyString) (format_papers l).
Proof.
  induction l as [|p l IH]; simpl; [constructor|].
  destruct (has_abstract p) eqn:E; [|done].
  constructor; [|done]. unfold has_abstract in E. simpl.
  destruct (raw_abstract p) as [[|c a]|]; done.
Qed.

Lemma search_attempt_rate_limited (query : string) (max_retries attempt : Z)
  (w : World) :
  rate_limited (http w (length (queries w)) query) →
  search_attempt query max_retries attempt w
  = (Returned None, asked_and_slept query attempt w).
Proof.
  intros [d Hd]. unfold search_attempt, try_except, bind, requests_get.
  by rewrite Hd.
Qed.

Lemma search_attempt_success (query : string) (max_retries attempt : Z)
  (w : World) (data : list RawPaper) :
  http w (length (queries w)) query = HttpResponse 200 (Some data) →
  search_attempt query max_retries attempt w
  = (Returned (Some (format_papers data)), asked query w).
Proof.
  intros Hd. unfold search_attempt, try_except, bind, requests_get.
  by rewrite Hd.
Qed.

(** One pass never raises: it ends the search with a list, or it has
    paused for [wait_time attempt] and the loop goes on. *)
Lemma search_attempt_shape (query : string) (max_retries attempt : Z)
  (w : World) :
  (∃ l, search_attempt query max_retries attempt w
        = (Returned (Some l), asked query w))
  ∨ search_attempt query max_retries attempt w
    = (Returned None, asked_and_slept query attempt w).
Proof.
  unfold search_attempt, try_except, bind, requests_get.
  destruct (http w (length (queries w)) query) as [c d|e].
  - destruct (c =? 429) eqn:E429; [by right|].
    unfold raise_for_status.
    destruct ((400 <=? c) && (c <? 600)) eqn:Erange.
    + unfold raise. rewrite E429. simpl. left. by eexists.
    + unfold ret, response_data. destruct d as [l|].
      * left. by eexists.
      * left. by eexists.
  - destruct e as [k|m|m|m|c|m|m|m|m]; try (left; by eexists).
    destruct ((c =? 429) && (attempt <? max_retries - 1)) eqn:E.
    + by right.
    + left. by eexists.
Qed.

Lemma queries_asked (query : string) (w : World) :
  queries (asked query w) = queries w ++ [query].
Proof. reflexivity. Qed.

Lemma queries_asked_and_slept (query : string) (attempt : Z) (w : World) :
  queries (asked_and_slept query attempt w) = queries w ++ [query].
Proof. reflexivity. Qed.

Lemma sleeps_asked (query : string) (w : World) :
  sleeps (asked query w) = sleeps w.
Proof. reflexivity. Qed.

Lemma sleeps_asked_and_slept (query : string) (attempt : Z) (w : World) :
  sleeps (asked_and_slept query attempt w) = sleeps w ++ [wait_time attempt].
Proof. reflexivity. Qed.

Lemma http_asked_and_slept (query : string) (attempt : Z) (w : World) :
  http (asked_and_slept query attempt w) = http w.
Proof. reflexivity. Qed.

Lemma search_papers_unfold (idea : Idea) :
  _search_papers idea = search_loop (search_query idea) 3 [0; 1; 2].
Proof. reflexivity. Qed.

Lemma search_loop_cons (query : string) (max_retries attempt : Z)
  (rest : list Z) (w : World) :
  search_loop query max_retries (attempt :: rest) w
  = match search_attempt query max_retries attempt w with
    | (Returned (Some l), w') => (Returned l, w')
    | (Returned None, w') => search_loop query max_retries rest w'
    | (Raised e, w') => (Raised e, w')
    end.
Proof.
  simpl. unfold bind.
  destruct (search_attempt query max_retries attempt w) as [[[l|]|e] w'];
    reflexivity.
Qed.

(** C6. [_search_papers] makes at most three requests, pauses only after a
    rate-limit response and then for 2s, 4s and 8s in turn, and always
    returns a list, never raising. After three rate-limit responses it has
    paused 2s, 4s and 8s and returns the empty list. After two rate-limit
    responses and a successful third reply it has paused 2s then 4s and
    returns the papers of that reply that carry a non-empty abstract. *)
Theorem search_papers_retry (idea : Idea) (w : World) :
  let query := search_query idea in
  let reply (k : nat) := http w (length (queries w) + k)%nat query in
  (∃ l w' n m,
     _search_papers idea w = (Returned l, w') ∧
     (1 ≤ n ≤ 3)%nat ∧ (m ≤ n)%nat ∧
     queries w' = queries w ++ replicate n query ∧
     sleeps w' = sleeps w ++ take m [2; 4; 8])
  ∧
  (rate_limited (reply 0%nat) → rate_limited (reply 1%nat) →
   rate_limited (reply 2%nat) →
   ∃ w',
     _search_papers idea w = (Returned [], w') ∧
     queries w' = queries w ++ [query; query; query] ∧
     sleeps w' = sleeps w ++ [2; 4; 8])
  ∧
  (∀ data,
     rate_limited (reply 0%nat) → rate_limited (reply 1%nat) →
     reply 2%nat = HttpResponse 200 (Some data) →
     ∃ w',
       _search_papers idea w
       = (Returned (map format_paper (List.filter has_abstract data)), w') ∧
       queries w' = queries w ++ [query; query; query] ∧
       sleeps w' = sleeps w ++ [2; 4]).
Proof.
  intros query reply. subst reply. rewrite search_papers_unfold.
  fold query. split; [|split].
  - rewrite search_loop_cons.
    destruct (search_attempt_shape query 3 0 w) as [[l ->]| ->].
    { exists l, (asked query w), 1%nat, 0%nat.
      repeat split; try done; try lia. simpl. by rewrite app_nil_r. }
    rewrite search_loop_cons.
    destruct (search_attempt_shape query 3 1 (asked_and_slept query 0 w))
      as [[l ->]| ->].
    { exists l, (asked query (asked_and_slept query 0 w)), 2%nat, 1%nat.
      repeat split; try done; try lia.
      rewrite queries_asked, queries_asked_and_slept. by rewrite <- app_assoc. }
    rewrite search_loop_cons.
    destruct (search_attempt_shape query 3 2
                (asked_and_slept query 1 (asked_and_slept query 0 w)))
      as [[l ->]| ->].
    { exists l, (asked query (asked_and_slept query 1 (asked_and_slept query 0 w))),
        3%nat, 2%nat.
      repeat split; try done; try lia.
      - rewrite queries_asked, !queries_asked_and_slept.
        by rewrite <- !app_assoc.
      - rewrite sleeps_asked, !sleeps_asked_and_slept.
        by rewrite <- !app_assoc. }
    exists [], (asked_and_slept query 2
                  (asked_and_slept query 1 (asked_and_slept query 0 w))),
      3%nat, 3%nat.
    repeat split; try done; try lia.
    + rewrite !queries_asked_and_slept. by rewrite <- !app_assoc.
    + rewrite !sleeps_asked_and_slept. by rewrite <- !app_assoc.
  - intros H0 H1 H2. rewrite Nat.add_0_r in H0.
    rewrite search_loop_cons, search_attempt_rate_limited by done.
    rewrite search_loop_cons, search_attempt_rate_limited; last first.
    { rewrite http_asked_and_slept, queries_asked_and_slept, length_app. done. }
    rewrite search_loop_cons, search_attempt_rate_limited; last first.
    { rewrite !http_asked_and_slept, !queries_asked_and_slept, !length_app.
      simpl. by rewrite <- Nat.add_assoc. }
    eexists. split; [reflexivity|].
    rewrite !queries_asked_and_slept, !sleeps_asked_and_slept.
    by rewrite <- !app_assoc.
  - intros data H0 H1 H2. rewrite Nat.add_0_r in H0.
    rewrite search_loop_cons, search_attempt_rate_limited by done.
    rewrite search_loop_cons, search_attempt_rate_limited; last first.
    { rewrite http_asked_and_slept, queries_asked_and_slept, length_app. done. }
    rewrite search_loop_cons.
    rewrite (search_attempt_success _ _ _ _ data); last first.
    { rewrite !http_asked_and_slept, !queries_asked_and_slept, !length_app.
      simpl. by rewrite <- Nat.add_assoc. }
    eexists. split; [by rewrite format_papers_filter|].
    rewrite queries_asked, sleeps_asked.
    rewrite !queries_asked_and_slept, !sleeps_asked_and_slept.
    by rewrite <- !app_assoc.
Qed.

(** A search service that is rate limited twice and then answers with one
    paper that has an abstract and one that has none. *)
Definition throttled_world : World :=
  {| llm := λ _ _, LlmFails (ServiceError "503 Service Unavailable");
     http := λ k _,
       match k with
       | O | S O => HttpResponse 429 None
       | _ =>
           HttpResponse 200
             (Some [ {| raw_title := "Longformer";
                        raw_abstract := Some "Transformers for long documents.";
                        raw_year := Some 2020; raw_citationCount := 4000;
                        raw_authors := ["Beltagy"; "Peters"; "Cohan"; "Others"];
                        raw_url := "https://example.org/longformer" |};
                     {| raw_title := "Untitled note";
                        raw_abstract := None;
                        raw_year := None; raw_citationCount := 0;
                        raw_authors := [];
                        raw_url := "" |} ])
       end;
     pdf := λ _, Returned EmptyString;
     reader := λ _ _, Raised (ServiceError "503 Service Unavailable");
     prompts := []; queries := []; sleeps := [];
     extractions := []; readings := [] |}.

Definition long_documents : Idea :=
  {| idea_title := "Sparse attention for long documents";
     idea_description := "Scale attention to book-length inputs.";
     idea_rationale := "Quadratic cost limits context.";
     idea_topic_tags := ["transformers"; "efficiency"] |}.

Lemma search_papers_retry_witness :
  (rate_limited (http throttled_world 0%nat (search_query long_documents)) ∧
   rate_limited (http throttled_world 1%nat (search_query long_documents)) ∧
   ∃ data,
     http throttled_world 2%nat (search_query long_documents)
     = HttpResponse 200 (Some data) ∧
     ∃ w',
       _search_papers long_documents throttled_world
       = (Returned (map format_paper (List.filter has_abstract data)), w') ∧
       queries w' = replicate 3 (search_query long_documents) ∧
       sleeps w' = [2; 4]) ∧
  match fst (_search_papers long_documents throttled_world) with
  | Returned l => map paper_title l = ["Longformer"]
  | Raised _ => False
  end.
Proof.
  pose proof (search_papers_retry long_documents throttled_world)
    as (_ & _ & Hthird).
  assert (rate_limited (http throttled_world 0%nat (search_query long_documents)))
    as H0 by (by exists None).
  assert (rate_limited (http throttled_world 1%nat (search_query long_documents)))
    as H1 by (by exists None).
  split; [|vm_compute; reflexivity].
  split; [exact H0|]. split; [exact H1|].
  eexists. split; [reflexivity|].
  exact (Hthird _ H0 H1 eq_refl).
Defined.

(** ** Assessments: contained failures *)

Lemma for_each_Forall2 {S A B : Type} (f : A → M S B) (R : A → B → Prop) :
  (∀ a s b s', f a s = (Returned b, s') → R a b) →
  ∀ l s r s', for_each f l s = (Returned r, s') → Forall2 R l r.
Proof.
  intros Hf. induction l as [|a l IH]; intros s r s' Hrun; simpl in Hrun.
  - unfold ret in Hrun. inversion Hrun. constructor.
  - unfold bind in Hrun.
    destruct (f a s) as [[b|e] s1] eqn:Ef; [|discriminate].
    destruct (for_each f l s1) as [[bs|e] s2] eqn:El; [|discriminate].
    unfold ret in Hrun. inversion Hrun; subst.
    constructor; [by eapply Hf | by eapply IH].
Qed.

Lemma for_each_returns {S A B : Type} (f : A → M S B) (I : S → Prop) :
  (∀ a s, I s → ∃ b s', f a s = (Returned b, s') ∧ I s') →
  ∀ l s, I s → ∃ r s', for_each f l s = (Returned r, s') ∧ I s'.
Proof.
  intros Hf. induction l as [|a l IH]; intros s Hs; simpl.
  - by exists [], s.
  - unfold bind. destruct (Hf a s Hs) as (b & s1 & -> & Hs1).
    destruct (IH s1 Hs1) as (bs & s2 & -> & Hs2).
    by exists (b :: bs), s2.
Qed.

Section Assessments.

Context `{JsonLib}.

(** The text-analysis call for [prompt] fails in [w], or the JSON span of
    its reply does not parse. *)
Definition assessment_fails (w : World) (prompt : string) : Prop :=
  match llm w (length (prompts w)) prompt with
  | LlmFails _ => True
  | LlmText content => json_loads (json_span content) = None
  end.

(** What the three assessment functions share: one logged call, a parsed
    reply or the fallback, never an exception. *)
Definition assess (prompt : string) (fallback : Json) : M World Json :=
  try_except
    (content <- generate_content prompt ;;
     loads (json_span content))
    (fun _ => ret fallback).

Lemma assess_fails (prompt : string) (fallback : Json) (w : World) :
  assessment_fails w prompt →
  assess prompt fallback w = (Returned fallback, log_prompt prompt w).
Proof.
  unfold assessment_fails, assess, try_except, bind, generate_content, loads.
  destruct (llm w (length (prompts w)) prompt) as [content|e]; [|done].
  by intros ->.
Qed.

Lemma assess_shape (prompt : string) (fallback : Json) (w : World) :
  ∃ j, assess prompt fallback w = (Returned j, log_prompt prompt w) ∧
       (j = fallback ∨
        ∃ content, llm w (length (prompts w)) prompt = LlmText content ∧
                   json_loads (json_span content) = Some j).
Proof.
  unfold assess, try_except, bind, generate_content, loads.
  destruct (llm w (length (prompts w)) prompt) as [content|e] eqn:E.
  - destruct (json_loads (json_span content)) as [j|] eqn:Ej.
    + exists j. split; [done|]. right. by exists content.
    + exists fallback. split; [done | by left].
  - exists fallback. split; [done | by left].
Qed.

Lemma assess_novelty_assess (idea : Idea) (papers : list Paper) :
  _assess_novelty idea papers = assess (novelty_prompt idea papers) novelty_fallback.
Proof. reflexivity. Qed.

Lemma assess_doability_assess (idea : Idea) (papers : list Paper) :
  _assess_doability idea papers = assess (doability_prompt idea) doability_fallback.
Proof. reflexivity. Qed.

Lemma synthesize_literature_assess (idea : Idea) (papers : list Paper) :
  _synthesize_literature idea papers
  = assess (synthesis_prompt idea papers) synthesis_fallback.
Proof. reflexivity. Qed.

(** The score kept under [key] when it is a number (a boolean counts as 0
    or 1, as in Python). *)
Definition score_of (j : Json) (key : string) : option Q :=
  match getitem j key with
  | Returned (JNum q) => Some q
  | Returned (JBool b) => Some (if b then 1 else 0)%Q
  | _ => None
  end.

(** A reply of the text-analysis service that cannot stop the ranking: the
    call fails, or its JSON span does not parse, or it parses to an object
    with numeric novelty and doability scores. *)
Definition harmless (r : LlmReply) : Prop :=
  match r with
  | LlmFails _ => True
  | LlmText content =>
      match json_loads (json_span content) with
      | None => True
      | Some j => is_Some (score_of j "novelty_score") ∧
                  is_Some (score_of j "doability_score")
      end
  end.

(** The replies of the service are all harmless; the logs do not matter. *)
Definition harmless_service (w : World) : Prop :=
  ∀ k prompt, harmless (llm w k prompt).

Lemma score_of_float_mul (j : Json) (key : string) (weight q : Q) :
  score_of j key = Some q →
  ∃ v, getitem j key = Returned v ∧ float_mul weight v = Returned (weight * q)%Q.
Proof.
  unfold score_of. destruct (getitem j key) as [[| b | q' | | |]|]; try done.
  - intros [= <-]. by eexists.
  - intros [= <-]. by eexists.
Qed.

Lemma float_mul_score_of (j : Json) (key : string) (weight : Q) (v : Json) (x : Q) :
  getitem j key = Returned v → float_mul weight v = Returned x →
  ∃ q, score_of j key = Some q ∧ x = (weight * q)%Q.
Proof.
  unfold score_of. intros ->. destruct v; try done; simpl; intros [= <-];
    by eexists.
Qed.

Lemma search_papers_returns (idea : Idea) (w : World) :
  ∃ l w', _search_papers idea w = (Returned l, w') ∧ llm w' = llm w.
Proof.
  rewrite search_papers_unfold. set (query := search_query idea).
  rewrite search_loop_cons.
  destruct (search_attempt_shape query 3 0 w) as [[l ->]| ->];
    [by eexists _, _|].
  rewrite search_loop_cons.
  destruct (search_attempt_shape query 3 1 (asked_and_slept query 0 w))
    as [[l ->]| ->]; [by eexists _, _|].
  rewrite search_loop_cons.
  destruct (search_attempt_shape query 3 2
              (asked_and_slept query 1 (asked_and_slept query 0 w)))
    as [[l ->]| ->]; by eexists _, _.
Qed.

Lemma fallback_scores :
  score_of novelty_fallback "novelty_score" = Some 3%Q ∧
  score_of doability_fallback "doability_score" = Some 3%Q.
Proof. by split. Qed.

Lemma assess_harmless (prompt : string) (fallback : Json) (w : World) :
  harmless_service w →
  ∃ j, assess prompt fallback w = (Returned j, log_prompt prompt w) ∧
       (j = fallback ∨ (is_Some (score_of j "novelty_score") ∧
                        is_Some (score_of j "doability_score"))).
Proof.
  intros Hw. destruct (assess_shape prompt fallback w) as (j & Hj & Hcase).
  exists j. split; [done|]. destruct Hcase as [->|(content & Hc & Hl)].
  - by left.
  - right. specialize (Hw (length (prompts w)) prompt).
    rewrite Hc in Hw. simpl in Hw. by rewrite Hl in Hw.
Qed.

Lemma score_idea_returns (user_topics : list string) (idea : Idea) (w : World) :
  harmless_service w →
  ∃ x w', score_idea user_topics idea w = (Returned x, w') ∧
          harmless_service w'.
Proof.
  intros Hw. unfold score_idea, bind.
  destruct (search_papers_returns idea w) as (l & w1 & -> & Hllm1).
  assert (harmless_service w1) as Hw1.
  { intros k p. rewrite Hllm1. apply Hw. }
  rewrite assess_novelty_assess.
  destruct (assess_harmless (novelty_prompt idea l) novelty_fallback w1 Hw1)
    as (jn & -> & Hjn).
  assert (harmless_service (log_prompt (novelty_prompt idea l) w1)) as Hw2.
  { intros k p. apply Hw1. }
  rewrite assess_doability_assess.
  destruct (assess_harmless (doability_prompt idea) doability_fallback _ Hw2)
    as (jd & -> & Hjd).
  assert (is_Some (score_of jn "novelty_score")) as [n Hn].
  { destruct Hjn as [->|[? _]]; [by eexists | done]. }
  assert (is_Some (score_of jd "doability_score")) as [d Hd].
  { destruct Hjd as [->|[_ ?]]; [by eexists | done]. }
  destruct (score_of_float_mul _ _ 0.3 _ Hn) as (vn & Hgn & Hmn).
  destruct (score_of_float_mul _ _ 0.4 _ Hd) as (vd & Hgd & Hmd).
  unfold lift. rewrite Hgn, Hmn, Hgd, Hmd. unfold sleep, ret.
  eexists _, _. split; [reflexivity|]. intros k p. apply Hw2.
Qed.

Lemma synthesize_item_returns (item : ScoredIdea) (w : World) :
  ∃ x w', synthesize_item item w = (Returned x, w') ∧ llm w' = llm w.
Proof.
  unfold synthesize_item, bind. rewrite synthesize_literature_assess.
  destruct (assess_shape (synthesis_prompt (idea item) (papers item))
              synthesis_fallback w) as (j & -> & _).
  by eexists _, _.
Qed.

(** With a harmless service the ranking run returns. *)
Lemma research_ideas_returns (ideas : list Idea) (user_topics : list string)
  (w : World) :
  harmless_service w →
  ∃ r w', research_ideas ideas user_topics w = (Returned r, w').
Proof.
  intros Hw. unfold research_ideas, bind.
  destruct (for_each_returns (score_idea user_topics) harmless_service
              (score_idea_returns user_topics) ideas w Hw)
    as (scored & w1 & -> & Hw1).
  destruct (for_each_returns synthesize_item (λ _, True)
              (λ a s _, let '(ex_intro _ x (ex_intro _ s' (conj Hx _))) :=
                          synthesize_item_returns a s
                        in ex_intro _ x (ex_intro _ s' (conj Hx I)))
              (_select_diverse_top_3 (sort_desc scored)) w1 I)
    as (top & w2 & -> & _).
  by eexists _, _.
Qed.

End Assessments.

(** ** The composite score *)

Section Composite.

Context `{JsonLib}.

(** The entry carries numeric novelty and doability scores, its topic-match
    score is the one computed for its idea, and its composite score is the
    weighted sum of the three. *)
Definition scored_by_formula (user_topics : list string) (x : ScoredIdea) : Prop :=
  ∃ n d,
    score_of (novelty_assessment x) "novelty_score" = Some n ∧
    score_of (doability_assessment x) "doability_score" = Some d ∧
    topic_match_score x = _calculate_topic_match (idea x) user_topics ∧
    composite_score x = (0.3 * n + 0.4 * d + 0.3 * topic_match_score x)%Q.

Lemma score_idea_formula (user_topics : list string) (idea : Idea)
  (w w' : World) (x : ScoredIdea) :
  score_idea user_topics idea w = (Returned x, w') →
  scored_by_formula user_topics x.
Proof.
  unfold score_idea, bind.
  destruct (search_papers_returns idea w) as (l & w1 & -> & _).
  rewrite assess_novelty_assess.
  destruct (assess_shape (novelty_prompt idea l) novelty_fallback w1)
    as (jn & -> & _).
  rewrite assess_doability_assess.
  destruct (assess_shape (doability_prompt idea) doability_fallback
              (log_prompt (novelty_prompt idea l) w1)) as (jd & -> & _).
  unfold lift.
  destruct (getitem jn "novelty_score") as [vn|] eqn:Egn; [|done].
  destruct (float_mul 0.3 vn) as [xn|] eqn:Emn; [|done].
  destruct (getitem jd "doability_score") as [vd|] eqn:Egd; [|done].
  destruct (float_mul 0.4 vd) as [xd|] eqn:Emd; [|done].
  unfold sleep, ret. intros [= <- _].
  destruct (float_mul_score_of _ _ _ _ _ Egn Emn) as (n & Hn & ->).
  destruct (float_mul_score_of _ _ _ _ _ Egd Emd) as (d & Hd & ->).
  by exists n, d.
Qed.

Lemma insert_desc_perm (x : ScoredIdea) (l : list ScoredIdea) :
  insert_desc x l ≡ₚ x :: l.
Proof.
  induction l as [|y l IH]; simpl; [done|].
  destruct (Qcompare (composite_score x) (composite_score y)); try done.
  rewrite IH. apply Permutation_swap.
Qed.

(** Sorting keeps the entries. *)
Lemma sort_desc_perm (l : list ScoredIdea) : sort_desc l ≡ₚ l.
Proof.
  induction l as [|x l IH]; simpl; [done|].
  by rewrite insert_desc_perm, IH.
Qed.

Lemma diverse_loop_subseteq (rest top_3 : list ScoredIdea) :
  diverse_loop top_3 rest ⊆ top_3 ++ rest.
Proof.
  revert top_3. induction rest as [|item rest IH]; intros top_3.
  - simpl. by rewrite app_nil_r.
  - rewrite diverse_loop_cons. destruct (3 <=? length top_3)%nat.
    + apply list_subseteq_app_l. done.
    + destruct (is_diverse item top_3).
      * etrans; [apply IH|]. by rewrite <- app_assoc.
      * etrans; [apply IH|]. intros y Hy.
        apply elem_of_app in Hy as [Hy|Hy]; apply elem_of_app;
          [by left | right; by apply elem_of_cons; right].
Qed.

(** The selection only returns entries of the list it was given. *)
Lemma select_diverse_top_3_subseteq (scored_ideas : list ScoredIdea) :
  _select_diverse_top_3 scored_ideas ⊆ scored_ideas.
Proof.
  unfold _select_diverse_top_3.
  destruct (length scored_ideas <=? 3)%nat; [done|].
  destruct scored_ideas as [|first rest]; [done|].
  destruct (length (diverse_loop [first] rest) <? 3)%nat.
  - apply sublist_subseteq, sublist_take.
  - apply (diverse_loop_subseteq rest [first]).
Qed.

Lemma synthesize_item_formula (user_topics : list string) (item x : ScoredIdea)
  (w w' : World) :
  synthesize_item item w = (Returned x, w') →
  scored_by_formula user_topics item → scored_by_formula user_topics x.
Proof.
  unfold synthesize_item, bind. rewrite synthesize_literature_assess.
  destruct (assess_shape (synthesis_prompt (idea item) (papers item))
              synthesis_fallback w) as (j & -> & _).
  unfold ret. by intros [= <- _].
Qed.

End Composite.


(** ** A concrete run: three ideas, no topic, scores 4 and 5 *)

(** A reply of the text-analysis service carrying both scores. *)
Definition sample_reply : string :=
  "Here is the assessment: {" +:+ Py.q "novelty_score" +:+ ": 4, " +:+
  Py.q "doability_score" +:+ ": 5} Hope this helps.".

(** A parser that knows the JSON span of [sample_reply] only. *)
Definition sample_json : JsonLib :=
  {| json_loads s :=
       if String.eqb s (json_span sample_reply)
       then Some (JDict [("novelty_score", JNum 4); ("doability_score", JNum 5)])
       else None |}.

Definition sample_reader_output : ReaderOutput :=
  {| ro_summary := "A survey of sparse attention.";
     ro_concepts := ["attention"; "sparsity"];
     ro_ideas := Some
       [ {| idea_title := "Sparse attention for long documents";
            idea_description := "Scale attention to book-length inputs.";
            idea_rationale := "Quadratic cost limits context.";
            idea_topic_tags := ["transformers"; "efficiency"] |};
         {| idea_title := "Curriculum learning for retrieval";
            idea_description := "Order training pairs by difficulty.";
            idea_rationale := "Hard negatives destabilise training.";
            idea_topic_tags := ["retrieval"] |};
         {| idea_title := "Probing numerical reasoning";
            idea_description := "Test arithmetic in language models.";
            idea_rationale := "Numeracy is poorly understood.";
            idea_topic_tags := [] |} ] |}.

Definition sample_ideas : list Idea := default [] (ro_ideas sample_reader_output).

(** A world where every collaborator answers: the service replies
    [sample_reply], the search finds nothing. *)
Definition sample_world : World :=
  {| llm := λ _ _, LlmText sample_reply;
     http := λ _ _, HttpResponse 200 (Some []);
     pdf := λ _, Returned "Attention is all you need.";
     reader := λ _ _, Returned sample_reader_output;
     prompts := []; queries := []; sleeps := [];
     extractions := []; readings := [] |}.

Definition sample_result : SearcherOutput :=
  match fst (@research_ideas sample_json sample_ideas [] sample_world) with
  | Returned r => r
  | Raised _ => {| top_ideas := []; total_ideas_analyzed := 0 |}
  end.

(** The run returns three ideas, in input order, each with composite score
    [0.3 * 4 + 0.4 * 5 + 0.3 * 3], that is 4.1. *)
Example sample_result_scores :
  map (λ x, Qred (composite_score x)) (top_ideas sample_result)
  = [4.1%Q; 4.1%Q; 4.1%Q] ∧
  map idea (top_ideas sample_result) = sample_ideas.
Proof. by vm_compute. Qed.


(** C7. When the text-analysis call fails, or the JSON span of its reply does
    not parse, [_assess_novelty] returns the neutral object with
    [novelty_score] 3 and [_assess_doability] returns its neutral object
    with [doability_score] 3, without raising; and a service whose replies
    are failures, unparsable texts or objects with numeric scores never
    makes the ranking run raise. *)
Theorem assessment_failure_contained `{JsonLib} (idea : Idea)
  (papers : list Paper) (w : World) :
  (assessment_fails w (novelty_prompt idea papers) →
   _assess_novelty idea papers w
   = (Returned (JDict [("explored", JStr "Unknown");
                       ("maturity", JStr "Unknown");
                       ("gap", JStr "Unable to assess");
                       ("novelty_score", JNum 3)]),
      log_prompt (novelty_prompt idea papers) w))
  ∧
  (assessment_fails w (doability_prompt idea) →
   ∃ fallback,
     _assess_doability idea papers w
     = (Returned fallback, log_prompt (doability_prompt idea) w) ∧
     getitem fallback "doability_score" = Returned (JNum 3))
  ∧
  (harmless_service w →
   ∀ ideas user_topics,
     ∃ r w', research_ideas ideas user_topics w = (Returned r, w')).
Proof.
  split; [|split].
  - intros Hfail. rewrite assess_novelty_assess. by apply assess_fails.
  - intros Hfail. exists doability_fallback.
    rewrite assess_doability_assess. split; [by apply assess_fails | done].
  - intros Hw ideas user_topics. by apply research_ideas_returns.
Qed.

(** A world whose text-analysis service is down. *)
Definition failing_world : World :=
  {| llm := λ _ _, LlmFails (ServiceError "503 Service Unavailable");
     http := λ _ _, HttpResponse 200 (Some []);
     pdf := λ _, Returned "Attention is all you need.";
     reader := λ _ _, Returned sample_reader_output;
     prompts := []; queries := []; sleeps := [];
     extractions := []; readings := [] |}.

Lemma assessment_failure_contained_witness :
  (assessment_fails (H := sample_json) failing_world (novelty_prompt long_documents []) ∧
   fst (@_assess_novelty sample_json long_documents [] failing_world)
   = Returned novelty_fallback)
  ∧
  (assessment_fails (H := sample_json) failing_world (doability_prompt long_documents) ∧
   ∃ fallback,
     fst (@_assess_doability sample_json long_documents [] failing_world)
     = Returned fallback ∧
     getitem fallback "doability_score" = Returned (JNum 3))
  ∧
  (harmless_service (H := sample_json) failing_world ∧
   ∃ r w', @research_ideas sample_json sample_ideas [] failing_world
           = (Returned r, w')).
Proof.
  destruct (@assessment_failure_contained sample_json long_documents []
              failing_world) as (Hn & Hd & Hr).
  assert (assessment_fails (H := sample_json) failing_world
            (novelty_prompt long_documents [])) as Fn by exact I.
  assert (assessment_fails (H := sample_json) failing_world
            (doability_prompt long_documents)) as Fd by exact I.
  assert (harmless_service (H := sample_json) failing_world) as Fh
    by (intros k p; exact I).
  split; [|split].
  - split; [exact Fn|]. by rewrite (Hn Fn).
  - split; [exact Fd|]. destruct (Hd Fd) as (fb & Hrun & Hget).
    exists fb. by rewrite Hrun.
  - split; [exact Fh|]. apply (Hr Fh).
Defined.

(** C10. [_assess_doability] does not look at the papers: with the same idea
    and any two paper lists it issues the same prompt, which is built from
    the title and the description alone, and from the same world it
    returns the same assessment and leaves the same world. *)
Theorem doability_independent_of_papers `{JsonLib} (idea : Idea)
  (papers1 papers2 : list Paper) (w : World) :
  _assess_doability idea papers1 w = _assess_doability idea papers2 w ∧
  prompts (snd (_assess_doability idea papers1 w))
  = prompts w ++ [doability_prompt idea] ∧
  prompts (snd (_assess_doability idea papers2 w))
  = prompts w ++ [doability_prompt idea] ∧
  (∀ rationale tags,
     doability_prompt
       {| idea_title := idea_title idea;
          idea_description := idea_description idea;
          idea_rationale := rationale; idea_topic_tags := tags |}
     = doability_prompt idea).
Proof.
  split; [reflexivity|].
  rewrite !assess_doability_assess.
  destruct (assess_shape (doability_prompt idea) doability_fallback w)
    as (j & -> & _).
  done.
Qed.

(** By contrast the novelty prompt does quote the papers. *)
Example novelty_prompt_depends_on_papers :
  novelty_prompt long_documents []
  ≠ novelty_prompt long_documents
      [ {| paper_title := "Longformer"; paper_abstract := "Long documents.";
           paper_year := Some 2020; paper_citations := 4000;
           paper_authors := ["Beltagy"]; paper_url := "" |} ].
Proof. vm_compute. discriminate. Qed.

(** ** The profiler's default profile *)

Section ProfileFallback.

Context `{JsonLib}.

(** The reply to the profile prompt is of no use: the call fails, or the
    text has no span from an opening brace to a later closing one, or that
    span does not parse. *)
Definition profile_reply_unusable (r : LlmReply) : Prop :=
  match r with
  | LlmFails _ => True
  | LlmText content =>
      let json_start := Py.find "{"%char content in
      let json_end := Py.rfind "}"%char content + 1 in
      json_start < 0 ∨ json_end ≤ json_start ∨
      json_loads (Py.slice json_start json_end content) = None
  end.

(** [analyze_description] never raises. *)
Lemma analyze_description_returns (description : string)
  (experience_level : option string) (w : World) :
  ∃ profile,
    analyze_description description experience_level w
    = (Returned profile,
       log_prompt (profile_prompt description experience_level) w).
Proof.
  unfold analyze_description, try_except, analyze_description_try, bind,
    generate_content.
  destruct (llm w _ _) as [content|e]; [|by eexists].
  destruct ((0 <=? Py.find "{" content)
            && (Py.find "{" content <? Py.rfind "}" content + 1));
    [|by eexists].
  unfold loads. destruct (json_loads _) as [j|]; [|by eexists].
  unfold ret. destruct (Py.truthy_opt_str experience_level); [|by eexists].
  unfold lift. destruct (setitem _ _ _); by eexists.
Qed.

End ProfileFallback.

(** C8. [analyze_description] never raises, and when the text-analysis call
    fails or its reply holds no JSON span or a span that does not parse, it
    returns the default profile: the stated level when one is given (and
    not empty) and "PhD Student" otherwise, research areas ["Machine
    Learning"], no specific topics, no technical skills, style "Mixed",
    resource access "Moderate", publication count 0, h-index 0, novelty
    preference 0.5 and doability preference 0.7. *)
Theorem analyze_description_fallback `{JsonLib} (description : string)
  (experience_level : option string) (w : World) :
  let prompt := profile_prompt description experience_level in
  (∃ profile,
     analyze_description description experience_level w
     = (Returned profile, log_prompt prompt w))
  ∧
  (profile_reply_unusable (llm w (length (prompts w)) prompt) →
   analyze_description description experience_level w
   = (Returned
        (JDict [("expertise_level",
                 JStr (match experience_level with
                       | Some (String c level) => String c level
                       | _ => "PhD Student"
                       end));
                ("research_areas", JList [JStr "Machine Learning"]);
                ("specific_topics", JList []);
                ("technical_skills", JList []);
                ("research_style", JStr "Mixed");
                ("resource_access", JStr "Moderate");
                ("publication_count", JNum 0);
                ("h_index", JNum 0);
                ("novelty_preference", JNum 0.5);
                ("doability_preference", JNum 0.7)]),
      log_prompt prompt w)).
Proof.
  intros prompt. split; [apply analyze_description_returns|].
  intros Hbad. subst prompt.
  assert (default_profile experience_level
          = JDict [("expertise_level",
                 JStr (match experience_level with
                       | Some (String c level) => String c level
                       | _ => "PhD Student"
                       end));
                ("research_areas", JList [JStr "Machine Learning"]);
                ("specific_topics", JList []);
                ("technical_skills", JList []);
                ("research_style", JStr "Mixed");
                ("resource_access", JStr "Moderate");
                ("publication_count", JNum 0);
                ("h_index", JNum 0);
                ("novelty_preference", JNum 0.5);
                ("doability_preference", JNum 0.7)]) as <-.
  { by destruct experience_level as [[|c level]|]. }
  unfold analyze_description, try_except, analyze_description_try, bind,
    generate_content.
  destruct (llm w _ _) as [content|e]; [|done].
  simpl in Hbad.
  destruct (Z.leb_spec 0 (Py.find "{" content)) as [Hs|Hs]; simpl; [|done].
  destruct (Z.ltb_spec (Py.find "{" content) (Py.rfind "}" content + 1))
    as [He|He]; [|done].
  destruct Hbad as [?|[?|Hparse]]; [lia | lia |].
  unfold loads. by rewrite Hparse.
Qed.

(** A world whose text-analysis service answers in prose, without JSON. *)
Definition prose_world : World :=
  {| llm := λ _ _, LlmText "I am sorry, I cannot build a profile from this.";
     http := λ _ _, HttpResponse 200 (Some []);
     pdf := λ _, Returned "Attention is all you need.";
     reader := λ _ _, Returned sample_reader_output;
     prompts := []; queries := []; sleeps := [];
     extractions := []; readings := [] |}.

Lemma analyze_description_fallback_witness :
  profile_reply_unusable (H := sample_json)
    (llm prose_world (length (prompts prose_world))
       (profile_prompt "I work on retrieval." None))
  ∧
  fst (@analyze_description sample_json "I work on retrieval." None prose_world)
  = Returned
      (JDict [("expertise_level", JStr "PhD Student");
              ("research_areas", JList [JStr "Machine Learning"]);
              ("specific_topics", JList []);
              ("technical_skills", JList []);
              ("research_style", JStr "Mixed");
              ("resource_access", JStr "Moderate");
              ("publication_count", JNum 0);
              ("h_index", JNum 0);
              ("novelty_preference", JNum 0.5);
              ("doability_preference", JNum 0.7)]).
Proof.
  assert (profile_reply_unusable (H := sample_json)
            (llm prose_world (length (prompts prose_world))
               (profile_prompt "I work on retrieval." None))) as Hbad.
  { left. vm_compute. reflexivity. }
  split; [exact Hbad|].
  destruct (@analyze_description_fallback sample_json "I work on retrieval."
              None prose_world) as [_ Hdefault].
  by rewrite (Hdefault Hbad).
Defined.

(** With a stated level and a service that is down, the stated level is
    kept. *)
Example analyze_description_stated_level :
  fst (@analyze_description sample_json "I work on retrieval."
         (Some "Postdoc") failing_world)
  = Returned (@default_profile (Some "Postdoc")) ∧
  getitem (@default_profile (Some "Postdoc")) "expertise_level"
  = Returned (JStr "Postdoc").
Proof. by vm_compute. Qed.

(** ** The search phase: precondition failures *)

(** The candidate ideas kept with the job, none when there is no reader
    output or no [ideas] entry in it. *)
Definition stored_ideas (a : Analysis) : list Idea :=
  default [] (reader_output a ≫= ro_ideas).



(** ** A concrete job *)

Definition uploaded_analysis : Analysis :=
  {| paper_id := "paper-1"; selected_topics := [];
     user_profile_snapshot := None; reader_output := None;
     searcher_output := None; status := uploaded; progress := 10;
     error_message := None; completed_at := false |}.

(** The store right after the upload of one paper. *)
Definition uploaded_db : Db :=
  {| analyses := {[ "job-1" := uploaded_analysis ]};
     paper_rows := {[ "paper-1" := {| pdf_filename := "paper-1_attention.pdf";
                                      user_id := None |} ]};
     users := ∅;
     research_idea_rows := [] |}.

Definition uploaded_state : St :=
  {| world := sample_world; db := uploaded_db; history := [] |}.


(** ** The read phase: validation *)

(** The requirement that a job with reader output cannot be read again: the
    read phase would refuse it with a client error and change nothing. *)
Definition read_refuses_existing_reader_output : Prop :=
  ∀ (s : St) (job_id : string) (topics : list string) (a : Analysis),
    analyses (db s) !! job_id = Some a →
    is_Some (reader_output a) →
    ∃ r, analyze_paper_read (Some job_id) topics s = (Returned r, s) ∧
         client_error r.

(** The sample job after a first read phase on the topic "nlp". *)
Definition ideas_ready_state : St :=
  snd (analyze_paper_read (Some "job-1") ["nlp"] uploaded_state).

Definition ideas_ready_analysis : Analysis :=
  {| paper_id := "paper-1"; selected_topics := ["nlp"];
     user_profile_snapshot := None;
     reader_output := Some sample_reader_output;
     searcher_output := None; status := ideas_ready; progress := 60;
     error_message := None; completed_at := false |}.

Lemma ideas_ready_state_job :
  analyses (db ideas_ready_state) !! "job-1" = Some ideas_ready_analysis.
Proof. vm_compute. reflexivity. Qed.

(** The read phase has no such guard: the job that already holds reader
    output is read again, answered with the success payload, and its
    status goes through [parsing] and [reading] once more. *)
Lemma read_phase_reads_again :
  (analyses (db ideas_ready_state) !! "job-1" = Some ideas_ready_analysis ∧
   is_Some (reader_output ideas_ready_analysis) ∧
   ∃ s',
     analyze_paper_read (Some "job-1") ["nlp"] ideas_ready_state
     = (Returned (ReadResponse "job-1" (ro_summary sample_reader_output)
                    (ro_concepts sample_reader_output) sample_ideas), s') ∧
     length (history s') = (length (history ideas_ready_state) + 3)%nat ∧
     length (extractions (world s'))
     = S (length (extractions (world ideas_ready_state))))
  ∧ ¬ read_refuses_existing_reader_output.
Proof.
  split.
  - split; [apply ideas_ready_state_job|]. split; [by eexists|].
    eexists. split; [vm_compute; reflexivity|]. by vm_compute.
  - intros Hreq.
    destruct (Hreq ideas_ready_state "job-1" ["nlp"] ideas_ready_analysis
                ideas_ready_state_job) as (r & Hrun & Hclient).
    { by eexists. }
    apply (f_equal fst) in Hrun. vm_compute in Hrun.
    injection Hrun as <-. exact Hclient.
Qed.

Lemma in_world_extract (filepath : string) (s : St) :
  in_world (extract_text_from_pdf filepath) s
  = (pdf (world s) filepath,
     {| world := log_extraction filepath (world s);
        db := db s; history := history s |}).
Proof. reflexivity. Qed.

Lemma fail_job_world (job_id : option string) (e : PyExc) (s : St) :
  ∃ s', fail_job job_id e s = (Returned (ErrorResponse 500 (str_exc e)), s') ∧
        world s' = world s.
Proof.
  unfold fail_job, bind, committed, commit, ret.
  destruct (Py.truthy_opt_str job_id); [|by eexists].
  destruct (analyses (db s) !! default EmptyString job_id); by eexists.
Qed.

(** C9, as the code has it. With an empty topic list the read phase answers
    with a client error and changes nothing: no commit, no text
    extraction, no call to the reader. With at least one topic, a job that
    exists and whose paper is stored is never refused, whatever its status
    and whether or not it already has reader output: the text extraction
    is called. *)
Theorem read_phase_validation (s : St) :
  (∀ job_id,
     ∃ code msg,
       analyze_paper_read job_id [] s
       = (Returned (ErrorResponse code msg), s) ∧
       client_error (ErrorResponse code msg))
  ∧
  (∀ job_id topic topics a paper,
     job_id ≠ EmptyString →
     analyses (db s) !! job_id = Some a →
     paper_rows (db s) !! paper_id a = Some paper →
     ∃ r s',
       analyze_paper_read (Some job_id) (topic :: topics) s = (Returned r, s') ∧
       ¬ client_error r ∧
       extractions (world s')
       = extractions (world s) ++ [upload_folder +:+ "/" +:+ pdf_filename paper]).
Proof.
  split.
  - intros job_id. unfold analyze_paper_read, try_except, analyze_paper_read_try.
    destruct (Py.truthy_opt_str job_id); simpl.
    + unfold bind, committed.
      destruct (analyses (db s) !! default EmptyString job_id).
      * exists 400, "At least one topic must be selected". split; [done|].
        simpl. lia.
      * exists 404, "Analysis not found". split; [done|]. simpl. lia.
    + exists 400, "job_id is required". split; [done|]. simpl. lia.
  - intros job_id topic topics a paper Hid Hjob Hpaper.
    unfold analyze_paper_read, try_except, analyze_paper_read_try.
    assert (Py.truthy_opt_str (Some job_id) = true) as ->.
    { by destruct job_id. }
    cbv beta iota. cbn [negb default]. unfold id.
    unfold bind, committed, commit, ret, raise, in_world,
      extract_text_from_pdf, analyze_paper.
    cbv beta iota. rewrite Hjob. cbn [paper_id with_progress with_status
      with_selected_topics]. rewrite Hpaper. cbn [world db history].
    destruct (pdf (world s) _) as [paper_text|e].
    + destruct (Py.truthy_str paper_text); cbn [negb]; cbv beta iota.
      * cbn [world]. destruct (reader _ _ _) as [reader_results|e].
        -- eexists _, _. split; [reflexivity|]. split; [by intros []|done].
        -- match goal with |- context [fail_job ?j ?e ?s] =>
             destruct (fail_job_world j e s) as (s' & -> & Hw) end.
           eexists _, _. split; [reflexivity|]. rewrite Hw.
           split; [simpl; lia | done].
      * eexists _, _. split; [reflexivity|]. split; [simpl; lia | done].
    + match goal with |- context [fail_job ?j ?e ?s] =>
        destruct (fail_job_world j e s) as (s' & -> & Hw) end.
      eexists _, _. split; [reflexivity|]. rewrite Hw.
      split; [simpl; lia | done].
Qed.

Lemma read_phase_validation_witness :
  ("job-1" ≠ EmptyString ∧
   analyses (db ideas_ready_state) !! "job-1" = Some ideas_ready_analysis ∧
   paper_rows (db ideas_ready_state) !! paper_id ideas_ready_analysis
   = Some {| pdf_filename := "paper-1_attention.pdf"; user_id := None |}) ∧
  ∃ r s',
    analyze_paper_read (Some "job-1") ["nlp"] ideas_ready_state
    = (Returned r, s') ∧
    ¬ client_error r ∧
    extractions (world s')
    = extractions (world ideas_ready_state)
      ++ [upload_folder +:+ "/" +:+ "paper-1_attention.pdf"].
Proof.
  assert ("job-1" ≠ EmptyString) as Hid by discriminate.
  assert (paper_rows (db ideas_ready_state) !! paper_id ideas_ready_analysis
          = Some {| pdf_filename := "paper-1_attention.pdf"; user_id := None |})
    as Hpaper by (vm_compute; reflexivity).
  split; [by repeat split; try apply ideas_ready_state_job|].
  destruct (read_phase_validation ideas_ready_state) as [_ Hread].
  exact (Hread "job-1" "nlp" [] ideas_ready_analysis _ Hid
           ideas_ready_state_job Hpaper).
Defined.

(** ** The job state machine *)

(** The place of a status on the line from [pending] to [complete]. *)
Definition status_rank (st : Status) : nat :=
  match st with
  | pending => 0
  | uploaded => 1
  | parsing => 2
  | reading => 3
  | ideas_ready => 4
  | searching => 5
  | complete => 6
  | error => 7
  end.


(** A legal move between two successive committed versions of a job: out of
    [error] there is none; otherwise the job goes to [error], or its status
    does not go back and its progress does not decrease. *)
Definition forward (a b : Analysis) : Prop :=
  if decide (status a = error) then status b = error
  else status b = error ∨
       ((status_rank (status a) ≤ status_rank (status b))%nat ∧
        progress a ≤ progress b).

#[global] Instance forward_dec (a b : Analysis) : Decision (forward a b).
Proof. unfold forward. destruct (decide (status a = error)); apply _. Defined.


(** Every entry of the list is followed by a legal successor. *)
Fixpoint chain {A : Type} (R : A → A → Prop) (l : list A) : Prop :=
  match l with
  | a :: (b :: _) as tail => R a b ∧ chain R tail
  | _ => True
  end.

#[global] Instance chain_dec {A : Type} (R : A → A → Prop)
  `{∀ a b, Decision (R a b)} (l : list A) : Decision (chain R l).
Proof.
  induction l as [|a [|b l] IH]; simpl; [left; exact I | left; exact I |].
  simpl in IH. apply _.
Defined.

(** The committed versions of a job, oldest first, the current one last. *)
Definition job_trace (job_id : string) (s : St) : list Analysis :=
  omap (λ d, analyses d !! job_id) (history s ++ [db s]).

(** A phase invocation on the job. *)
Inductive Invocation : Type :=
  | Read (topics : list string)
  | Search (selected_idea_indices : list Z).

Section Runs.

Context `{JsonLib}.

Definition invoke (job_id : string) (i : Invocation) (s : St) : St :=
  match i with
  | Read topics => snd (analyze_paper_read (Some job_id) topics s)
  | Search selected => snd (analyze_paper_search (Some job_id) selected s)
  end.

(** The state after a sequence of invocations. *)
Definition run (job_id : string) (calls : list Invocation) (s : St) : St :=
  foldl (λ s i, invoke job_id i s) s calls.


(** The job has not been read yet. *)
Definition unread (job_id : string) (s : St) : Prop :=
  ∃ a, analyses (db s) !! job_id = Some a ∧
       (status a = pending ∨ status a = uploaded).


End Runs.


(** A read after completion does the same from [complete] and 100. *)
Example read_after_complete :
  map (λ a, (status a, progress a))
    (job_trace "job-1"
       (run (H := sample_json) "job-1"
          [Read ["nlp"]; Search [0; 1; 2]; Read ["nlp"]] uploaded_state))
  = [(uploaded, 10); (parsing, 20); (reading, 40); (ideas_ready, 60);
     (searching, 70); (complete, 100);
     (parsing, 20); (reading, 40); (ideas_ready, 60)].
Proof. vm_compute. reflexivity. Qed.




Lemma lookup_set_analysis (job_id : string) (a : Analysis) (d : Db) :
  analyses (set_analysis job_id a d) !! job_id = Some a.
Proof. apply lookup_insert_eq. Qed.



Lemma fail_job_run (job_id : string) (e : PyExc) (s : St) (a : Analysis) :
  job_id ≠ EmptyString →
  analyses (db s) !! job_id = Some a →
  fail_job (Some job_id) e s
  = (Returned (ErrorResponse 500 (str_exc e)),
     {| world := world s;
        db := set_analysis job_id
                (with_error_message (str_exc e) (with_status error a)) (db s);
        history := history s ++ [db s] |}).
Proof.
  intros Hid Ha. unfold fail_job, bind, committed, commit, ret.
  assert (Py.truthy_opt_str (Some job_id) = true) as -> by by destruct job_id.
  cbn [default]. unfold id. by rewrite Ha.
Qed.





Section Forward.

Context `{JsonLib}.





End Forward.



(** The same run, as the status poll would see it. *)
Example disciplined_run_trace :
  map (λ a, (status a, progress a))
    (job_trace "job-1"
       (run (H := sample_json) "job-1"
          [Read ["nlp"]; Search [0; 1; 2]; Search [0; 1; 2]] uploaded_state))
  = [(uploaded, 10); (parsing, 20); (reading, 40); (ideas_ready, 60);
     (searching, 70); (complete, 100)].
Proof. vm_compute. reflexivity. Qed.

(** A failed job is revived by the read phase: [error] is left. *)
Example read_after_error :
  let failed :=
    run (H := sample_json) "job-1" [Read ["nlp"]]
      {| world := {| llm := llm sample_world; http := http sample_world;
                     pdf := λ _, Returned EmptyString;
                     reader := reader sample_world;
                     prompts := []; queries := []; sleeps := [];
                     extractions := []; readings := [] |};
         db := uploaded_db; history := [] |} in
  map (λ a, (status a, progress a))
    (job_trace "job-1" (run (H := sample_json) "job-1" [Read ["nlp"]] failed))
  = [(uploaded, 10); (parsing, 20); (error, 20); (parsing, 20); (error, 20)].
Proof. vm_compute. reflexivity. Qed.

(** * Further properties of the ranking *)

From stdpp Require Import sorting.

(** ** The sort and the selection *)

(** [y] does not score higher than [x]. *)
Definition not_below (x y : ScoredIdea) : Prop :=
  (composite_score y <= composite_score x)%Q.

#[global] Instance not_below_trans : Transitive not_below.
Proof. intros x y z Hxy Hyz. unfold not_below in *. by eapply Qle_trans. Qed.

(** The entries whose composite score equals [q]. *)
Definition with_score (q : Q) (l : list ScoredIdea) : list ScoredIdea :=
  List.filter (λ x, Qeq_bool (composite_score x) q) l.

Lemma Qcompare_Lt_not_below (x y : ScoredIdea) :
  Qcompare (composite_score x) (composite_score y) = Lt → not_below y x.
Proof. intros Hc. apply Qlt_le_weak. by apply Qlt_alt. Qed.

Lemma Qcompare_not_Lt_not_below (x y : ScoredIdea) :
  Qcompare (composite_score x) (composite_score y) ≠ Lt → not_below x y.
Proof.
  intros Hc. unfold not_below. apply Qnot_lt_le. intros Hlt.
  apply Hc. by apply Qlt_alt.
Qed.

Lemma insert_desc_sorted (x : ScoredIdea) (l : list ScoredIdea) :
  Sorted not_below l → Sorted not_below (insert_desc x l).
Proof.
  induction 1 as [|y l Hl IH Hy]; simpl; [by repeat constructor|].
  destruct (Qcompare (composite_score x) (composite_score y)) eqn:Ec.
  - constructor; [by constructor|]. constructor.
    apply Qcompare_not_Lt_not_below. by rewrite Ec.
  - constructor; [done|].
    destruct l as [|z l]; simpl.
    + constructor. by apply Qcompare_Lt_not_below.
    + simpl in IH.
      destruct (Qcompare (composite_score x) (composite_score z)).
      * constructor. by apply Qcompare_Lt_not_below.
      * by inversion Hy; subst; constructor.
      * constructor. by apply Qcompare_Lt_not_below.
  - constructor; [by constructor|]. constructor.
    apply Qcompare_not_Lt_not_below. by rewrite Ec.
Qed.

Lemma sort_desc_sorted (l : list ScoredIdea) : Sorted not_below (sort_desc l).
Proof.
  induction l as [|x l IH]; simpl; [constructor|].
  by apply insert_desc_sorted.
Qed.

Lemma insert_desc_head (x : ScoredIdea) (l : list ScoredIdea) :
  Sorted not_below (x :: l) → insert_desc x l = x :: l.
Proof.
  intros Hs. destruct l as [|y l]; [done|]. simpl.
  destruct (Qcompare (composite_score x) (composite_score y)) eqn:Ec; try done.
  apply Sorted_inv in Hs as [_ Hhd]. apply HdRel_inv in Hhd.
  apply Qlt_alt in Ec. unfold not_below in Hhd.
  by apply Qle_not_lt in Hhd.
Qed.

Lemma insert_desc_with_score (q : Q) (x : ScoredIdea) (l : list ScoredIdea) :
  with_score q (insert_desc x l) = with_score q (x :: l).
Proof.
  unfold with_score.
  induction l as [|y l IH]; [done|]. simpl.
  destruct (Qcompare (composite_score x) (composite_score y)) eqn:Ec; try done.
  simpl. rewrite IH. simpl.
  destruct (Qeq_bool (composite_score x) q) eqn:Ex; [|done].
  destruct (Qeq_bool (composite_score y) q) eqn:Ey; [|done].
  apply Qeq_bool_iff in Ex, Ey. apply Qlt_alt in Ec.
  rewrite Ex, Ey in Ec. by apply Qlt_irrefl in Ec.
Qed.

(** X1. The sort of [research_ideas] keeps the entries, orders them by
    descending composite score, and is stable: the entries of any one score
    keep their input order, so a list already in descending order is left
    as it is. *)
Theorem sort_desc_stable (l : list ScoredIdea) :
  sort_desc l ≡ₚ l ∧
  Sorted not_below (sort_desc l) ∧
  (∀ q, with_score q (sort_desc l) = with_score q l) ∧
  (Sorted not_below l → sort_desc l = l).
Proof.
  split; [apply sort_desc_perm|]. split; [apply sort_desc_sorted|]. split.
  - intros q. induction l as [|x l IH]; [done|]. simpl sort_desc.
    rewrite insert_desc_with_score. unfold with_score in *. simpl.
    by rewrite IH.
  - induction l as [|x l IH]; [done|]. intros Hs. simpl.
    rewrite IH by (by apply Sorted_inv in Hs as [? _]).
    by apply insert_desc_head.
Qed.

Lemma diverse_loop_shape (rest top_3 : list ScoredIdea) :
  ∃ taken, diverse_loop top_3 rest = top_3 ++ taken ∧ sublist taken rest ∧
           (length top_3 ≤ 3 → length (top_3 ++ taken) ≤ 3)%nat.
Proof.
  revert top_3. induction rest as [|item rest IH]; intros top_3.
  - exists []. simpl. rewrite app_nil_r. by repeat split.
  - rewrite diverse_loop_cons. destruct (Nat.leb_spec 3 (length top_3)).
    + exists []. rewrite app_nil_r. split; [done|].
      split; [apply sublist_nil_l | done].
    + destruct (is_diverse item top_3).
      * destruct (IH (top_3 ++ [item])) as (taken & -> & Hsub & Hlen).
        exists (item :: taken). rewrite <- app_assoc. split; [done|].
        split; [by apply sublist_skip|]. intros _.
        assert (length (top_3 ++ [item]) ≤ 3)%nat as Hfit
          by (rewrite length_app; simpl; lia).
        specialize (Hlen Hfit). rewrite !length_app in *. simpl in *. lia.
      * destruct (IH top_3) as (taken & -> & Hsub & Hlen).
        exists taken. split; [done|]. split; [by apply sublist_cons | done].
Qed.

(** X2. [_select_diverse_top_3] never drops the first entry, returns
    entries of its input in their input order, and returns three of them
    whenever the input has at least three (all of them otherwise). *)
Theorem select_diverse_top_3_shape (first : ScoredIdea) (rest : list ScoredIdea) :
  ∃ others,
    _select_diverse_top_3 (first :: rest) = first :: others ∧
    sublist others rest ∧
    length (first :: others) = Nat.min 3 (length (first :: rest)).
Proof.
  unfold _select_diverse_top_3.
  destruct (Nat.leb_spec (length (first :: rest)) 3) as [Hle|Hgt].
  - exists rest. split; [done|]. split; [done|]. lia.
  - destruct (diverse_loop_shape rest [first]) as (taken & Hloop & Hsub & Hlen).
    rewrite Hloop. simpl in Hgt.
    destruct (Nat.ltb_spec (length ([first] ++ taken)) 3) as [Hfew|Hfull].
    + exists (take 2 rest). split; [done|].
      split; [apply sublist_take|]. cbn [length]. rewrite length_take. lia.
    + exists taken. split; [done|]. split; [done|].
      specialize (Hlen ltac:(simpl; lia)). cbn [length app] in *. lia.
Qed.

Lemma select_diverse_top_3_sublist (l : list ScoredIdea) :
  sublist (_select_diverse_top_3 l) l.
Proof.
  unfold _select_diverse_top_3.
  destruct (length l <=? 3)%nat; [done|].
  destruct l as [|first rest]; [done|].
  destruct (diverse_loop_shape rest [first]) as (taken & -> & Hsub & _).
  destruct (length ([first] ++ taken) <? 3)%nat.
  - apply sublist_take.
  - by apply sublist_skip.
Qed.

Lemma select_diverse_top_3_length (l : list ScoredIdea) :
  length (_select_diverse_top_3 l) = Nat.min 3 (length l).
Proof.
  unfold _select_diverse_top_3.
  destruct (Nat.leb_spec (length l) 3) as [Hle|Hgt]; [lia|].
  destruct l as [|first rest]; [simpl in Hgt; lia|].
  destruct (diverse_loop_shape rest [first]) as (taken & -> & _ & Hfit).
  specialize (Hfit ltac:(simpl; lia)).
  destruct (Nat.ltb_spec (length ([first] ++ taken)) 3);
    [rewrite length_take|]; lia.
Qed.

(** ** What a ranking run returns *)

Lemma sublist_StronglySorted {A : Type} (R : A → A → Prop) (l1 l2 : list A) :
  sublist l1 l2 → StronglySorted R l2 → StronglySorted R l1.
Proof.
  induction 1 as [|x l1 l2 Hsub IH|x l1 l2 Hsub IH]; intros Hs.
  - constructor.
  - apply StronglySorted_inv in Hs as [Hs Hall]. constructor; [by apply IH|].
    apply Forall_forall. intros y Hy. rewrite Forall_forall in Hall.
    apply Hall. by apply (sublist_subseteq _ _ Hsub).
  - apply StronglySorted_inv in Hs as [Hs _]. by apply IH.
Qed.

Section RankingRun.

Context `{JsonLib}.

Lemma search_papers_papers (idea : Idea) (w : World) :
  ∃ l w', _search_papers idea w = (Returned l, w') ∧
          prompts w' = prompts w ∧ llm w' = llm w.
Proof.
  rewrite search_papers_unfold. set (query := search_query idea).
  rewrite search_loop_cons.
  destruct (search_attempt_shape query 3 0 w) as [[l ->]| ->];
    [by eexists _, _|].
  rewrite search_loop_cons.
  destruct (search_attempt_shape query 3 1 (asked_and_slept query 0 w))
    as [[l ->]| ->]; [by eexists _, _|].
  rewrite search_loop_cons.
  destruct (search_attempt_shape query 3 2
              (asked_and_slept query 1 (asked_and_slept query 0 w)))
    as [[l ->]| ->]; by eexists _, _.
Qed.

(** What the scoring of one idea leaves in its entry and in the world. *)
Lemma score_idea_entry (user_topics : list string) (i : Idea)
  (w w' : World) (x : ScoredIdea) :
  score_idea user_topics i w = (Returned x, w') →
  idea x = i ∧ (length (papers x) ≤ 8)%nat ∧ literature_synthesis x = None ∧
  length (prompts w') = (length (prompts w) + 2)%nat.
Proof.
  unfold score_idea, bind.
  destruct (search_papers_papers i w) as (l & w1 & -> & Hp & _).
  rewrite assess_novelty_assess.
  destruct (assess_shape (novelty_prompt i l) novelty_fallback w1)
    as (jn & -> & _).
  rewrite assess_doability_assess.
  destruct (assess_shape (doability_prompt i) doability_fallback
              (log_prompt (novelty_prompt i l) w1)) as (jd & -> & _).
  unfold lift.
  destruct (getitem jn "novelty_score") as [vn|]; [|done].
  destruct (float_mul 0.3 vn) as [xn|]; [|done].
  destruct (getitem jd "doability_score") as [vd|]; [|done].
  destruct (float_mul 0.4 vd) as [xd|]; [|done].
  unfold sleep, ret. intros [= <- <-]. simpl.
  split; [done|]. split; [rewrite length_take; lia|]. split; [done|].
  rewrite !length_app, Hp. simpl. lia.
Qed.

(** What the synthesis adds to a selected entry. *)
Lemma synthesize_item_entry (item x : ScoredIdea) (w w' : World) :
  synthesize_item item w = (Returned x, w') →
  idea x = idea item ∧ papers x = papers item ∧
  composite_score x = composite_score item ∧
  is_Some (literature_synthesis x) ∧
  length (prompts w') = S (length (prompts w)).
Proof.
  unfold synthesize_item, bind. rewrite synthesize_literature_assess.
  destruct (assess_shape (synthesis_prompt (idea item) (papers item))
              synthesis_fallback w) as (j & -> & _).
  unfold ret. intros [= <- <-]. simpl. repeat split; try done.
  rewrite length_app. simpl. lia.
Qed.

(** A loop that adds [k] prompts per element adds [k] times the length. *)
Lemma for_each_prompts {A B : Type} (f : A → M World B) (k : nat) :
  (∀ a w b w', f a w = (Returned b, w') →
               length (prompts w') = (length (prompts w) + k)%nat) →
  ∀ l w r w', for_each f l w = (Returned r, w') →
              length (prompts w') = (length (prompts w) + k * length l)%nat.
Proof.
  intros Hf. induction l as [|a l IH]; intros w r w' Hrun; simpl in Hrun.
  - unfold ret in Hrun. inversion Hrun; subst. simpl. lia.
  - unfold bind in Hrun.
    destruct (f a w) as [[b|e] w1] eqn:Ef; [|discriminate].
    destruct (for_each f l w1) as [[bs|e] w2] eqn:El; [|discriminate].
    unfold ret in Hrun. inversion Hrun; subst.
    apply Hf in Ef. apply IH in El. simpl. lia.
Qed.

(** The two loops of a run that returns. *)
Lemma research_ideas_loops (ideas : list Idea) (user_topics : list string)
  (w w' : World) (r : SearcherOutput) :
  research_ideas ideas user_topics w = (Returned r, w') →
  ∃ scored w1,
    for_each (score_idea user_topics) ideas w = (Returned scored, w1) ∧
    for_each synthesize_item (_select_diverse_top_3 (sort_desc scored)) w1
    = (Returned (top_ideas r), w') ∧
    total_ideas_analyzed r = length ideas.
Proof.
  unfold research_ideas, bind.
  destruct (for_each (score_idea user_topics) ideas w)
    as [[scored|e] w1] eqn:Escore; [|done].
  destruct (for_each synthesize_item
              (_select_diverse_top_3 (sort_desc scored)) w1)
    as [[top|e] w2] eqn:Esyn; [|done].
  unfold ret. intros [= <- <-]. by exists scored, w1.
Qed.

Lemma Forall2_eq_fmap {A B C : Type} (f : A → C) (g : B → C)
  (l : list A) (k : list B) :
  Forall2 (λ a b, g b = f a) l k → g <$> k = f <$> l.
Proof.
  induction 1 as [|a b l k Hab _ IH]; [done|].
  by rewrite !fmap_cons, Hab, IH.
Qed.

End RankingRun.

(** X3. A ranking run that returns gives back three ideas when it was given
    at least three and all of them otherwise; they are ideas of the input,
    none more often than it was given; each comes with at most eight papers
    and with a literature synthesis; and the count of analysed ideas is the
    length of the input. *)
Theorem research_ideas_content `{JsonLib} (ideas : list Idea)
  (user_topics : list string) (w w' : World) (r : SearcherOutput) :
  research_ideas ideas user_topics w = (Returned r, w') →
  length (top_ideas r) = Nat.min 3 (length ideas) ∧
  idea <$> top_ideas r ⊆+ ideas ∧
  Forall (λ x, (length (papers x) ≤ 8)%nat ∧ is_Some (literature_synthesis x))
         (top_ideas r) ∧
  total_ideas_analyzed r = length ideas.
Proof.
  intros Hrun.
  destruct (research_ideas_loops _ _ _ _ _ Hrun)
    as (scored & w1 & Hscore & Hsyn & Htotal).
  apply (for_each_Forall2 _ (λ i x, idea x = i ∧ (length (papers x) ≤ 8)%nat))
    in Hscore.
  2:{ intros a s b s' Hb. apply score_idea_entry in Hb. tauto. }
  apply (for_each_Forall2 _ (λ item x, idea x = idea item ∧
                                       papers x = papers item ∧
                                       is_Some (literature_synthesis x)))
    in Hsyn.
  2:{ intros a s b s' Hb. apply synthesize_item_entry in Hb. tauto. }
  assert (idea <$> scored = ideas) as Hideas.
  { rewrite <- (list_fmap_id ideas). apply Forall2_eq_fmap.
    eapply Forall2_impl; [exact Hscore|]. by intros i x [-> _]. }
  assert (idea <$> top_ideas r
          = idea <$> _select_diverse_top_3 (sort_desc scored)) as Htop.
  { apply Forall2_eq_fmap. eapply Forall2_impl; [exact Hsyn|].
    by intros item x [? _]. }
  split; [|split; [|split; [|done]]].
  - rewrite <- (Forall2_length _ _ _ Hsyn), select_diverse_top_3_length.
    rewrite (Permutation_length (sort_desc_perm scored)).
    by rewrite (Forall2_length _ _ _ Hscore).
  - rewrite Htop, <- Hideas.
    etrans; [apply fmap_submseteq, sublist_submseteq,
             select_diverse_top_3_sublist|].
    by rewrite (sort_desc_perm scored).
  - assert (Forall (λ x, (length (papers x) ≤ 8)%nat) scored) as Hpapers.
    { clear -Hscore. induction Hscore as [|i x l k [_ Hx] _ IH];
        by constructor. }
    assert (Forall (λ x, (length (papers x) ≤ 8)%nat)
              (_select_diverse_top_3 (sort_desc scored))) as Hsel.
    { rewrite Forall_forall in Hpapers. apply Forall_forall. intros x Hx.
      apply Hpapers. apply select_diverse_top_3_subseteq in Hx.
      by rewrite sort_desc_perm in Hx. }
    clear -Hsyn Hsel. induction Hsyn as [|item x l k (_ & Hp & Hs) _ IH];
      [constructor|].
    apply Forall_cons in Hsel as [Hitem Hl].
    constructor; [by rewrite Hp | by apply IH].
Qed.

Lemma Forall2_StronglySorted (l k : list ScoredIdea) :
  Forall2 (λ item x, composite_score x = composite_score item) l k →
  StronglySorted not_below l → StronglySorted not_below k.
Proof.
  induction 1 as [|item x l k Hx Hlk IH]; intros Hs; [constructor|].
  apply StronglySorted_inv in Hs as [Hs Hall]. constructor; [by apply IH|].
  clear -Hx Hlk Hall. induction Hlk as [|item' x' l k Hx' _ IH];
    [constructor|].
  apply Forall_cons in Hall as [Hhd Hall].
  constructor; [|by apply IH]. unfold not_below in *. by rewrite Hx, Hx'.
Qed.

(** X4. The ideas a ranking run returns are in descending order of
    composite score: none scores higher than one placed before it. *)
Theorem research_ideas_ranked `{JsonLib} (ideas : list Idea)
  (user_topics : list string) (w w' : World) (r : SearcherOutput) :
  research_ideas ideas user_topics w = (Returned r, w') →
  StronglySorted not_below (top_ideas r).
Proof.
  intros Hrun.
  destruct (research_ideas_loops _ _ _ _ _ Hrun)
    as (scored & w1 & _ & Hsyn & _).
  apply (for_each_Forall2 _ (λ item x, composite_score x = composite_score item))
    in Hsyn.
  2:{ intros a s b s' Hb. apply synthesize_item_entry in Hb. tauto. }
  eapply Forall2_StronglySorted; [exact Hsyn|].
  eapply sublist_StronglySorted; [apply select_diverse_top_3_sublist|].
  apply Sorted_StronglySorted; [apply _|]. apply sort_desc_sorted.
Qed.

Lemma research_ideas_ranked_witness :
  @research_ideas sample_json sample_ideas [] sample_world
  = (Returned sample_result,
     snd (@research_ideas sample_json sample_ideas [] sample_world)) ∧
  StronglySorted not_below (top_ideas sample_result).
Proof.
  split.
  - vm_compute. reflexivity.
  - apply (@research_ideas_ranked sample_json sample_ideas [] sample_world
             (snd (@research_ideas sample_json sample_ideas [] sample_world))
             sample_result).
    vm_compute. reflexivity.
Defined.

Lemma research_ideas_content_witness :
  @research_ideas sample_json sample_ideas [] sample_world
  = (Returned sample_result,
     snd (@research_ideas sample_json sample_ideas [] sample_world)) ∧
  length (top_ideas sample_result) = Nat.min 3 (length sample_ideas) ∧
  idea <$> top_ideas sample_result ⊆+ sample_ideas ∧
  Forall (λ x, (length (papers x) ≤ 8)%nat ∧ is_Some (literature_synthesis x))
         (top_ideas sample_result) ∧
  total_ideas_analyzed sample_result = length sample_ideas.
Proof.
  split.
  - vm_compute. reflexivity.
  - apply (@research_ideas_content sample_json sample_ideas [] sample_world
             (snd (@research_ideas sample_json sample_ideas [] sample_world))
             sample_result).
    vm_compute. reflexivity.
Defined.

(** ** What a ranking run costs *)

Lemma for_each_bounds {A B : Type} (f : A → M World B)
  (m : World → nat) (lo hi : nat) :
  (∀ a w b w', f a w = (Returned b, w') → (m w + lo ≤ m w' ≤ m w + hi)%nat) →
  ∀ l w r w', for_each f l w = (Returned r, w') →
              (m w + lo * length l ≤ m w' ≤ m w + hi * length l)%nat.
Proof.
  intros Hf. induction l as [|a l IH]; intros w r w' Hrun; simpl in Hrun.
  - unfold ret in Hrun. inversion Hrun; subst. simpl. lia.
  - unfold bind in Hrun.
    destruct (f a w) as [[b|e] w1] eqn:Ef; [|discriminate].
    destruct (for_each f l w1) as [[bs|e] w2] eqn:El; [|discriminate].
    unfold ret in Hrun. inversion Hrun; subst.
    apply Hf in Ef. apply IH in El. simpl. lia.
Qed.

Section RankingCost.

Context `{JsonLib}.

Lemma search_papers_requests (idea : Idea) (w : World) :
  ∃ l w', _search_papers idea w = (Returned l, w') ∧
          (length (queries w) + 1 ≤ length (queries w')
           ≤ length (queries w) + 3)%nat.
Proof.
  rewrite search_papers_unfold. set (query := search_query idea).
  rewrite search_loop_cons.
  destruct (search_attempt_shape query 3 0 w) as [[l ->]| ->].
  { eexists _, _. split; [done|]. rewrite queries_asked, length_app. simpl. lia. }
  rewrite search_loop_cons.
  destruct (search_attempt_shape query 3 1 (asked_and_slept query 0 w))
    as [[l ->]| ->].
  { eexists _, _. split; [done|].
    rewrite queries_asked, queries_asked_and_slept, !length_app. simpl. lia. }
  rewrite search_loop_cons.
  destruct (search_attempt_shape query 3 2
              (asked_and_slept query 1 (asked_and_slept query 0 w)))
    as [[l ->]| ->].
  - eexists _, _. split; [done|].
    rewrite queries_asked, !queries_asked_and_slept, !length_app. simpl. lia.
  - eexists _, _. split; [done|].
    rewrite !queries_asked_and_slept, !length_app. simpl. lia.
Qed.

Lemma score_idea_requests (user_topics : list string) (i : Idea)
  (w w' : World) (x : ScoredIdea) :
  score_idea user_topics i w = (Returned x, w') →
  (length (queries w) + 1 ≤ length (queries w') ≤ length (queries w) + 3)%nat.
Proof.
  unfold score_idea, bind.
  destruct (search_papers_requests i w) as (l & w1 & -> & Hq).
  rewrite assess_novelty_assess.
  destruct (assess_shape (novelty_prompt i l) novelty_fallback w1)
    as (jn & -> & _).
  rewrite assess_doability_assess.
  destruct (assess_shape (doability_prompt i) doability_fallback
              (log_prompt (novelty_prompt i l) w1)) as (jd & -> & _).
  unfold lift.
  destruct (getitem jn "novelty_score") as [vn|]; [|done].
  destruct (float_mul 0.3 vn) as [xn|]; [|done].
  destruct (getitem jd "doability_score") as [vd|]; [|done].
  destruct (float_mul 0.4 vd) as [xd|]; [|done].
  unfold sleep, ret. by intros [= <- <-].
Qed.

Lemma synthesize_item_requests (item x : ScoredIdea) (w w' : World) :
  synthesize_item item w = (Returned x, w') →
  (length (queries w) + 0 ≤ length (queries w') ≤ length (queries w) + 0)%nat.
Proof.
  unfold synthesize_item, bind. rewrite synthesize_literature_assess.
  destruct (assess_shape (synthesis_prompt (idea item) (papers item))
              synthesis_fallback w) as (j & -> & _).
  unfold ret. intros [= <- <-]. simpl. lia.
Qed.

End RankingCost.

(** X5. A ranking run that returns on [n] ideas has sent between [n] and
    [3 * n] literature-search requests, and exactly [2 * n + min(3, n)]
    prompts to the text-analysis service: two per idea and one per idea it
    returns. *)
Theorem research_ideas_cost `{JsonLib} (ideas : list Idea)
  (user_topics : list string) (w w' : World) (r : SearcherOutput) :
  research_ideas ideas user_topics w = (Returned r, w') →
  let n := length ideas in
  (length (queries w) + n ≤ length (queries w')
   ≤ length (queries w) + 3 * n)%nat ∧
  length (prompts w') = (length (prompts w) + 2 * n + Nat.min 3 n)%nat.
Proof.
  intros Hrun n.
  destruct (research_ideas_loops _ _ _ _ _ Hrun)
    as (scored & w1 & Hscore & Hsyn & _).
  assert (length (_select_diverse_top_3 (sort_desc scored)) = Nat.min 3 n)
    as Hsel.
  { rewrite select_diverse_top_3_length.
    rewrite (Permutation_length (sort_desc_perm scored)).
    apply (for_each_Forall2 _ (λ _ _, True)) in Hscore; [|done].
    by rewrite <- (Forall2_length _ _ _ Hscore). }
  pose proof (for_each_bounds _ (λ w, length (queries w)) 1 3
                (λ a w b w', score_idea_requests user_topics a w w' b)
                _ _ _ _ Hscore) as Hq1.
  pose proof (for_each_bounds _ (λ w, length (queries w)) 0 0
                (λ a w b w', synthesize_item_requests a b w w')
                _ _ _ _ Hsyn) as Hq2.
  pose proof (for_each_prompts (score_idea user_topics) 2
                (λ a w b w' Hb, proj2 (proj2 (proj2
                   (score_idea_entry user_topics a w w' b Hb))))
                _ _ _ _ Hscore) as Hp1.
  pose proof (for_each_prompts synthesize_item 1
                (λ a w b w' Hb,
                   eq_trans (proj2 (proj2 (proj2 (proj2
                     (synthesize_item_entry a b w w' Hb)))))
                     (eq_sym (Nat.add_1_r _)))
                _ _ _ _ Hsyn) as Hp2.
  rewrite Hsel in Hp2. simpl in Hq1, Hq2. fold n in Hq1, Hp1. lia.
Qed.

Lemma research_ideas_cost_witness :
  @research_ideas sample_json sample_ideas [] sample_world
  = (Returned sample_result,
     snd (@research_ideas sample_json sample_ideas [] sample_world)) ∧
  let w' := snd (@research_ideas sample_json sample_ideas [] sample_world) in
  let n := length sample_ideas in
  (length (queries sample_world) + n ≤ length (queries w')
   ≤ length (queries sample_world) + 3 * n)%nat ∧
  length (prompts w') = (length (prompts sample_world) + 2 * n + Nat.min 3 n)%nat.
Proof.
  split.
  - vm_compute. reflexivity.
  - apply (@research_ideas_cost sample_json sample_ideas [] sample_world
             (snd (@research_ideas sample_json sample_ideas [] sample_world))
             sample_result).
    vm_compute. reflexivity.
Defined.

(** ** The topic-match score: what it depends on *)

From Stdlib Require Import Lqa.

Open Scope string_scope.
Open Scope Z_scope.
Open Scope list_scope.

Lemma lower_char_idemp (c : ascii) : Py.lower_char (Py.lower_char c) = Py.lower_char c.
Proof. destruct c as [[] [] [] [] [] [] [] []]; reflexivity. Qed.

Lemma lower_idemp (s : string) : Py.lower (Py.lower s) = Py.lower s.
Proof.
  induction s as [|c s IH]; [done|]. simpl. by rewrite lower_char_idemp, IH.
Qed.

(** The score, with the count of matching tags written as [hits]. *)
Lemma calculate_topic_match_hits (idea : Idea) (user_topics : list string) :
  _calculate_topic_match idea user_topics
  = match user_topics, idea_topic_tags idea with
    | [], _ => 3%Q
    | _ :: _, [] => 2.5%Q
    | _ :: _, _ :: _ =>
        Py.min (inject_Z (Z.of_nat (hits user_topics (idea_topic_tags idea)))
                / inject_Z (Z.max (Z.of_nat (length user_topics)) 1) * 5)%Q 5
    end.
Proof.
  unfold _calculate_topic_match.
  destruct user_topics as [|topic topics]; [done|].
  rewrite count_matches_hits.
  by destruct (idea_topic_tags idea).
Qed.

(** X6. The topic-match score only reads the lower-cased tags and topics:
    two ideas whose tags agree up to letter case, against two topic lists
    that agree up to letter case, get the same score. *)
Theorem calculate_topic_match_case (idea idea' : Idea)
  (user_topics user_topics' : list string) :
  map Py.lower (idea_topic_tags idea) = map Py.lower (idea_topic_tags idea') →
  map Py.lower user_topics = map Py.lower user_topics' →
  _calculate_topic_match idea user_topics
  = _calculate_topic_match idea' user_topics'.
Proof.
  intros Htags Htopics. unfold _calculate_topic_match.
  rewrite Htags, Htopics.
  assert (length user_topics = length user_topics') as Hlen.
  { by rewrite <- (length_map Py.lower user_topics), Htopics, length_map. }
  rewrite Hlen.
  destruct user_topics as [|t ts], user_topics' as [|t' ts']; done.
Qed.

Lemma calculate_topic_match_case_witness :
  (map Py.lower ["Transformers"; "NLP"] = map Py.lower ["transformers"; "nlp"] ∧
   map Py.lower ["Natural Language Processing (NLP)"]
   = map Py.lower ["natural language processing (nlp)"]) ∧
  _calculate_topic_match
    {| idea_title := "A"; idea_description := "B"; idea_rationale := "C";
       idea_topic_tags := ["Transformers"; "NLP"] |}
    ["Natural Language Processing (NLP)"]
  = _calculate_topic_match
      {| idea_title := "A"; idea_description := "B"; idea_rationale := "C";
         idea_topic_tags := ["transformers"; "nlp"] |}
      ["natural language processing (nlp)"].
Proof.
  split; [by split|].
  by apply calculate_topic_match_case.
Defined.

(** X7. The topic-match score does not depend on the order of the idea's
    tags nor on the order of the user's topics. *)
Theorem calculate_topic_match_order (idea idea' : Idea)
  (user_topics user_topics' : list string) :
  idea_topic_tags idea ≡ₚ idea_topic_tags idea' →
  user_topics ≡ₚ user_topics' →
  _calculate_topic_match idea user_topics
  = _calculate_topic_match idea' user_topics'.
Proof.
  intros Htags Htopics. rewrite !calculate_topic_match_hits.
  assert (hits user_topics (idea_topic_tags idea)
          = hits user_topics' (idea_topic_tags idea')) as ->.
  { unfold hits. rewrite Htags. f_equal. apply list_filter_iff.
    intros tag. unfold tag_hits. by rewrite Htopics. }
  rewrite (Permutation_length Htopics).
  destruct user_topics as [|t ts], user_topics' as [|t' ts'].
  - done.
  - by apply Permutation_nil_cons in Htopics.
  - symmetry in Htopics. by apply Permutation_nil_cons in Htopics.
  - destruct (idea_topic_tags idea) as [|g gs],
      (idea_topic_tags idea') as [|g' gs']; try done.
    + by apply Permutation_nil_cons in Htags.
    + symmetry in Htags. by apply Permutation_nil_cons in Htags.
Qed.

Lemma calculate_topic_match_order_witness :
  (["retrieval"; "transformers"] ≡ₚ ["transformers"; "retrieval"] ∧
   ["Transformers"; "Graphs"] ≡ₚ ["Graphs"; "Transformers"]) ∧
  _calculate_topic_match
    {| idea_title := "A"; idea_description := "B"; idea_rationale := "C";
       idea_topic_tags := ["retrieval"; "transformers"] |}
    ["Transformers"; "Graphs"]
  = _calculate_topic_match
      {| idea_title := "A"; idea_description := "B"; idea_rationale := "C";
         idea_topic_tags := ["transformers"; "retrieval"] |}
      ["Graphs"; "Transformers"].
Proof.
  assert (["retrieval"; "transformers"] ≡ₚ ["transformers"; "retrieval"])
    as Htags by apply Permutation_swap.
  assert (["Transformers"; "Graphs"] ≡ₚ ["Graphs"; "Transformers"])
    as Htopics by apply Permutation_swap.
  split; [by split|].
  by apply calculate_topic_match_order.
Defined.

Section ScoreRange.

Context `{JsonLib}.

Lemma research_ideas_scored (ideas : list Idea) (user_topics : list string)
  (w w' : World) (r : SearcherOutput) :
  research_ideas ideas user_topics w = (Returned r, w') →
  Forall (scored_by_formula user_topics) (top_ideas r).
Proof.
  intros Hrun.
  destruct (research_ideas_loops _ _ _ _ _ Hrun)
    as (scored & w1 & Hscore & Hsyn & _).
  assert (Forall (scored_by_formula user_topics) scored) as Hscored.
  { apply (for_each_Forall2 _ (λ _ x, scored_by_formula user_topics x))
      in Hscore; [|intros a s b s'; apply score_idea_formula].
    clear -Hscore. induction Hscore; by constructor. }
  assert (Forall (scored_by_formula user_topics)
            (_select_diverse_top_3 (sort_desc scored))) as Hsel.
  { rewrite Forall_forall in Hscored. apply Forall_forall. intros x Hx.
    apply Hscored. apply select_diverse_top_3_subseteq in Hx.
    by rewrite sort_desc_perm in Hx. }
  apply (for_each_Forall2 _ (λ item x,
           scored_by_formula user_topics item → scored_by_formula user_topics x))
    in Hsyn; [|intros a s b s'; apply synthesize_item_formula].
  clear -Hsyn Hsel. induction Hsyn as [|item x l l' Hx _ IH]; [constructor|].
  apply Forall_cons in Hsel as [Hitem Hl]. constructor; [by apply Hx | by apply IH].
Qed.

End ScoreRange.

(** X8. In the result of a ranking run every topic-match score lies between
    0 and 5, and an idea whose novelty and doability scores lie between 1
    and 5 has a composite score between 0.7 and 5. *)
Theorem research_ideas_score_range `{JsonLib} (ideas : list Idea)
  (user_topics : list string) (w w' : World) (r : SearcherOutput) :
  research_ideas ideas user_topics w = (Returned r, w') →
  Forall (λ x,
    (0 <= topic_match_score x <= 5)%Q ∧
    ∀ n d,
      score_of (novelty_assessment x) "novelty_score" = Some n →
      score_of (doability_assessment x) "doability_score" = Some d →
      (1 <= n <= 5)%Q → (1 <= d <= 5)%Q →
      (0.7 <= composite_score x <= 5)%Q)
    (top_ideas r).
Proof.
  intros Hrun. apply research_ideas_scored in Hrun.
  eapply Forall_impl; [exact Hrun|].
  intros x (n & d & Hn & Hd & Ht & Hc).
  assert (0 <= topic_match_score x <= 5)%Q as Hrange.
  { rewrite Ht. apply calculate_topic_match_range. }
  split; [done|]. intros n' d' Hn' Hd' Hnr Hdr.
  assert (n' = n) as -> by congruence. assert (d' = d) as -> by congruence.
  rewrite Hc. split; lra.
Qed.

Lemma research_ideas_score_range_witness :
  @research_ideas sample_json sample_ideas [] sample_world
  = (Returned sample_result,
     snd (@research_ideas sample_json sample_ideas [] sample_world)) ∧
  Forall (λ x,
    (0 <= topic_match_score x <= 5)%Q ∧
    ∀ n d,
      score_of (novelty_assessment x) "novelty_score" = Some n →
      score_of (doability_assessment x) "doability_score" = Some d →
      (1 <= n <= 5)%Q → (1 <= d <= 5)%Q →
      (0.7 <= composite_score x <= 5)%Q)
    (top_ideas sample_result).
Proof.
  split.
  - vm_compute. reflexivity.
  - apply (@research_ideas_score_range sample_json sample_ideas []
             sample_world
             (snd (@research_ideas sample_json sample_ideas [] sample_world))
             sample_result).
    vm_compute. reflexivity.
Defined.

(** ** The JSON span of a reply *)

(** The character [c] does not occur in [s]. *)
Fixpoint lacks (c : ascii) (s : string) : Prop :=
  match s with
  | EmptyString => True
  | String a s' => a ≠ c ∧ lacks c s'
  end.

Lemma find_from_lacks (i : Z) (c : ascii) (s : string) :
  lacks c s → Py.find_from i c s = -1.
Proof.
  revert i. induction s as [|a s IH]; intros i; simpl; [done|].
  intros [Hne Hs]. destruct (Ascii.eqb_spec a c); [done|]. by apply IH.
Qed.

Lemma find_from_app (i : Z) (c : ascii) (pre rest : string) :
  lacks c pre →
  Py.find_from i c (pre +:+ String c rest) = i + Z.of_nat (String.length pre).
Proof.
  revert i. induction pre as [|a pre IH]; intros i.
  - intros _. change (EmptyString +:+ String c rest) with (String c rest).
    simpl. rewrite Ascii.eqb_refl. lia.
  - intros [Hne Hs].
    change (String a pre +:+ String c rest)
      with (String a (pre +:+ String c rest)).
    simpl. destruct (Ascii.eqb_spec a c); [done|]. rewrite IH by done. lia.
Qed.

Lemma rfind_from_lacks (i last : Z) (c : ascii) (s : string) :
  lacks c s → Py.rfind_from i last c s = last.
Proof.
  revert i. induction s as [|a s IH]; intros i; simpl; [done|].
  intros [Hne Hs]. destruct (Ascii.eqb_spec a c); [done|]. by apply IH.
Qed.

Lemma rfind_from_app (i last : Z) (c : ascii) (s post : string) :
  lacks c post →
  Py.rfind_from i last c (s +:+ String c post) = i + Z.of_nat (String.length s).
Proof.
  intros Hpost. revert i last. induction s as [|a s IH]; intros i last.
  - change (EmptyString +:+ String c post) with (String c post).
    simpl. rewrite Ascii.eqb_refl.
    rewrite rfind_from_lacks by done. lia.
  - change (String a s +:+ String c post)
      with (String a (s +:+ String c post)).
    simpl. rewrite IH. lia.
Qed.

Lemma str_drop_app (pre s : string) :
  Py.str_drop (String.length pre) (pre +:+ s) = s.
Proof. induction pre as [|a pre IH]; [by destruct s|]. exact IH. Qed.

Lemma str_take_app (s t : string) :
  Py.str_take (String.length s) (s +:+ t) = s.
Proof.
  induction s as [|a s IH]; [by destruct t|].
  change (String a s +:+ t) with (String a (s +:+ t)). simpl. by rewrite IH.
Qed.

Lemma length_append (s t : string) :
  String.length (s +:+ t) = (String.length s + String.length t)%nat.
Proof.
  induction s as [|a s IH]; [done|].
  change (String a s +:+ t) with (String a (s +:+ t)). simpl. by rewrite IH.
Qed.

Lemma append_assoc (s t u : string) : (s +:+ t) +:+ u = s +:+ (t +:+ u).
Proof.
  induction s as [|a s IH]; [done|].
  change (String a s +:+ t +:+ u) with (String a (s +:+ t +:+ u)).
  change ((String a s +:+ t) +:+ u) with (String a ((s +:+ t) +:+ u)).
  by rewrite IH.
Qed.

(** The span from the first opening brace to the last closing brace. *)
Lemma json_span_found (pre mid post : string) :
  lacks "{" pre → lacks "}" post →
  json_span (pre +:+ "{" +:+ mid +:+ "}" +:+ post) = "{" +:+ mid +:+ "}".
Proof.
  intros Hpre Hpost.
  set (content := pre +:+ "{" +:+ mid +:+ "}" +:+ post).
  assert (Py.find "{" content = Z.of_nat (String.length pre)) as Hfind.
  { unfold Py.find.
    change content with (pre +:+ String "{" (mid +:+ String "}" post)).
    rewrite find_from_app by done. lia. }
  assert (Py.rfind "}" content
          = Z.of_nat (String.length pre + S (String.length mid))) as Hrfind.
  { unfold Py.rfind.
    replace content with ((pre +:+ String "{" mid) +:+ String "}" post)
      by (by rewrite append_assoc).
    rewrite rfind_from_app by done. rewrite length_append. simpl. lia. }
  unfold json_span, Py.slice. rewrite Hfind, Hrfind.
  assert (negb (Z.of_nat (String.length pre) =? -1) = true) as ->.
  { apply negb_true_iff, Z.eqb_neq. lia. }
  assert ((Z.of_nat (String.length pre)
           <? Z.of_nat (String.length pre + S (String.length mid)) + 1)
          = true) as -> by (apply Z.ltb_lt; lia).
  simpl andb. cbv iota.
  rewrite Nat2Z.id. subst content. rewrite str_drop_app.
  replace (Z.to_nat (Z.of_nat (String.length pre + S (String.length mid)) + 1
                     - Z.of_nat (String.length pre)))
    with (String.length ("{" +:+ mid +:+ "}")).
  2:{ rewrite !length_append. simpl. lia. }
  replace ("{" +:+ mid +:+ "}" +:+ post) with (("{" +:+ mid +:+ "}") +:+ post)
    by (by rewrite !append_assoc).
  apply str_take_app.
Qed.

(** Without an opening brace the whole reply is the span. *)
Lemma json_span_no_brace (content : string) :
  lacks "{" content → json_span content = content.
Proof.
  intros Hc. unfold json_span, Py.find. by rewrite find_from_lacks.
Qed.

(** The two brace indices of a reply and the text between them. *)
Lemma brace_slice (pre mid post : string) :
  lacks "{" pre → lacks "}" post →
  let content := pre +:+ "{" +:+ mid +:+ "}" +:+ post in
  0 ≤ Py.find "{" content ∧
  Py.find "{" content < Py.rfind "}" content + 1 ∧
  Py.slice (Py.find "{" content) (Py.rfind "}" content + 1) content
  = "{" +:+ mid +:+ "}".
Proof.
  intros Hpre Hpost content.
  assert (Py.find "{" content = Z.of_nat (String.length pre)) as Hfind.
  { unfold Py.find.
    change content with (pre +:+ String "{" (mid +:+ String "}" post)).
    rewrite find_from_app by done. lia. }
  assert (Py.rfind "}" content
          = Z.of_nat (String.length pre + S (String.length mid))) as Hrfind.
  { unfold Py.rfind.
    replace content with ((pre +:+ String "{" mid) +:+ String "}" post)
      by (by rewrite append_assoc).
    rewrite rfind_from_app by done. rewrite length_append. simpl. lia. }
  rewrite Hfind, Hrfind. split; [lia|]. split; [lia|].
  unfold Py.slice. rewrite Nat2Z.id. subst content. rewrite str_drop_app.
  replace (Z.to_nat (Z.of_nat (String.length pre + S (String.length mid)) + 1
                     - Z.of_nat (String.length pre)))
    with (String.length ("{" +:+ mid +:+ "}")).
  2:{ rewrite !length_append. simpl. lia. }
  replace ("{" +:+ mid +:+ "}" +:+ post) with (("{" +:+ mid +:+ "}") +:+ post)
    by (by rewrite !append_assoc).
  apply str_take_app.
Qed.

Lemma assess_span `{JsonLib} (prompt : string) (fallback j : Json) (w : World)
  (pre mid post : string) :
  lacks "{" pre → lacks "}" post →
  json_loads ("{" +:+ mid +:+ "}") = Some j →
  llm w (length (prompts w)) prompt
  = LlmText (pre +:+ "{" +:+ mid +:+ "}" +:+ post) →
  assess prompt fallback w = (Returned j, log_prompt prompt w).
Proof.
  intros Hpre Hpost Hj Hreply.
  unfold assess, try_except, bind, generate_content, loads.
  by rewrite Hreply, json_span_found, Hj.
Qed.

(** X9. The three assessments of the searcher read the JSON object out of a
    reply that wraps it in prose: for a reply made of a text without
    opening brace, an object text, and a text without closing brace, each
    of them returns what the parser makes of the object text alone. *)
Theorem assessments_read_span `{JsonLib} (idea : Idea) (papers : list Paper)
  (w : World) (pre mid post : string) (j : Json) :
  lacks "{" pre → lacks "}" post →
  json_loads ("{" +:+ mid +:+ "}") = Some j →
  let reply := LlmText (pre +:+ "{" +:+ mid +:+ "}" +:+ post) in
  (llm w (length (prompts w)) (novelty_prompt idea papers) = reply →
   _assess_novelty idea papers w
   = (Returned j, log_prompt (novelty_prompt idea papers) w)) ∧
  (llm w (length (prompts w)) (doability_prompt idea) = reply →
   _assess_doability idea papers w
   = (Returned j, log_prompt (doability_prompt idea) w)) ∧
  (llm w (length (prompts w)) (synthesis_prompt idea papers) = reply →
   _synthesize_literature idea papers w
   = (Returned j, log_prompt (synthesis_prompt idea papers) w)).
Proof.
  intros Hpre Hpost Hj reply. repeat split; intros Hreply.
  - rewrite assess_novelty_assess. by eapply assess_span.
  - rewrite assess_doability_assess. by eapply assess_span.
  - rewrite synthesize_literature_assess. by eapply assess_span.
Qed.

Lemma assessments_read_span_witness :
  let pre := "Here is the assessment: " in
  let mid := Py.q "novelty_score" +:+ ": 4, " +:+ Py.q "doability_score" +:+ ": 5" in
  let post := " Hope this helps." in
  let j := JDict [("novelty_score", JNum 4); ("doability_score", JNum 5)] in
  (lacks "{" pre ∧ lacks "}" post ∧
   @json_loads sample_json ("{" +:+ mid +:+ "}") = Some j ∧
   llm sample_world (length (prompts sample_world))
     (novelty_prompt long_documents [])
   = LlmText (pre +:+ "{" +:+ mid +:+ "}" +:+ post)) ∧
  @_assess_novelty sample_json long_documents [] sample_world
  = (Returned j, log_prompt (novelty_prompt long_documents []) sample_world).
Proof.
  intros pre mid post j.
  assert (lacks "{" pre) as Hpre by (vm_compute; repeat split; discriminate).
  assert (lacks "}" post) as Hpost by (vm_compute; repeat split; discriminate).
  assert (@json_loads sample_json ("{" +:+ mid +:+ "}") = Some j) as Hj
    by (vm_compute; reflexivity).
  assert (llm sample_world (length (prompts sample_world))
            (novelty_prompt long_documents [])
          = LlmText (pre +:+ "{" +:+ mid +:+ "}" +:+ post)) as Hreply
    by (vm_compute; reflexivity).
  split; [done|].
  exact (proj1 (@assessments_read_span sample_json long_documents []
                  sample_world pre mid post j Hpre Hpost Hj) Hreply).
Defined.

(** ** The stated level in a parsed profile *)

Lemma dict_get_set (key : string) (v : Json) (d : list (string * Json)) :
  Dict.get key (Dict.set key v d) = Some v.
Proof.
  induction d as [|[k v'] d IH]; simpl; [by rewrite String.eqb_refl|].
  destruct (String.eqb_spec k key) as [->|Hne]; simpl.
  - by rewrite String.eqb_refl.
  - by destruct (String.eqb_spec k key).
Qed.

Lemma dict_get_set_ne (key key' : string) (v : Json) (d : list (string * Json)) :
  key' ≠ key → Dict.get key' (Dict.set key v d) = Dict.get key' d.
Proof.
  intros Hne. induction d as [|[k v'] d IH]; simpl.
  - by destruct (String.eqb_spec key key').
  - destruct (String.eqb_spec k key) as [->|Hk]; simpl.
    + by destruct (String.eqb_spec key key').
    + by rewrite IH.
Qed.

(** X10. When the reply to the profile prompt wraps a JSON object in prose
    and a level was stated, [analyze_description] returns that object with
    [expertise_level] set to the stated level, whatever level the service
    inferred, and with every other entry as the service gave it. *)
Theorem analyze_description_stated_level_wins `{JsonLib}
  (description level : string) (w : World) (pre mid post : string)
  (d : list (string * Json)) :
  level ≠ EmptyString →
  lacks "{" pre → lacks "}" post →
  json_loads ("{" +:+ mid +:+ "}") = Some (JDict d) →
  llm w (length (prompts w)) (profile_prompt description (Some level))
  = LlmText (pre +:+ "{" +:+ mid +:+ "}" +:+ post) →
  ∃ profile,
    analyze_description description (Some level) w
    = (Returned (JDict profile),
       log_prompt (profile_prompt description (Some level)) w) ∧
    Dict.get "expertise_level" profile = Some (JStr level) ∧
    ∀ key, key ≠ "expertise_level" → Dict.get key profile = Dict.get key d.
Proof.
  intros Hlevel Hpre Hpost Hd Hreply.
  exists (Dict.set "expertise_level" (JStr level) d).
  split; [|split; [apply dict_get_set | intros key Hkey; by apply dict_get_set_ne]].
  destruct (brace_slice pre mid post Hpre Hpost) as (H0 & Hlt & Hslice).
  unfold analyze_description, try_except, analyze_description_try, bind,
    generate_content.
  rewrite Hreply.
  destruct (Z.leb_spec 0 (Py.find "{" (pre +:+ "{" +:+ mid +:+ "}" +:+ post)));
    [|lia].
  destruct (Z.ltb_spec (Py.find "{" (pre +:+ "{" +:+ mid +:+ "}" +:+ post))
              (Py.rfind "}" (pre +:+ "{" +:+ mid +:+ "}" +:+ post) + 1));
    [|lia].
  simpl andb. cbv iota. rewrite Hslice. unfold loads. rewrite Hd.
  unfold ret. by destruct level.
Qed.

Lemma analyze_description_stated_level_wins_witness :
  let pre := "Here is the assessment: " in
  let mid := Py.q "novelty_score" +:+ ": 4, " +:+ Py.q "doability_score" +:+ ": 5" in
  let post := " Hope this helps." in
  let d := [("novelty_score", JNum 4); ("doability_score", JNum 5)] in
  ("Postdoc" ≠ EmptyString ∧ lacks "{" pre ∧ lacks "}" post ∧
   @json_loads sample_json ("{" +:+ mid +:+ "}") = Some (JDict d) ∧
   llm sample_world (length (prompts sample_world))
     (profile_prompt "I work on retrieval." (Some "Postdoc"))
   = LlmText (pre +:+ "{" +:+ mid +:+ "}" +:+ post)) ∧
  ∃ profile,
    @analyze_description sample_json "I work on retrieval." (Some "Postdoc")
      sample_world
    = (Returned (JDict profile),
       log_prompt (profile_prompt "I work on retrieval." (Some "Postdoc"))
         sample_world) ∧
    Dict.get "expertise_level" profile = Some (JStr "Postdoc") ∧
    ∀ key, key ≠ "expertise_level" → Dict.get key profile = Dict.get key d.
Proof.
  intros pre mid post d.
  assert ("Postdoc" ≠ EmptyString) as Hlevel by discriminate.
  assert (lacks "{" pre) as Hpre by (vm_compute; repeat split; discriminate).
  assert (lacks "}" post) as Hpost by (vm_compute; repeat split; discriminate).
  assert (@json_loads sample_json ("{" +:+ mid +:+ "}") = Some (JDict d)) as Hd
    by (vm_compute; reflexivity).
  assert (llm sample_world (length (prompts sample_world))
            (profile_prompt "I work on retrieval." (Some "Postdoc"))
          = LlmText (pre +:+ "{" +:+ mid +:+ "}" +:+ post)) as Hreply
    by (vm_compute; reflexivity).
  split; [done|].
  exact (@analyze_description_stated_level_wins sample_json
           "I work on retrieval." "Postdoc" sample_world pre mid post d
           Hlevel Hpre Hpost Hd Hreply).
Defined.

(** ** Literature search: what is returned, and what is not retried *)

Lemma format_papers_wellformed (l : list RawPaper) :
  Forall (λ p, paper_abstract p ≠ EmptyString ∧ (length (paper_authors p) ≤ 3)%nat)
         (format_papers l).
Proof.
  induction l as [|p l IH]; simpl; [constructor|].
  destruct (has_abstract p) eqn:E; [|done].
  constructor; [|done]. split.
  - unfold has_abstract in E. simpl. by destruct (raw_abstract p) as [[|c a]|].
  - simpl. rewrite length_take. lia.
Qed.

(** One pass ends the search with the empty list or with the formatted
    papers of a reply, or it has paused and the loop goes on. *)
Lemma search_attempt_papers (query : string) (max_retries attempt : Z)
  (w : World) :
  (∃ l, search_attempt query max_retries attempt w
        = (Returned (Some l), asked query w) ∧
        (l = [] ∨ ∃ data, l = format_papers data))
  ∨ search_attempt query max_retries attempt w
    = (Returned None, asked_and_slept query attempt w).
Proof.
  unfold search_attempt, try_except, bind, requests_get.
  destruct (http w (length (queries w)) query) as [c d|e].
  - destruct (c =? 429) eqn:E429; [by right|].
    unfold raise_for_status.
    destruct ((400 <=? c) && (c <? 600)) eqn:Erange.
    + unfold raise. rewrite E429. simpl. left. eexists. split; [done | by left].
    + unfold ret, response_data. destruct d as [l|].
      * left. eexists. split; [done|]. right. by eexists.
      * left. eexists. split; [done | by left].
  - destruct e as [k|m|m|m|c|m|m|m|m];
      try (left; eexists; split; [done | by left]).
    destruct ((c =? 429) && (attempt <? max_retries - 1)) eqn:E.
    + by right.
    + left. eexists. split; [done | by left].
Qed.

(** X11. Whatever the search service answers, every paper [_search_papers]
    returns has a non-empty abstract and at most three authors. *)
Theorem search_papers_wellformed (idea : Idea) (w : World) :
  ∃ l w',
    _search_papers idea w = (Returned l, w') ∧
    Forall (λ p, paper_abstract p ≠ EmptyString ∧
                 (length (paper_authors p) ≤ 3)%nat) l.
Proof.
  assert (∀ l, l = [] ∨ (∃ data, l = format_papers data) →
               Forall (λ p, paper_abstract p ≠ EmptyString ∧
                            (length (paper_authors p) ≤ 3)%nat) l) as Hwf.
  { intros l [->|[data ->]]; [constructor | apply format_papers_wellformed]. }
  rewrite search_papers_unfold. set (query := search_query idea).
  rewrite search_loop_cons.
  destruct (search_attempt_papers query 3 0 w) as [(l & -> & Hl)| ->];
    [eexists _, _; split; [done | by apply Hwf]|].
  rewrite search_loop_cons.
  destruct (search_attempt_papers query 3 1 (asked_and_slept query 0 w))
    as [(l & -> & Hl)| ->]; [eexists _, _; split; [done | by apply Hwf]|].
  rewrite search_loop_cons.
  destruct (search_attempt_papers query 3 2
              (asked_and_slept query 1 (asked_and_slept query 0 w)))
    as [(l & -> & Hl)| ->]; eexists _, _; (split; [done|]);
    [by apply Hwf | constructor].
Qed.

(** A first reply that ends the search at once with no paper: an error
    status other than 429, a body that is not JSON, or a failed request
    other than a 429 error. *)
Definition unretryable (r : HttpReply) : Prop :=
  match r with
  | HttpResponse c d => c ≠ 429 ∧ (400 ≤ c < 600 ∨ d = None)
  | HttpFails (HTTPError c) => c ≠ 429
  | HttpFails _ => True
  end.

(** X12. Only rate limiting is retried: after a first reply with an error
    status other than 429, with a body that is not JSON, or after a failed
    request, [_search_papers] returns the empty list at once, having sent
    one request and paused for nothing. *)
Theorem search_papers_no_retry (idea : Idea) (w : World) :
  unretryable (http w (length (queries w)) (search_query idea)) →
  _search_papers idea w = (Returned [], log_query (search_query idea) w).
Proof.
  intros Hbad. rewrite search_papers_unfold, search_loop_cons.
  unfold search_attempt, try_except, bind, requests_get.
  destruct (http w (length (queries w)) (search_query idea)) as [c d|e];
    simpl in Hbad.
  - destruct Hbad as [H429 Hcase].
    destruct (Z.eqb_spec c 429) as [?|_]; [done|].
    unfold raise_for_status.
    destruct ((400 <=? c) && (c <? 600)) eqn:Erange.
    + unfold raise. by destruct (Z.eqb_spec c 429).
    + destruct Hcase as [Hc| ->]; [lia | done].
  - destruct e as [k|m|m|m|c|m|m|m|m]; try done.
    by destruct (Z.eqb_spec c 429).
Qed.

Lemma search_papers_no_retry_witness :
  let w := {| llm := llm sample_world;
              http := λ _ _, HttpResponse 500 None;
              pdf := pdf sample_world; reader := reader sample_world;
              prompts := []; queries := []; sleeps := [];
              extractions := []; readings := [] |} in
  unretryable (http w (length (queries w)) (search_query long_documents)) ∧
  _search_papers long_documents w
  = (Returned [], log_query (search_query long_documents) w).
Proof.
  intros w.
  assert (unretryable (http w (length (queries w)) (search_query long_documents)))
    as Hbad by (simpl; split; [discriminate | left; lia]).
  split; [exact Hbad|].
  exact (search_papers_no_retry long_documents w Hbad).
Defined.

(** ** Failed phases: the stored error is the reported one *)


Lemma pick_ideas_accepts (all_ideas : list Idea) (indices : list Z)
  (selected_ideas : list Idea) :
  Forall (λ idx, 0 ≤ idx < Z.of_nat (length all_ideas)) indices →
  ∃ picked,
    pick_ideas all_ideas indices selected_ideas
    = Returned (inr (selected_ideas ++ picked)) ∧
    Forall2 (λ idx x, all_ideas !! Z.to_nat idx = Some x) indices picked.
Proof.
  intros Hall. revert selected_ideas.
  induction Hall as [|idx rest Hidx _ IH]; intros selected_ideas; simpl.
  - exists []. by rewrite app_nil_r.
  - destruct (Z.leb_spec 0 idx); [|lia].
    destruct (Z.ltb_spec idx (Z.of_nat (length all_ideas))); [|lia]. simpl.
    destruct (lookup_lt_is_Some_2 all_ideas (Z.to_nat idx)) as [x Hx]; [lia|].
    rewrite Hx. destruct (IH (selected_ideas ++ [x])) as (picked & -> & Hp).
    exists (x :: picked). rewrite <- app_assoc. split; [done | by constructor].
Qed.

Section FailedPhases.

Context `{JsonLib}.




End FailedPhases.




(** ** A reply without a usable score ends the search phase *)

Section Scoreless.

Context `{JsonLib}.

(** Every reply of the service parses, but to a value that holds no
    numeric novelty score. *)
Definition never_scored (w : World) : Prop :=
  ∀ k prompt, ∃ content j,
    llm w k prompt = LlmText content ∧
    json_loads (json_span content) = Some j ∧
    score_of j "novelty_score" = None.

Lemma score_idea_scoreless (user_topics : list string) (i : Idea) (w : World) :
  never_scored w →
  ∃ e w', score_idea user_topics i w = (Raised e, w').
Proof.
  intros Hw. unfold score_idea. unfold bind at 1.
  destruct (search_papers_papers i w) as (l & w1 & -> & _ & Hllm).
  destruct (Hw (length (prompts w1)) (novelty_prompt i l))
    as (content & j & Hreply & Hj & Hscore).
  rewrite <- Hllm in Hreply.
  unfold bind at 1. rewrite assess_novelty_assess.
  assert (assess (novelty_prompt i l) novelty_fallback w1
          = (Returned j, log_prompt (novelty_prompt i l) w1)) as ->.
  { unfold assess, try_except, bind, generate_content, loads.
    by rewrite Hreply, Hj. }
  unfold bind at 1. rewrite assess_doability_assess.
  destruct (assess_shape (doability_prompt i) doability_fallback
              (log_prompt (novelty_prompt i l) w1)) as (jd & -> & _).
  unfold score_of in Hscore. unfold bind, lift.
  destruct (getitem j "novelty_score") as [v|e]; [|by eexists _, _].
  destruct v; try done; by eexists _, _.
Qed.

Lemma research_ideas_scoreless (i : Idea) (ideas : list Idea)
  (user_topics : list string) (w : World) :
  never_scored w →
  ∃ e w', research_ideas (i :: ideas) user_topics w = (Raised e, w').
Proof.
  intros Hw. unfold research_ideas. unfold bind at 1. simpl for_each.
  unfold bind at 1.
  destruct (score_idea_scoreless user_topics i w Hw) as (e & w' & ->).
  by eexists _, _.
Qed.

End Scoreless.

(** X14. A reply that parses but holds no numeric novelty score is not
    contained: on a job in [ideas_ready] with three valid indices and a
    service that only gives such replies, the search phase answers 500 and
    leaves the job in [error] at progress 70, with the message of the
    answer, its searcher output as it was and no idea row added. *)
Theorem scoreless_reply_fails_job `{JsonLib} (s : St) (job_id : string)
  (selected : list Z) (a : Analysis) (all_ideas : list Idea) :
  job_id ≠ EmptyString →
  analyses (db s) !! job_id = Some a →
  status a = ideas_ready →
  reader_output a ≫= ro_ideas = Some all_ideas →
  length selected = 3%nat →
  Forall (λ idx, 0 ≤ idx < Z.of_nat (length all_ideas)) selected →
  never_scored (world s) →
  ∃ msg s' a',
    analyze_paper_search (Some job_id) selected s
    = (Returned (ErrorResponse 500 msg), s') ∧
    analyses (db s') !! job_id = Some a' ∧
    status a' = error ∧ progress a' = 70 ∧
    error_message a' = Some msg ∧
    searcher_output a' = searcher_output a ∧
    research_idea_rows (db s') = research_idea_rows (db s).
Proof.
  intros Hne Ha Hst Hideas Hlen Hrange Hw.
  unfold analyze_paper_search, try_except, analyze_paper_search_try.
  assert (Py.truthy_opt_str (Some job_id) = true) as -> by by destruct job_id.
  rewrite Hlen. cbn [negb Nat.eqb]. cbn [default]. unfold id.
  unfold bind at 1. unfold committed at 1. cbv beta iota. rewrite Ha.
  rewrite bool_decide_eq_true_2 by done. cbn [negb]. rewrite Hideas.
  destruct (pick_ideas_accepts all_ideas selected [] Hrange)
    as (picked & Hpick & Hpicked).
  unfold bind at 1. unfold lift at 1. rewrite Hpick. cbn [app].
  destruct picked as [|x picked].
  { apply Forall2_length in Hpicked. rewrite Hlen in Hpicked. done. }
  unfold bind at 1. unfold commit at 1. cbv beta iota.
  unfold bind at 1. unfold in_world at 1. cbn [world db history].
  destruct (research_ideas_scoreless x picked
              (selected_topics (with_progress 70 (with_status searching a)))
              (world s) Hw) as (e & w' & ->).
  erewrite fail_job_run; [|done|cbn [db]; apply lookup_set_analysis].
  eexists _, _, _. split; [reflexivity|].
  split; [apply lookup_set_analysis|]. by repeat split.
Qed.

(** A parser that knows the empty object only, and a service that always
    answers with it. *)
Definition empty_object_json : JsonLib :=
  {| json_loads s := if String.eqb s "{}" then Some (JDict []) else None |}.

Definition empty_object_state : St :=
  {| world := {| llm := λ _ _, LlmText "{}"; http := http sample_world;
                 pdf := pdf sample_world; reader := reader sample_world;
                 prompts := []; queries := []; sleeps := [];
                 extractions := []; readings := [] |};
     db := db ideas_ready_state; history := [] |}.

Lemma scoreless_reply_fails_job_witness :
  ("job-1" ≠ EmptyString ∧
   analyses (db empty_object_state) !! "job-1" = Some ideas_ready_analysis ∧
   status ideas_ready_analysis = ideas_ready ∧
   reader_output ideas_ready_analysis ≫= ro_ideas = Some sample_ideas ∧
   length [2; 0; 1] = 3%nat ∧
   Forall (λ idx, 0 ≤ idx < Z.of_nat (length sample_ideas)) [2; 0; 1] ∧
   never_scored (H := empty_object_json) (world empty_object_state)) ∧
  ∃ msg s' a',
    @analyze_paper_search empty_object_json (Some "job-1") [2; 0; 1]
      empty_object_state
    = (Returned (ErrorResponse 500 msg), s') ∧
    analyses (db s') !! "job-1" = Some a' ∧
    status a' = error ∧ progress a' = 70 ∧
    error_message a' = Some msg ∧
    searcher_output a' = searcher_output ideas_ready_analysis ∧
    research_idea_rows (db s') = research_idea_rows (db empty_object_state).
Proof.
  assert ("job-1" ≠ EmptyString) as Hne by discriminate.
  assert (analyses (db empty_object_state) !! "job-1"
          = Some ideas_ready_analysis) as Ha by apply ideas_ready_state_job.
  assert (Forall (λ idx, 0 ≤ idx < Z.of_nat (length sample_ideas)) [2; 0; 1])
    as Hrange by (repeat constructor; simpl; lia).
  assert (never_scored (H := empty_object_json) (world empty_object_state))
    as Hw by (intros k p; by exists "{}", (JDict [])).
  split; [by repeat split|].
  exact (@scoreless_reply_fails_job empty_object_json empty_object_state
           "job-1" [2; 0; 1] ideas_ready_analysis sample_ideas
           Hne Ha eq_refl eq_refl eq_refl Hrange Hw).
Defined.

(** * The rest of the code: more endpoints and the bibliometric profile *)

(** ** [allowed_file] ([app.py]) *)

(** [s.rsplit(c, 1)]: split at the last [c], or the string alone. *)
Definition rsplit1 (c : ascii) (s : string) : list string :=
  let i := Py.rfind c s in
  if i =? -1 then [s]
  else [Py.slice 0 i s; Py.str_drop (Z.to_nat (i + 1)) s].

(** [ALLOWED_EXTENSIONS]. *)
Definition ALLOWED_EXTENSIONS : list string := ["pdf"].

(** ['.' in filename and filename.rsplit('.', 1)[1].lower() in
    ALLOWED_EXTENSIONS]; the index is in range whenever it is read. *)
Definition allowed_file (filename : string) : bool :=
  Py.contains "." filename &&
  match rsplit1 "." filename !! 1%nat with
  | Some ext => existsb (String.eqb (Py.lower ext)) ALLOWED_EXTENSIONS
  | None => false
  end.

(** ** The query endpoints ([app.py]) *)

(** What [get_status] and [get_results] answer. *)
Inductive QueryResponse : Type :=
  | QueryError (code : Z) (msg : string)
  | StatusPayload (job_id status : string) (progress : Z)
      (error : option string)
  | ResultsPayload (job_id filename paper_summary : string)
      (concepts : list string) (ideas : list ScoredIdea).

Definition get_status (job_id : string) : M St QueryResponse :=
  d <- committed ;;
  match analyses d !! job_id with
  | None => ret (QueryError 404 "Job not found")
  | Some analysis =>
      ret (StatusPayload job_id (status_name (status analysis))
             (progress analysis) (error_message analysis))
  end.


(** ** The user profile endpoints ([app.py]) *)

(** What the profile endpoints answer: an error, the 201 answer of a
    creation, or the 200 answer with the stored profile. *)
Inductive ProfileResponse : Type :=
  | ProfileError (code : Z) (msg : string)
  | ProfileCreated (user_id : string) (profile : option Json)
  | ProfileFound (user_id : string) (profile : option Json).

Definition set_user (user_id : string) (u : User) (d : Db) : Db :=
  {| analyses := analyses d;
     paper_rows := paper_rows d;
     users := <[user_id := u]> (users d);
     research_idea_rows := research_idea_rows d |}.

(** A profile as it is kept in the column: JSON [null] is no profile. *)
Definition stored_profile (p : Json) : option Json :=
  match p with
  | JNull => None
  | _ => Some p
  end.

Section WithJsonUsers.

Context `{JsonLib}.

(** The [try] block of [create_user_profile]; [user_id] is the identifier
    drawn for the new user, and a second row with the same identifier is
    refused by the store. *)
Definition create_user_profile_try (user_id : string)
  (method description experience_level google_scholar_url : option string)
  : M St ProfileResponse :=
  let method := default "manual" method in
  if String.eqb method "manual" then
    let description := default EmptyString description in
    if negb (Py.truthy_str description) then
      ret (ProfileError 400 "Description is required for manual method")
    else
      profile <- in_world (analyze_description description experience_level) ;;
      d <- committed ;;
      match users d !! user_id with
      | Some _ => raise (Exception "UNIQUE constraint failed: users.id")
      | None =>
          commit (set_user user_id {| profile := stored_profile profile |} d) ;;;
          ret (ProfileCreated user_id (stored_profile profile))
      end
  else if String.eqb method "scholar" then
    let scholar_url := default EmptyString google_scholar_url in
    if negb (Py.truthy_str scholar_url) then
      ret (ProfileError 400 "Google Scholar URL is required for scholar method")
    else
      ret (ProfileError 501
             "Google Scholar import not yet implemented. Please use manual method.")
  else
    ret (ProfileError 400
           ("Invalid method. Use " +:+ Py.q "manual" +:+ " or " +:+ Py.q "scholar")).

Definition create_user_profile (user_id : string)
  (method description experience_level google_scholar_url : option string)
  : M St ProfileResponse :=
  try_except
    (create_user_profile_try user_id method description experience_level
       google_scholar_url)
    (fun e => ret (ProfileError 500 (str_exc e))).

Definition get_user_profile (user_id : string) : M St ProfileResponse :=
  d <- committed ;;
  match users d !! user_id with
  | None => ret (ProfileError 404 "User not found")
  | Some user => ret (ProfileFound user_id (profile user))
  end.



End WithJsonUsers.

(** ** The upload endpoint ([app.py]) *)

Inductive UploadResponse : Type :=
  | UploadError (code : Z) (msg : string)
  | Uploaded (job_id filename : string).

Definition new_analysis (paper : string) : Analysis :=
  {| paper_id := paper; selected_topics := [];
     user_profile_snapshot := None; reader_output := None;
     searcher_output := None; status := uploaded; progress := 10;
     error_message := None; completed_at := false |}.

Definition add_upload (paper analysis : string) (row : PaperRow) (d : Db) : Db :=
  {| analyses := <[analysis := new_analysis paper]> (analyses d);
     paper_rows := <[paper := row]> (paper_rows d);
     users := users d;
     research_idea_rows := research_idea_rows d |}.

(** The database part of [upload_paper], with its own [try]. *)
Definition upload_paper_store (paper analysis pdf : string)
  (user : option string) (filename : string) : M St UploadResponse :=
  d <- committed ;;
  if Py.truthy_opt_str user
     && negb (bool_decide (is_Some (users d !! default EmptyString user)))
  then
    ret (UploadError 404 ("User not found: " +:+ default EmptyString user))
  else
    match paper_rows d !! paper, analyses d !! analysis with
    | None, None =>
        commit (add_upload paper analysis
                  {| pdf_filename := pdf; user_id := user |} d) ;;;
        ret (Uploaded analysis filename)
    | _, _ => raise (Exception "UNIQUE constraint failed")
    end.

(** [upload_paper]. The request gives the name of the uploaded file, when
    there is one, and the optional user; [paper] and [analysis] are the
    identifiers drawn for the new rows; [secure_filename] is the function
    of that name of the web framework; [saved] is what saving the file and
    reading its size gives. The file system itself is not modelled. *)
Definition upload_paper (secure_filename : string → string)
  (file : option string) (user : option string) (paper analysis : string)
  (saved : outcome Z) : M St UploadResponse :=
  try_except
    (match file with
     | None => ret (UploadError 400 "No file provided")
     | Some name =>
         if String.eqb name EmptyString then
           ret (UploadError 400 "No file selected")
         else if negb (allowed_file name) then
           ret (UploadError 400 "Invalid file type. Only PDF files are allowed")
         else
           let filename := secure_filename name in
           let pdf := paper +:+ "_" +:+ filename in
           _ <- lift saved ;;
           upload_paper_store paper analysis pdf user filename
     end)
    (fun e => ret (UploadError 500 (str_exc e))).

(** ** The bibliometric profile ([agents/profiler.py]) *)

(** A publication of the scholar record. *)
Record Publication : Type := {
  pub_title : string;
  pub_year : option Z;
  pub_citations : option Z
}.

(** The scholar record; an absent entry is [None]. *)
Record ScholarData : Type := {
  sd_name : option string;
  sd_affiliation : option string;
  sd_interests : option (list string);
  sd_publications : option (list Publication);
  sd_h_index : option Z;
  sd_total_citations : option Z
}.

Definition publication_line (pub : Publication) : string :=
  "- " +:+ pub_title pub +:+ " (" +:+
  match pub_year pub with Some y => pretty y | None => "N/A" end +:+
  ") - " +:+ pretty (default 0 (pub_citations pub)) +:+ " citations".

Definition scholar_prompt (scholar_data : ScholarData) : string :=
  let pub_summary :=
    Py.join Py.nl
      (map publication_line (take 10 (default [] (sd_publications scholar_data)))) in
  "You are a research profile analyzer. Analyze this researcher's Google Scholar profile and create a structured profile.

RESEARCHER PROFILE:
Name: " +:+ default "Unknown" (sd_name scholar_data) +:+ "
Affiliation: " +:+ default "Unknown" (sd_affiliation scholar_data) +:+ "
H-Index: " +:+ pretty (default 0 (sd_h_index scholar_data)) +:+ "
Total Citations: " +:+ pretty (default 0 (sd_total_citations scholar_data)) +:+ "
Stated Interests: " +:+ Py.join ", " (default [] (sd_interests scholar_data)) +:+ "

TOP PUBLICATIONS:
" +:+ pub_summary +:+ "

Based on this publication record, infer and return ONLY valid JSON:

{
  " +:+ Py.q "expertise_level" +:+ ": " +:+ Py.q "PhD Student" +:+ " | " +:+
  Py.q "Postdoc" +:+ " | " +:+ Py.q "Assistant Professor" +:+ " | " +:+
  Py.q "Associate/Full Professor" +:+ " | " +:+
  Py.q "Industry Researcher" +:+ ",
  " +:+ Py.q "research_areas" +:+ ": [" +:+ Py.q "area1" +:+ ", " +:+
  Py.q "area2" +:+ ", ...],  // Extract from publication venues/topics
  " +:+ Py.q "specific_topics" +:+ ": [" +:+ Py.q "topic1" +:+ ", " +:+
  Py.q "topic2" +:+ ", ...],  // Extract from paper titles and interests
  " +:+ Py.q "technical_skills" +:+ ": [" +:+ Py.q "skill1" +:+ ", " +:+
  Py.q "skill2" +:+ ", ...],  // Infer from methodologies in papers
  " +:+ Py.q "research_style" +:+ ": " +:+ Py.q "Empirical" +:+ " | " +:+
  Py.q "Theoretical" +:+ " | " +:+ Py.q "Applied" +:+ " | " +:+
  Py.q "Mixed" +:+ ",
  " +:+ Py.q "resource_access" +:+ ": " +:+ Py.q "Limited" +:+ " | " +:+
  Py.q "Moderate" +:+ " | " +:+ Py.q "Extensive" +:+ ",  // Infer from affiliation and publication venues
  " +:+ Py.q "publication_count" +:+ ": " +:+
  pretty (Z.of_nat (length (default [] (sd_publications scholar_data)))) +:+ ",
  " +:+ Py.q "h_index" +:+ ": " +:+ pretty (default 0 (sd_h_index scholar_data)) +:+ ",
  " +:+ Py.q "novelty_preference" +:+ ": 0-1,  // Infer from publication pattern and venues
  " +:+ Py.q "doability_preference" +:+ ": 0-1  // Infer from publication frequency and scope
}

INFERENCE GUIDELINES:
- expertise_level: Infer from h-index, citation count, affiliation
  * H-index < 5: PhD Student
  * H-index 5-15: Postdoc or early Assistant Prof
  * H-index 15-30: Assistant/Associate Prof
  * H-index > 30: Senior Professor
  * Adjust based on affiliation (industry suggests " +:+ Py.q "Industry Researcher" +:+ ")
- research_areas: Look at publication venues (NeurIPS→ML, ACL→NLP, CVPR→CV)
- specific_topics: Extract key concepts from paper titles
- technical_skills: Infer tools/frameworks from publication style and venues
- research_style: Infer from paper types (empirical benchmarks vs theory papers)
- resource_access: Consider affiliation prestige and publication scale
- novelty_preference: Higher if publishing in top venues with novel contributions
- doability_preference: Higher if consistent publication record (suggests practical approach)

Return ONLY the JSON object, no other text.".

(** The level the fallback reads off the h-index. *)
Definition expertise_of_h_index (h_index : Z) : string :=
  if h_index <? 5 then "PhD Student"
  else if h_index <? 15 then "Postdoc"
  else if h_index <? 30 then "Assistant Professor"
  else "Associate/Full Professor".

Definition scholar_default_profile (scholar_data : ScholarData) : Json :=
  let h_index := default 0 (sd_h_index scholar_data) in
  JDict [("expertise_level", JStr (expertise_of_h_index h_index));
         ("research_areas",
          JList (map JStr (take 3 (default ["Machine Learning"]
                                     (sd_interests scholar_data)))));
         ("specific_topics", JList []);
         ("technical_skills", JList []);
         ("research_style", JStr "Mixed");
         ("resource_access", JStr "Moderate");
         ("publication_count",
          JNum (inject_Z (Z.of_nat (length (default []
                                              (sd_publications scholar_data))))));
         ("h_index", JNum (inject_Z h_index));
         ("novelty_preference", JNum 0.5);
         ("doability_preference", JNum 0.7)].

Section WithJsonScholar.

Context `{JsonLib}.

Definition analyze_scholar_data_try (prompt : string) : M World Json :=
  content <- generate_content prompt ;;
  let json_start := Py.find "{"%char content in
  let json_end := Py.rfind "}"%char content + 1 in
  if (0 <=? json_start) && (json_start <? json_end) then
    loads (Py.slice json_start json_end content)
  else raise (ValueError "No valid JSON found in response").

Definition analyze_scholar_data (scholar_data : ScholarData) : M World Json :=
  let prompt := scholar_prompt scholar_data in
  try_except
    (analyze_scholar_data_try prompt)
    (fun _ => ret (scholar_default_profile scholar_data)).

End WithJsonScholar.

(** * Properties of the rest of the code *)

(** ** Which file names are accepted *)

Lemma lacks_not_substring (c : ascii) (s : string) :
  lacks c s → ¬ substring (String c EmptyString) s.
Proof.
  induction s as [|a s IH]; simpl.
  - intros _ [[|b pre] [post Hs]]; discriminate.
  - intros [Hne Hs] [[|b pre] [post Heq]].
    + change (EmptyString +:+ String c EmptyString +:+ post)
        with (String c post) in Heq. congruence.
    + change (String b pre +:+ String c EmptyString +:+ post)
        with (String b (pre +:+ String c EmptyString +:+ post)) in Heq.
      apply IH; [done|]. exists pre, post. congruence.
Qed.

(** A string has no [c], or it splits at its last [c]. *)
Lemma last_occurrence (c : ascii) (s : string) :
  lacks c s ∨ ∃ stem ext, s = stem +:+ String c ext ∧ lacks c ext.
Proof.
  induction s as [|a s IH]; [by left|].
  destruct IH as [Hs|(stem & ext & -> & Hext)].
  - destruct (Ascii.eqb_spec a c) as [->|Hne].
    + right. by exists EmptyString, s.
    + by left.
  - right. by exists (String a stem), ext.
Qed.

Lemma allowed_file_split (stem ext : string) :
  lacks "." ext →
  allowed_file (stem +:+ "." +:+ ext) = String.eqb (Py.lower ext) "pdf".
Proof.
  intros Hext. unfold allowed_file.
  assert (Py.contains "." (stem +:+ "." +:+ ext) = true) as ->.
  { apply contains_spec. by exists stem, ext. }
  unfold rsplit1, Py.rfind.
  change (stem +:+ "." +:+ ext) with (stem +:+ String "." ext).
  rewrite rfind_from_app by done.
  destruct (Z.eqb_spec (0 + Z.of_nat (String.length stem)) (-1)); [lia|].
  cbn [lookup list_lookup andb].
  replace (Z.to_nat (0 + Z.of_nat (String.length stem) + 1))
    with (String.length (stem +:+ ".")) by (rewrite length_append; simpl; lia).
  replace (stem +:+ String "." ext) with ((stem +:+ ".") +:+ ext)
    by (by rewrite append_assoc).
  rewrite str_drop_app. simpl. by rewrite orb_false_r.
Qed.

Lemma allowed_file_no_dot (filename : string) :
  lacks "." filename → allowed_file filename = false.
Proof.
  intros Hf. unfold allowed_file.
  destruct (Py.contains "." filename) eqn:E; [|done].
  apply contains_spec in E. by apply lacks_not_substring in Hf.
Qed.

(** X15. [allowed_file] accepts exactly the names whose part after the last
    dot is [pdf] in any letter case: a name without dot, or with another
    last extension, is refused. *)
Theorem allowed_file_spec (filename : string) :
  allowed_file filename = true ↔
  ∃ stem ext,
    filename = stem +:+ "." +:+ ext ∧ lacks "." ext ∧ Py.lower ext = "pdf".
Proof.
  split.
  - intros Hok. destruct (last_occurrence "." filename)
      as [Hnone|(stem & ext & -> & Hext)].
    + by rewrite allowed_file_no_dot in Hok.
    + exists stem, ext. split; [done|]. split; [done|].
      change (stem +:+ String "." ext) with (stem +:+ "." +:+ ext) in Hok.
      rewrite allowed_file_split in Hok by done. by apply String.eqb_eq.
  - intros (stem & ext & -> & Hext & Hpdf).
    rewrite allowed_file_split by done. by apply String.eqb_eq.
Qed.

Example allowed_file_examples :
  allowed_file "paper.pdf" = true ∧ allowed_file "Paper.v2.PDF" = true ∧
  allowed_file "paper.pdf.exe" = false ∧ allowed_file "pdf" = false ∧
  allowed_file "paper." = false ∧ allowed_file ".pdf" = true.
Proof. by vm_compute. Qed.

(** ** From the search phase to the results *)




Section SearchResults.

Context `{JsonLib}.


End SearchResults.



(** ** The user profile endpoints *)

Section Users.

Context `{JsonLib}.

Lemma in_world_analyze_description (description : string)
  (experience_level : option string) (s : St) :
  ∃ p,
    in_world (analyze_description description experience_level) s
    = (Returned p,
       {| world := log_prompt (profile_prompt description experience_level)
                     (world s);
          db := db s; history := history s |}).
Proof.
  unfold in_world.
  destruct (analyze_description_returns description experience_level (world s))
    as [p ->].
  by exists p.
Qed.

End Users.

(** X17. [create_user_profile] stores a user or changes nothing: its answer
    is the 201 answer exactly when a row for the new identifier, holding
    the profile of the answer, has been committed with every other table
    and every other user as before; with any other answer the store and
    its history are as they were. *)
Theorem create_user_profile_atomic `{JsonLib} (user_id : string)
  (method description experience_level google_scholar_url : option string)
  (s : St) :
  ∃ r s',
    create_user_profile user_id method description experience_level
      google_scholar_url s = (Returned r, s') ∧
    match r with
    | ProfileCreated u p =>
        u = user_id ∧
        users (db s) !! user_id = None ∧
        db s' = set_user user_id {| profile := p |} (db s) ∧
        history s' = history s ++ [db s]
    | _ => db s' = db s ∧ history s' = history s
    end.
Proof.
  unfold create_user_profile, try_except, create_user_profile_try.
  destruct (String.eqb (default "manual" method) "manual").
  - destruct (Py.truthy_str (default EmptyString description)); cbn [negb];
      [|by eexists _, _].
    unfold bind at 1.
    destruct (in_world_analyze_description (default EmptyString description)
                experience_level s) as [p ->].
    unfold bind, committed, commit, ret, raise. cbn [db history world].
    destruct (users (db s) !! user_id) eqn:Hu; by eexists _, _.
  - destruct (String.eqb (default "manual" method) "scholar");
      [|by eexists _, _].
    destruct (Py.truthy_str (default EmptyString google_scholar_url));
      by eexists _, _.
Qed.

(** X18. With the manual method, a description that is not empty and a new
    identifier, [create_user_profile] always answers 201, whatever the
    text-analysis service does, after exactly one prompt; the profile of
    the answer is the one [get_user_profile] then returns. *)
Theorem create_user_profile_manual `{JsonLib} (user_id description : string)
  (method experience_level google_scholar_url : option string) (s : St) :
  default "manual" method = "manual" →
  description ≠ EmptyString →
  users (db s) !! user_id = None →
  ∃ p s',
    create_user_profile user_id method (Some description) experience_level
      google_scholar_url s = (Returned (ProfileCreated user_id p), s') ∧
    prompts (world s')
    = prompts (world s) ++ [profile_prompt description experience_level] ∧
    get_user_profile user_id s' = (Returned (ProfileFound user_id p), s').
Proof.
  intros Hmethod Hdesc Hnew.
  unfold create_user_profile, try_except, create_user_profile_try.
  rewrite Hmethod, String.eqb_refl.
  change (default EmptyString (Some description)) with description.
  assert (Py.truthy_str description = true) as -> by by destruct description.
  cbn [negb]. unfold bind at 1.
  destruct (in_world_analyze_description description experience_level s)
    as [p ->].
  unfold bind, committed, commit, ret. cbn [db history world]. rewrite Hnew.
  eexists _, _. split; [reflexivity|]. split; [done|].
  unfold get_user_profile, bind, committed, ret. cbn [db users set_user].
  by rewrite lookup_insert_eq.
Qed.

Lemma create_user_profile_manual_witness :
  (default "manual" None = "manual" ∧
   "I work on retrieval." ≠ EmptyString ∧
   users (db uploaded_state) !! "user-1" = None) ∧
  ∃ p s',
    @create_user_profile sample_json "user-1" None
      (Some "I work on retrieval.") (Some "Postdoc") None uploaded_state
    = (Returned (ProfileCreated "user-1" p), s') ∧
    prompts (world s')
    = prompts (world uploaded_state)
      ++ [profile_prompt "I work on retrieval." (Some "Postdoc")] ∧
    @get_user_profile "user-1" s' = (Returned (ProfileFound "user-1" p), s').
Proof.
  assert ("I work on retrieval." ≠ EmptyString) as Hdesc by discriminate.
  assert (users (db uploaded_state) !! "user-1" = None) as Hnew
    by (vm_compute; reflexivity).
  split; [by repeat split|].
  exact (@create_user_profile_manual sample_json "user-1"
           "I work on retrieval." None (Some "Postdoc") None uploaded_state
           eq_refl Hdesc Hnew).
Defined.





(** ** The upload endpoint *)

(** X20. [upload_paper] stores a paper and its job together or changes
    nothing. Its answer is the success answer exactly when one commit has
    added a paper row under the new paper identifier, named after that
    identifier and the secured file name, and a job under the new job
    identifier, in [uploaded] at progress 10 and linked to that paper; this
    happens only for an accepted file name, new identifiers and, when a
    user is given, a stored user. With any other answer the store and its
    history are as they were. *)
Theorem upload_paper_atomic (secure_filename : string → string)
  (file user : option string) (paper analysis : string) (saved : outcome Z)
  (s : St) :
  ∃ r s',
    upload_paper secure_filename file user paper analysis saved s
    = (Returned r, s') ∧
    match r with
    | Uploaded job_id filename =>
        ∃ name,
          file = Some name ∧ allowed_file name = true ∧
          job_id = analysis ∧ filename = secure_filename name ∧
          paper_rows (db s) !! paper = None ∧
          analyses (db s) !! analysis = None ∧
          (Py.truthy_opt_str user = true →
           is_Some (users (db s) !! default EmptyString user)) ∧
          db s' = add_upload paper analysis
                    {| pdf_filename := paper +:+ "_" +:+ filename;
                       user_id := user |} (db s) ∧
          history s' = history s ++ [db s]
    | UploadError _ _ => db s' = db s ∧ history s' = history s
    end.
Proof.
  unfold upload_paper, try_except.
  destruct file as [name|]; [|by eexists _, _].
  destruct (String.eqb name EmptyString); [by eexists _, _|].
  destruct (allowed_file name) eqn:Hallowed; cbn [negb]; [|by eexists _, _].
  unfold bind at 1. unfold lift.
  destruct saved as [size|e]; [|by eexists _, _].
  unfold upload_paper_store, bind, committed, commit, ret, raise.
  destruct (Py.truthy_opt_str user) eqn:Huser; cbn [andb].
  - destruct (decide (is_Some (users (db s) !! default EmptyString user)))
      as [Hsome|Hnone].
    + rewrite bool_decide_eq_true_2 by done. cbn [negb].
      destruct (paper_rows (db s) !! paper) eqn:Hp; [by eexists _, _|].
      destruct (analyses (db s) !! analysis) eqn:Ha; [by eexists _, _|].
      eexists _, _. split; [reflexivity|]. exists name. by repeat split.
    + rewrite bool_decide_eq_false_2 by done. by eexists _, _.
  - destruct (paper_rows (db s) !! paper) eqn:Hp; [by eexists _, _|].
    destruct (analyses (db s) !! analysis) eqn:Ha; [by eexists _, _|].
    eexists _, _. split; [reflexivity|]. exists name. by repeat split.
Qed.

(** X21. An accepted file that is saved, uploaded without user under new
    identifiers, gives a job the read phase can start from: it is stored
    as [uploaded] at progress 10, which [get_status] reports, its paper is
    stored, and every other job is as before. *)
Theorem upload_paper_ready (secure_filename : string → string)
  (name paper analysis : string) (size : Z) (s : St) :
  allowed_file name = true →
  paper_rows (db s) !! paper = None →
  analyses (db s) !! analysis = None →
  ∃ s',
    upload_paper secure_filename (Some name) None paper analysis
      (Returned size) s
    = (Returned (Uploaded analysis (secure_filename name)), s') ∧
    unread analysis s' ∧
    get_status analysis s'
    = (Returned (StatusPayload analysis "uploaded" 10 None), s') ∧
    paper_rows (db s') !! paper
    = Some {| pdf_filename := paper +:+ "_" +:+ secure_filename name;
              user_id := None |} ∧
    ∀ other, other ≠ analysis →
             analyses (db s') !! other = analyses (db s) !! other.
Proof.
  intros Hallowed Hpaper Hjob.
  unfold upload_paper, try_except.
  destruct (String.eqb_spec name EmptyString) as [->|_]; [done|].
  rewrite Hallowed. cbn [negb]. unfold bind at 1. unfold lift.
  unfold upload_paper_store, bind, committed, commit, ret.
  cbn [Py.truthy_opt_str andb]. rewrite Hpaper, Hjob.
  eexists. split; [reflexivity|]. cbn [db].
  split; [|split; [|split]].
  - exists (new_analysis paper). split; [apply lookup_insert_eq | by right].
  - unfold get_status, bind, committed, ret. cbn [db analyses add_upload].
    by rewrite lookup_insert_eq.
  - apply lookup_insert_eq.
  - intros other Hother. cbn [analyses add_upload].
    by rewrite lookup_insert_ne.
Qed.

Lemma upload_paper_ready_witness :
  (allowed_file "Attention Is All You Need.PDF" = true ∧
   paper_rows (db uploaded_state) !! "paper-2" = None ∧
   analyses (db uploaded_state) !! "job-2" = None) ∧
  ∃ s',
    upload_paper (λ name, "Attention_Is_All_You_Need.PDF")
      (Some "Attention Is All You Need.PDF") None "paper-2" "job-2"
      (Returned 2048) uploaded_state
    = (Returned (Uploaded "job-2" "Attention_Is_All_You_Need.PDF"), s') ∧
    unread "job-2" s' ∧
    analyses (db s') !! "job-1" = analyses (db uploaded_state) !! "job-1".
Proof.
  assert (allowed_file "Attention Is All You Need.PDF" = true) as Hallowed
    by (vm_compute; reflexivity).
  assert (paper_rows (db uploaded_state) !! "paper-2" = None) as Hpaper
    by (vm_compute; reflexivity).
  assert (analyses (db uploaded_state) !! "job-2" = None) as Hjob
    by (vm_compute; reflexivity).
  split; [by repeat split|].
  destruct (upload_paper_ready (λ name, "Attention_Is_All_You_Need.PDF")
              "Attention Is All You Need.PDF" "paper-2" "job-2" 2048
              uploaded_state Hallowed Hpaper Hjob)
    as (s' & Hrun & Hunread & _ & _ & Hothers).
  exists s'. split; [exact Hrun|]. split; [exact Hunread|].
  apply Hothers. discriminate.
Defined.

(** ** The bibliometric profile *)

(** X22. On a scholar record whose publications all carry a title (the
    title is read outside the [try]), [analyze_scholar_data] never raises,
    and when the text-analysis call fails or its reply holds no usable JSON
    it returns the record's own figures: the level read off the h-index
    (below 5, below 15, below 30, or more), the first three stated
    interests (["Machine Learning"] when the record has no such entry),
    the number of publications, the h-index, and the neutral values of the
    other entries. *)
Theorem analyze_scholar_data_fallback `{JsonLib} (scholar_data : ScholarData)
  (w : World) :
  let prompt := scholar_prompt scholar_data in
  let h := default 0 (sd_h_index scholar_data) in
  (∃ p, analyze_scholar_data scholar_data w
        = (Returned p, log_prompt prompt w))
  ∧
  (profile_reply_unusable (llm w (length (prompts w)) prompt) →
   ∃ level areas,
     analyze_scholar_data scholar_data w
     = (Returned
          (JDict [("expertise_level", JStr level);
                  ("research_areas", JList (map JStr areas));
                  ("specific_topics", JList []);
                  ("technical_skills", JList []);
                  ("research_style", JStr "Mixed");
                  ("resource_access", JStr "Moderate");
                  ("publication_count",
                   JNum (inject_Z (Z.of_nat
                      (length (default [] (sd_publications scholar_data))))));
                  ("h_index", JNum (inject_Z h));
                  ("novelty_preference", JNum 0.5);
                  ("doability_preference", JNum 0.7)]),
        log_prompt prompt w) ∧
     areas = take 3 (default ["Machine Learning"] (sd_interests scholar_data)) ∧
     (h < 5 → level = "PhD Student") ∧
     (5 ≤ h < 15 → level = "Postdoc") ∧
     (15 ≤ h < 30 → level = "Assistant Professor") ∧
     (30 ≤ h → level = "Associate/Full Professor")).
Proof.
  intros prompt h. split.
  - unfold analyze_scholar_data, try_except, analyze_scholar_data_try, bind,
      generate_content. fold prompt.
    destruct (llm w _ _) as [content|e]; [|by eexists].
    destruct ((0 <=? Py.find "{" content)
              && (Py.find "{" content <? Py.rfind "}" content + 1));
      [|by eexists].
    unfold loads. destruct (json_loads _) as [j|]; by eexists.
  - intros Hbad. exists (expertise_of_h_index h),
      (take 3 (default ["Machine Learning"] (sd_interests scholar_data))).
    split; [|split; [done|]].
    + unfold analyze_scholar_data, try_except, analyze_scholar_data_try, bind,
        generate_content. fold prompt.
      destruct (llm w _ _) as [content|e]; [|done]. simpl in Hbad.
      destruct (Z.leb_spec 0 (Py.find "{" content)) as [Hs|Hs]; simpl; [|done].
      destruct (Z.ltb_spec (Py.find "{" content) (Py.rfind "}" content + 1))
        as [He|He]; [|done].
      destruct Hbad as [?|[?|Hparse]]; [lia | lia |].
      unfold loads. by rewrite Hparse.
    + unfold expertise_of_h_index.
      destruct (Z.ltb_spec h 5), (Z.ltb_spec h 15), (Z.ltb_spec h 30);
        repeat split; intros; try done; lia.
Qed.

Lemma analyze_scholar_data_fallback_witness :
  let record := {| sd_name := Some "A. Researcher"; sd_affiliation := None;
                   sd_interests := Some ["IR"; "NLP"; "Graphs"; "Vision"];
                   sd_publications :=
                     Some [ {| pub_title := "Dense retrieval";
                               pub_year := Some 2021;
                               pub_citations := Some 120 |};
                            {| pub_title := "A note"; pub_year := None;
                               pub_citations := None |} ];
                   sd_h_index := Some 17; sd_total_citations := Some 900 |} in
  profile_reply_unusable (H := sample_json)
    (llm failing_world (length (prompts failing_world)) (scholar_prompt record))
  ∧
  ∃ level areas,
    getitem (match fst (@analyze_scholar_data sample_json record failing_world)
             with Returned p => p | Raised _ => JNull end) "expertise_level"
    = Returned (JStr level) ∧
    getitem (match fst (@analyze_scholar_data sample_json record failing_world)
             with Returned p => p | Raised _ => JNull end) "research_areas"
    = Returned (JList (map JStr areas)) ∧
    level = "Assistant Professor" ∧ areas = ["IR"; "NLP"; "Graphs"].
Proof.
  intros record.
  assert (profile_reply_unusable (H := sample_json)
            (llm failing_world (length (prompts failing_world))
               (scholar_prompt record))) as Hbad by exact I.
  split; [exact Hbad|].
  destruct (@analyze_scholar_data_fallback sample_json record failing_world)
    as [_ Hfallback].
  destruct (Hfallback Hbad) as (level & areas & Hrun & Hareas & _ & _ & Hlevel & _).
  exists level, areas. rewrite Hrun. simpl fst.
  split; [done|]. split; [done|].
  split; [apply Hlevel; simpl; lia | exact Hareas].
Defined.

(** ** What a successful read phase leaves *)

Lemma snapshot_profile_fields (d : Db) (paper : PaperRow) (a : Analysis) :
  let a' := snapshot_profile d paper a in
  status a' = status a ∧ progress a' = progress a ∧
  selected_topics a' = selected_topics a ∧
  (∀ uid u p,
     user_id paper = Some uid → uid ≠ EmptyString →
     users d !! uid = Some u → profile u = Some p → truthy p = true →
     user_profile_snapshot a' = Some p).
Proof.
  unfold snapshot_profile. repeat split.
  1-3: destruct (Py.truthy_opt_str (user_id paper)); [|done];
       destruct (users d !! _) as [user|]; [|done];
       destruct (profile user) as [p|]; [|done]; by destruct (truthy p).
  intros uid u p Huid Hne Hu Hp Ht. rewrite Huid.
  assert (Py.truthy_opt_str (Some uid) = true) as -> by by destruct uid.
  cbn [default]. unfold id. by rewrite Hu, Hp, Ht.
Qed.

(** X23. After a read phase that answers with success on a non-empty job
    identifier, the topics of the request were not empty and are stored
    with the job; the job is in [ideas_ready] at progress 60; the stored
    candidate ideas are the ideas of the answer, so the indices the user
    then selects are indices into what was shown; the PDF was extracted
    once and the reader called once; and the profile of the paper's user,
    when there is one that is not empty, is copied into the job. *)
Theorem read_phase_success (s s' : St) (job_id answered summary : string)
  (topics concepts : list string) (ideas : list Idea) :
  analyze_paper_read (Some job_id) topics s
  = (Returned (ReadResponse answered summary concepts ideas), s') →
  answered = job_id ∧ topics ≠ [] ∧
  length (extractions (world s')) = S (length (extractions (world s))) ∧
  length (readings (world s')) = S (length (readings (world s))) ∧
  ∃ a a' paper,
    analyses (db s) !! job_id = Some a ∧
    paper_rows (db s) !! paper_id a = Some paper ∧
    analyses (db s') !! job_id = Some a' ∧
    status a' = ideas_ready ∧ progress a' = 60 ∧
    selected_topics a' = topics ∧
    stored_ideas a' = ideas ∧
    (∀ uid u p,
       user_id paper = Some uid → uid ≠ EmptyString →
       users (db s) !! uid = Some u → profile u = Some p → truthy p = true →
       user_profile_snapshot a' = Some p).
Proof.
  unfold analyze_paper_read, try_except, analyze_paper_read_try.
  destruct (Py.truthy_opt_str (Some job_id)) eqn:Hid; cbn [negb]; [|done].
  assert (job_id ≠ EmptyString) as Hne by (by destruct job_id).
  cbn [default]. unfold id. unfold bind at 1. unfold committed at 1.
  cbv beta iota.
  destruct (analyses (db s) !! job_id) as [a|] eqn:Ha; [|done].
  destruct topics as [|topic topics]; [done|].
  cbn [paper_id with_progress with_status with_selected_topics].
  destruct (paper_rows (db s) !! paper_id a) as [paper|] eqn:Hpaper.
  2:{ unfold raise. by erewrite fail_job_run; [|done|exact Ha]. }
  unfold bind at 1. unfold commit at 1. cbv beta iota.
  unfold bind at 1. rewrite in_world_extract. cbn [world db history].
  destruct (pdf (world s) _) as [paper_text|e].
  - destruct (Py.truthy_str paper_text); cbn [negb]; cbv beta iota.
    + unfold bind at 1. unfold committed at 1. cbv beta iota.
      unfold bind at 1. unfold commit at 1. cbv beta iota.
      unfold bind at 1. unfold in_world, analyze_paper. cbn [world db history].
      destruct (reader _ _ _) as [reader_results|e].
      * unfold bind, committed, commit, ret. cbn [world db history].
        intros [= <- <- <- <- <-]. cbn [world db extractions readings
          log_extraction log_reading].
        split; [done|]. split; [done|].
        split; [rewrite length_app; simpl; lia|].
        split; [rewrite length_app; simpl; lia|].
        eexists a, _, paper. split; [done|]. split; [done|].
        split; [apply lookup_set_analysis|].
        destruct (snapshot_profile_fields (db s) paper
                    (with_progress 20 (with_status parsing
                       (with_selected_topics (topic :: topics) a))))
          as (_ & _ & Htopics & Hsnap).
        by repeat split.
      * by erewrite fail_job_run; [|done|cbn [db]; apply lookup_set_analysis].
    + unfold bind, committed, commit, ret. by cbn [world db history].
  - by erewrite fail_job_run; [|done|cbn [db]; apply lookup_set_analysis].
Qed.

Lemma read_phase_success_witness :
  let run := analyze_paper_read (Some "job-1") ["nlp"] uploaded_state in
  run = (Returned (ReadResponse "job-1" (ro_summary sample_reader_output)
                     (ro_concepts sample_reader_output) sample_ideas),
         snd run) ∧
  ∃ a',
    analyses (db (snd run)) !! "job-1" = Some a' ∧
    status a' = ideas_ready ∧ progress a' = 60 ∧
    selected_topics a' = ["nlp"] ∧ stored_ideas a' = sample_ideas.
Proof.
  intros run.
  assert (run = (Returned (ReadResponse "job-1"
                             (ro_summary sample_reader_output)
                             (ro_concepts sample_reader_output) sample_ideas),
                 snd run)) as Hrun by (vm_compute; reflexivity).
  split; [exact Hrun|].
  destruct (read_phase_success uploaded_state (snd run) "job-1" "job-1" _
              ["nlp"] _ _ Hrun)
    as (_ & _ & _ & _ & a & a' & paper & _ & _ & Ha' & Hst & Hp & Ht & Hi & _).
  exists a'. by repeat split.
Defined.
